(** * The dataset synchronisation command [get_api_data]

    A shallow embedding of [cfc_app/management/commands/get_api_data.py]:
    the Django management command that keeps a cached Legiscan DatasetList
    (the manifest) in File/Object Storage, fetches the session datasets of
    every state and records a [Hash] row (the ledger) for each expected
    dataset.

    The command is an object with mutable attributes that prints, talks to
    a remote API, to a blob store and to the Django database, and raises
    exceptions.  It is embedded in a state-and-exception monad over a
    [World]; an exception keeps the world reached so far, as in Python. *)

From Stdlib Require Import ZArith List String Ascii Bool Lia DecimalString.
From Stdlib Require Import RelationClasses.
From Stdlib Require DecimalFacts DecimalPos.
Import ListNotations.

Open Scope string_scope.
Open Scope Z_scope.
Open Scope list_scope.

(** String concatenation, Python's [+] on [str]. *)
Infix "+++" := String.append (right associativity, at level 60).

(* ================================================================= *)
(** ** Strings *)

(** [str(n)] for a Python [int]. *)
Definition str_int (n : Z) : string := NilZero.string_of_int (Z.to_int n).

Definition is_digit (c : ascii) : bool :=
  ((48 <=? nat_of_ascii c) && (nat_of_ascii c <=? 57))%nat.

Definition digit_val (c : ascii) : Z := Z.of_nat (nat_of_ascii c) - 48.

(** The value of a run of decimal digits, most significant first. *)
Fixpoint digits_val (acc : Z) (s : string) : Z :=
  match s with
  | EmptyString => acc
  | String c s' => digits_val (10 * acc + digit_val c) s'
  end.

Fixpoint all_digits (s : string) : bool :=
  match s with
  | EmptyString => true
  | String c s' => is_digit c && all_digits s'
  end.

(** [str.upper()] on the ASCII letters (state codes are ASCII). *)
Definition upper_ascii (c : ascii) : ascii :=
  let n := nat_of_ascii c in
  if ((97 <=? n) && (n <=? 122))%nat then ascii_of_nat (n - 32) else c.

Fixpoint upper (s : string) : string :=
  match s with
  | EmptyString => EmptyString
  | String c s' => String (upper_ascii c) (upper s')
  end.

(** [s.split(sep)] for a one-character separator. *)
Fixpoint split_on (sep : ascii) (s : string) : list string :=
  match s with
  | EmptyString => [EmptyString]
  | String c s' =>
      if Ascii.eqb c sep then EmptyString :: split_on sep s'
      else match split_on sep s' with
           | [] => [String c EmptyString]
           | hd :: tl => String c hd :: tl
           end
  end.

(** [needle in haystack] on [str]. *)
Definition substring_of (needle haystack : string) : bool :=
  match String.index 0 needle haystack with
  | Some _ => true
  | None => false
  end.

(** [name in names] on a list of [str]. *)
Definition in_list (name : string) (names : list string) : bool :=
  existsb (String.eqb name) names.

(** Left-pad a decimal rendering with zeros up to [width] characters. *)
Fixpoint zeros (n : nat) : string :=
  match n with
  | O => EmptyString
  | S n' => String "0" (zeros n')
  end.

Definition zero_pad (width : nat) (n : Z) : string :=
  let s := str_int n in
  zeros (width - String.length s) +++ s.

(* ================================================================= *)
(** ** Dates and times

    A naive [datetime] is a point on the proleptic Gregorian time line;
    it is represented by its number of microseconds since the midnight
    that starts ordinal day 0, so that Python's comparison of two
    [datetime]s is the comparison of integers, and subtracting a
    [timedelta] is integer subtraction.  The calendar functions follow
    CPython's [datetime.py]. *)

Module DT.

Definition datetime := Z.

Definition us_per_day : Z := 86400000000.

Definition is_leap (year : Z) : bool :=
  (year mod 4 =? 0) && (negb (year mod 100 =? 0) || (year mod 400 =? 0)).

Definition days_before_year (year : Z) : Z :=
  let y := year - 1 in
  y * 365 + y / 4 - y / 100 + y / 400.

Definition DAYS_IN_MONTH : list Z :=
  [-1; 31; 28; 31; 30; 31; 30; 31; 31; 30; 31; 30; 31].

Definition DAYS_BEFORE_MONTH : list Z :=
  [-1; 0; 31; 59; 90; 120; 151; 181; 212; 243; 273; 304; 334].

Definition days_in_month (year month : Z) : Z :=
  if (month =? 2) && is_leap year then 29
  else nth (Z.to_nat month) DAYS_IN_MONTH 0.

Definition days_before_month (year month : Z) : Z :=
  nth (Z.to_nat month) DAYS_BEFORE_MONTH 0
  + (if (2 <? month) && is_leap year then 1 else 0).

Definition ymd2ord (year month day : Z) : Z :=
  days_before_year year + days_before_month year month + day.

(** [_ord2ymd]: the date of an ordinal day. *)
Definition ord2ymd (ordinal : Z) : Z * Z * Z :=
  let n := ordinal - 1 in
  let n400 := n / 146097 in
  let n := n mod 146097 in
  let year := n400 * 400 + 1 in
  let n100 := n / 36524 in
  let n := n mod 36524 in
  let n4 := n / 1461 in
  let n := n mod 1461 in
  let n1 := n / 365 in
  let n := n mod 365 in
  let year := year + n100 * 100 + n4 * 4 + n1 in
  if (n1 =? 4) || (n100 =? 4) then (year - 1, 12, 31)
  else
    let leapyear := (n1 =? 3) && (negb (n4 =? 24) || (n100 =? 3)) in
    let month := Z.shiftr (n + 50) 5 in
    let preceding :=
      nth (Z.to_nat month) DAYS_BEFORE_MONTH 0
      + (if (2 <? month) && leapyear then 1 else 0) in
    if n <? preceding then
      let month := month - 1 in
      let preceding :=
        preceding
        - (nth (Z.to_nat month) DAYS_IN_MONTH 0
           + (if (month =? 2) && leapyear then 1 else 0)) in
      (year, month, n - preceding + 1)
    else (year, month, n - preceding + 1).

(** [datetime(year, month, day, hour, minute)]. *)
Definition mk (year month day hour minute : Z) : datetime :=
  ymd2ord year month day * us_per_day
  + (hour * 3600 + minute * 60) * 1000000.

(** [timedelta(days=n)]. *)
Definition timedelta_days (n : Z) : Z := n * us_per_day.

(** [dt.strftime("%Y-%m-%d")].  CPython hands the format to the
    [strftime] of the C library, which writes the month and the day
    with two digits and, on Linux, the year as the number it is: a year
    below 1000 gets no zero before it ([datetime(999, 3, 1)] gives
    [999-03-01]). *)
Definition strftime_ymd (dt : datetime) : string :=
  let '(y, m, d) := ord2ymd (dt / us_per_day) in
  str_int y +++ "-" +++ zero_pad 2 m +++ "-" +++ zero_pad 2 d.

(** The directive [%Y]: exactly four digits. *)
Definition year_token (s : string) : bool :=
  (String.length s =? 4)%nat && all_digits s.

(** The directive [%m]: [1[0-2]|0[1-9]|[1-9]]. *)
Definition month_token (s : string) : bool :=
  match s with
  | String a EmptyString => is_digit a && negb (Ascii.eqb a "0")
  | String a (String b EmptyString) =>
      (Ascii.eqb a "1" && (Ascii.eqb b "0" || Ascii.eqb b "1" || Ascii.eqb b "2"))
      || (Ascii.eqb a "0" && is_digit b && negb (Ascii.eqb b "0"))
  | _ => false
  end.

(** The directive [%d]: [3[01]|[12]\d|0[1-9]|[1-9]| [1-9]]. *)
Definition day_token (s : string) : bool :=
  match s with
  | String a EmptyString => is_digit a && negb (Ascii.eqb a "0")
  | String a (String b EmptyString) =>
      (Ascii.eqb a "3" && (Ascii.eqb b "0" || Ascii.eqb b "1"))
      || ((Ascii.eqb a "1" || Ascii.eqb a "2") && is_digit b)
      || ((Ascii.eqb a "0" || Ascii.eqb a " ")
          && is_digit b && negb (Ascii.eqb b "0"))
  | _ => false
  end.

Definition day_value (s : string) : Z :=
  match s with
  | String " " rest => digits_val 0 rest
  | _ => digits_val 0 s
  end.

(** [datetime.strptime(s, "%Y-%m-%d")]; [None] stands for the
    [ValueError] raised when the text does not match the format or
    names no day of the calendar (years run from 1 to 9999). *)
Definition strptime_ymd (s : string) : option datetime :=
  match split_on "-" s with
  | [y; m; d] =>
      if year_token y && month_token m && day_token d then
        let year := digits_val 0 y in
        let month := digits_val 0 m in
        let day := day_value d in
        if (1 <=? year) && (day <=? days_in_month year month)
        then Some (ymd2ord year month day * us_per_day)
        else None
      else None
  | _ => None
  end.

End DT.

(* ================================================================= *)
(** ** Data model *)

(** One session object of the [datasetlist] array of a Legiscan
    DatasetList, with the fields the command reads. *)
Module Entry.
Record t := mk {
  state_id : Z;
  session_id : Z;
  access_key : string;
  year_start : Z;
  year_end : Z;
  dataset_date : string;
  dataset_hash : string;
  dataset_size : Z;
  session_name : string
}.
End Entry.

(** A row of the Django table [Location]. *)
Module Location.
Record t := mk {
  id : Z;
  shortname : string;
  desc : string;
  legiscan_id : Z;
  parent : option Z
}.
End Location.

(** A row of the Django table [Hash], the change-detection ledger. *)
Module Hash.
Record t := mk {
  item_name : string;
  fob_method : string;
  generated_date : string;
  hashcode : string;
  size : Z;
  desc : string
}.
End Hash.

(** The Python values the command holds in its attributes: [None], text,
    and what [json.loads] gives for a DatasetList (an object whose
    [datasetlist] member is an array of session objects). *)
#[warnings="-register-all"]
Inductive pyval :=
| PyNone
| PyBool (b : bool)
| PyInt (n : Z)
| PyStr (s : string)
| PyList (l : list Entry.t)
| PyDict (d : list (string * pyval)).

Inductive exn :=
| CommandError (msg : string)
| TypeError
| KeyError (key : string)
| ValueError
| JSONDecodeError
| NotFound (key : string)
| DoesNotExist
| MultipleObjectsReturned.

(** The three fatal errors of the manifest resolver are all raised as
    [CommandError]; they differ by their message. *)
Definition ManifestUnavailable : exn :=
  CommandError "API failure, or DatasetList not Found".
Definition ManifestStatusError (file : string) : exn :=
  CommandError ("Status not OK: " +++ file).
Definition ManifestMalformed : exn :=
  CommandError "datsetlist missing".

(** Truth value of a Python value in a condition. *)
Definition truthy (v : pyval) : bool :=
  match v with
  | PyNone => false
  | PyBool b => b
  | PyInt n => negb (n =? 0)
  | PyStr s => negb (String.eqb s "")
  | PyList l => match l with [] => false | _ => true end
  | PyDict d => match d with [] => false | _ => true end
  end.

(** The Python value of a result that is a text or [None]. *)
Definition text_or_none (text : option string) : pyval :=
  match text with
  | Some s => PyStr s
  | None => PyNone
  end.

(** Truth value of an attribute that holds [None] or a [str]. *)
Definition truthy_name (name : option string) : bool :=
  match name with
  | Some s => negb (String.eqb s "")
  | None => false
  end.

(** [str(name)] for [None] or a [str]. *)
Definition str_name (name : option string) : string :=
  match name with
  | Some s => s
  | None => "None"
  end.

Fixpoint dict_get (d : list (string * pyval)) (key : string) : option pyval :=
  match d with
  | [] => None
  | (k, v) :: d' => if String.eqb k key then Some v else dict_get d' key
  end.

(** [key in v]: membership in a dict is membership among its keys, in a
    [str] it is the substring test, a list of session objects holds no
    [str]; the other values are not containers. *)
Definition py_contains (key : string) (v : pyval) : exn + bool :=
  match v with
  | PyDict d => inr (match dict_get d key with Some _ => true | None => false end)
  | PyStr s => inr (substring_of key s)
  | PyList _ => inr false
  | PyNone | PyBool _ | PyInt _ => inl TypeError
  end.

(** [v[key]] for a [str] key. *)
Definition py_getitem (v : pyval) (key : string) : exn + pyval :=
  match v with
  | PyDict d => match dict_get d key with
                | Some x => inr x
                | None => inl (KeyError key)
                end
  | _ => inl TypeError
  end.

(** [v != s] for a [str] literal [s]. *)
Definition py_ne_str (v : pyval) (s : string) : bool :=
  match v with
  | PyStr t => negb (String.eqb t s)
  | _ => true
  end.

(** [prefix + name] where [name] holds [None] or a [str]. *)
Definition str_add (prefix : string) (name : option string) : exn + string :=
  match name with
  | Some s => inr (prefix +++ s)
  | None => inl TypeError
  end.

(** The session objects a loop [for entry in v] runs its body on.  The
    body starts by reading [entry['state_id']], so a container with an
    element that is no session object (a character of a text, a key of a
    dict) is a [TypeError] before the body has any effect. *)
Definition py_iter (v : pyval) : exn + list Entry.t :=
  match v with
  | PyList l => inr l
  | PyStr EmptyString => inr []
  | PyDict [] => inr []
  | _ => inl TypeError
  end.

(* ================================================================= *)
(** ** File/Object Storage *)

Module FOB.

(** Modelled from the spec: the class [FOB_Storage] of
    [cfc_app/FOB_Storage.py].  The blob store maps keys to text,
    [upload] overwrites the content of a key, [download] fails with
    [NotFound] on an absent key, [listKeys(prefix)] gives the keys
    with that prefix. *)
Definition store := list (string * string).

(** Modelled from the spec: [upload(key, content)] overwrites the
    content of a key that exists and adds the key otherwise. *)
Fixpoint upload_text (data : string) (name : string) (s : store) : store :=
  match s with
  | [] => [(name, data)]
  | (k, v) :: s' =>
      if String.eqb k name then (k, data) :: s'
      else (k, v) :: upload_text data name s'
  end.

(** Modelled from the spec: [download(key)] gives the content of the
    key and fails with [NotFound] if it is absent. *)
Fixpoint download_text (name : string) (s : store) : exn + string :=
  match s with
  | [] => inl (NotFound name)
  | (k, v) :: s' =>
      if String.eqb k name then inr v else download_text name s'
  end.

(** Modelled from the spec: [listKeys(prefix)], in the order of the
    store. *)
Definition list_items (prefix : string) (s : store) : list string :=
  filter (String.prefix prefix) (map fst s).

(** Modelled from the spec: manifest keys match
    [DatasetList-YYYY-MM-DD.json]. *)
Definition DatasetList_items (s : store) : list string :=
  list_items "DatasetList-" s.

(** Modelled from the spec: the shape [YYYY-MM-DD], in digits. *)
Definition date_shape (g : string) : bool :=
  match split_on "-" g with
  | [y; m; d] =>
      (String.length y =? 4)%nat && all_digits y
      && (String.length m =? 2)%nat && all_digits m
      && (String.length d =? 2)%nat && all_digits d
  | _ => false
  end.

(** Modelled from the spec: [DatasetList_search] matches a name
    against [DatasetList-YYYY-MM-DD.json]; the result is group 1 of
    the match, the embedded date, or [None]. *)
Definition DatasetList_search (name : string) : option string :=
  let g := String.substring 12 10 name in
  if String.eqb name ("DatasetList-" +++ g +++ ".json") && date_shape g
  then Some g else None.

(** Modelled from the spec: the manifest key for a date. *)
Definition gen_DatasetList_name (today : string) : string :=
  "DatasetList-" +++ today +++ ".json".

(** Modelled from the spec: dataset keys match
    [<RegionCode>-<SessionId>.json]; the second argument is the
    number that follows the region code. *)
Definition Dataset_name (state : string) (number : Z) : string :=
  state +++ "-" +++ str_int number +++ ".json".

(** Modelled from the spec: the Blob Store listing for a region. *)
Definition Dataset_items (state : string) (s : store) : list string :=
  list_items (state +++ "-") s.

End FOB.

(* ================================================================= *)
(** ** The remote API client *)

(** The interface of [cfc_app/LegiscanAPI.py] the command uses: the
    attribute [api_ok], [getDatasetList(quality)] that gives the
    manifest text or [None], and [getDataset(session_id, access_key)]
    that gives the dataset text.  A call may change the client. *)
Class LegiscanAPI (L : Type) := {
  api_ok : L -> bool;
  getDatasetList : string -> L -> option string * L;
  getDataset : Z -> string -> L -> string * L
}.

(** Modelled from the spec: a client whose state carries a fetch quota,
    which is available only while some is left, is spent by every
    dataset fetch and is never reset during a run. *)
Class QuotaClient (L : Type) `{LegiscanAPI L} := {
  quota : L -> nat;
  api_ok_quota : forall l, api_ok l = true -> (0 < quota l)%nat;
  getDataset_spends : forall sid key l,
    (quota (snd (getDataset sid key l)) <= quota l - 1)%nat;
  getDatasetList_keeps : forall quality l,
    (quota (snd (getDatasetList quality l)) <= quota l)%nat
}.

(* ================================================================= *)
(** ** The command object and the world it runs in *)

Section Command.

Context {L : Type} `{LegiscanAPI L}.

(** The attributes of [Command], as [__init__] declares them
    ([state] is set by [handle] only). *)
Record Command := mkCommand {
  fob : FOB.store;
  leg : L;
  use_api : bool;
  list_name : option string;
  list_data : pyval;
  list_pkg : pyval;
  datasetlist : pyval;
  fromyear : Z;
  frequency : Z;
  state : option string
}.

(** [Command.__init__], over a blob store and an API client. *)
Definition init (store : FOB.store) (client : L) : Command :=
  {| fob := store; leg := client; use_api := false;
     list_name := None; list_data := PyNone; list_pkg := PyNone;
     datasetlist := PyNone; fromyear := 2018; frequency := 7;
     state := None |}.

(** What a run can read and change: the command object, the clock,
    standard output, the two database tables, and the requests made
    to the remote API so far. *)
Record World := mkWorld {
  self : Command;
  clock : DT.datetime;
  stdout : list string;
  Location_objects : list Location.t;
  Hash_objects : list Hash.t;
  manifest_requests : list string;
  dataset_requests : list (Z * string)
}.

Definition with_self (f : Command -> Command) (w : World) : World :=
  {| self := f (self w); clock := clock w; stdout := stdout w;
     Location_objects := Location_objects w;
     Hash_objects := Hash_objects w;
     manifest_requests := manifest_requests w;
     dataset_requests := dataset_requests w |}.

(** A computation reads and changes the world and either raises an
    exception or gives a value. *)
Definition M (A : Type) : Type := World -> (exn + A) * World.

Definition ret {A} (a : A) : M A := fun w => (inr a, w).

Definition bind {A B} (c : M A) (k : A -> M B) : M B :=
  fun w => match c w with
           | (inr a, w') => k a w'
           | (inl e, w') => (inl e, w')
           end.

Definition raise {A} (e : exn) : M A := fun w => (inl e, w).

Definition lift {A} (r : exn + A) : M A := fun w => (r, w).

Definition gets {A} (f : World -> A) : M A := fun w => (inr (f w), w).

Definition modify (f : World -> World) : M unit := fun w => (inr tt, f w).

Definition when (b : bool) (c : M unit) : M unit :=
  if b then c else ret tt.

(** [try: c except e: handler], for the exceptions [handler] takes. *)
Definition try_except {A} (c : M A) (handler : exn -> option (M A)) : M A :=
  fun w => match c w with
           | (inr a, w') => (inr a, w')
           | (inl e, w') => match handler e with
                            | Some h => h w'
                            | None => (inl e, w')
                            end
           end.

End Command.

Arguments Command L : clear implicits.
Arguments World L : clear implicits.
Arguments M L A : clear implicits.

Declare Scope py_scope.
Delimit Scope py_scope with py.
Notation "x <- c ;; k" := (bind c (fun x => k))
  (at level 61, c at next level, right associativity) : py_scope.
Notation "' p <- c ;; k" := (bind c (fun x => let 'p := x in k))
  (at level 61, p pattern, c at next level, right associativity) : py_scope.
Notation "c ;; k" := (bind c (fun _ => k))
  (at level 61, right associativity) : py_scope.
Open Scope py_scope.

Fixpoint for_each {L X} (xs : list X) (body : X -> M L unit) : M L unit :=
  match xs with
  | [] => ret tt
  | x :: xs' => body x ;; for_each xs' body
  end.

(** A loop that also updates a local variable. *)
Fixpoint for_each_acc {L X S} (xs : list X) (acc : S)
    (body : X -> S -> M L S) : M L S :=
  match xs with
  | [] => ret acc
  | x :: xs' => acc' <- body x acc ;; for_each_acc xs' acc' body
  end.

(* ================================================================= *)
(** ** Attribute assignments and the calls that leave the command *)

Section Primitives.

Context {L : Type} `{LegiscanAPI L}.

Definition set_fob (v : FOB.store) (c : Command L) : Command L :=
  {| fob := v; leg := leg c; use_api := use_api c;
     list_name := list_name c; list_data := list_data c;
     list_pkg := list_pkg c; datasetlist := datasetlist c;
     fromyear := fromyear c; frequency := frequency c; state := state c |}.

Definition set_leg (v : L) (c : Command L) : Command L :=
  {| fob := fob c; leg := v; use_api := use_api c;
     list_name := list_name c; list_data := list_data c;
     list_pkg := list_pkg c; datasetlist := datasetlist c;
     fromyear := fromyear c; frequency := frequency c; state := state c |}.

Definition set_use_api (v : bool) (c : Command L) : Command L :=
  {| fob := fob c; leg := leg c; use_api := v;
     list_name := list_name c; list_data := list_data c;
     list_pkg := list_pkg c; datasetlist := datasetlist c;
     fromyear := fromyear c; frequency := frequency c; state := state c |}.

Definition set_list_name (v : option string) (c : Command L) : Command L :=
  {| fob := fob c; leg := leg c; use_api := use_api c;
     list_name := v; list_data := list_data c;
     list_pkg := list_pkg c; datasetlist := datasetlist c;
     fromyear := fromyear c; frequency := frequency c; state := state c |}.

Definition set_list_data (v : pyval) (c : Command L) : Command L :=
  {| fob := fob c; leg := leg c; use_api := use_api c;
     list_name := list_name c; list_data := v;
     list_pkg := list_pkg c; datasetlist := datasetlist c;
     fromyear := fromyear c; frequency := frequency c; state := state c |}.

Definition set_list_pkg (v : pyval) (c : Command L) : Command L :=
  {| fob := fob c; leg := leg c; use_api := use_api c;
     list_name := list_name c; list_data := list_data c;
     list_pkg := v; datasetlist := datasetlist c;
     fromyear := fromyear c; frequency := frequency c; state := state c |}.

Definition set_datasetlist (v : pyval) (c : Command L) : Command L :=
  {| fob := fob c; leg := leg c; use_api := use_api c;
     list_name := list_name c; list_data := list_data c;
     list_pkg := list_pkg c; datasetlist := v;
     fromyear := fromyear c; frequency := frequency c; state := state c |}.

Definition set_frequency (v : Z) (c : Command L) : Command L :=
  {| fob := fob c; leg := leg c; use_api := use_api c;
     list_name := list_name c; list_data := list_data c;
     list_pkg := list_pkg c; datasetlist := datasetlist c;
     fromyear := fromyear c; frequency := v; state := state c |}.

Definition set_state (v : option string) (c : Command L) : Command L :=
  {| fob := fob c; leg := leg c; use_api := use_api c;
     list_name := list_name c; list_data := list_data c;
     list_pkg := list_pkg c; datasetlist := datasetlist c;
     fromyear := fromyear c; frequency := frequency c; state := v |}.

(** [self.attr = v]. *)
Definition assign (set : Command L -> Command L) : M L unit :=
  modify (with_self set).

(** [self.attr]. *)
Definition attr {A} (get : Command L -> A) : M L A :=
  gets (fun w => get (self w)).

(** [print(line)]. *)
Definition print (line : string) : M L unit :=
  modify (fun w =>
    {| self := self w; clock := clock w; stdout := stdout w ++ [line];
       Location_objects := Location_objects w;
       Hash_objects := Hash_objects w;
       manifest_requests := manifest_requests w;
       dataset_requests := dataset_requests w |}).

(** [DT.datetime.today()]. *)
Definition datetime_today : M L DT.datetime := gets clock.

(** [self.leg.getDatasetList(quality)]: one manifest request. *)
Definition leg_getDatasetList (quality : string) : M L pyval :=
  fun w =>
    let '(text, client) := getDatasetList quality (leg (self w)) in
    (inr (text_or_none text),
     {| self := set_leg client (self w); clock := clock w;
        stdout := stdout w;
        Location_objects := Location_objects w;
        Hash_objects := Hash_objects w;
        manifest_requests := manifest_requests w ++ [quality];
        dataset_requests := dataset_requests w |}).

(** [self.leg.getDataset(session_id, access_key)]: one dataset
    request. *)
Definition leg_getDataset (session_id : Z) (access_key : string)
    : M L pyval :=
  fun w =>
    let '(text, client) := getDataset session_id access_key (leg (self w)) in
    (inr (PyStr text),
     {| self := set_leg client (self w); clock := clock w;
        stdout := stdout w;
        Location_objects := Location_objects w;
        Hash_objects := Hash_objects w;
        manifest_requests := manifest_requests w;
        dataset_requests :=
          dataset_requests w ++ [(session_id, access_key)] |}).

(** [self.fob.upload_text(data, name)]; the content is text. *)
Definition fob_upload_text (data : pyval) (name : string) : M L unit :=
  match data with
  | PyStr text =>
      assign (fun c => set_fob (FOB.upload_text text name (fob c)) c)
  | _ => raise TypeError
  end.

(** [self.fob.download_text(name)]; the key is text. *)
Definition fob_download_text (name : option string) : M L pyval :=
  match name with
  | Some key =>
      store <- attr fob ;;
      text <- lift (FOB.download_text key store) ;;
      ret (PyStr text)
  | None => raise TypeError
  end.

(** [hash.save()] on a new [Hash] object: one more row. *)
Definition Hash_save (row : Hash.t) : M L unit :=
  modify (fun w =>
    {| self := self w; clock := clock w; stdout := stdout w;
       Location_objects := Location_objects w;
       Hash_objects := Hash_objects w ++ [row];
       manifest_requests := manifest_requests w;
       dataset_requests := dataset_requests w |}).

(** [Location.objects.get(shortname=name)]. *)
Definition Location_get (name : string) : M L Location.t :=
  rows <- gets (@Location_objects L) ;;
  match filter (fun loc => String.eqb (Location.shortname loc) name) rows with
  | [] => raise DoesNotExist
  | [loc] => ret loc
  | _ => raise MultipleObjectsReturned
  end.

(** [Location.objects.filter(parent=above)]. *)
Definition Location_filter_parent (above : Location.t)
    : M L (list Location.t) :=
  rows <- gets (@Location_objects L) ;;
  ret (filter (fun loc =>
                 match Location.parent loc with
                 | Some p => p =? Location.id above
                 | None => false
                 end) rows).

Definition set_Location_objects (rows : list Location.t) : M L unit :=
  modify (fun w =>
    {| self := self w; clock := clock w; stdout := stdout w;
       Location_objects := rows;
       Hash_objects := Hash_objects w;
       manifest_requests := manifest_requests w;
       dataset_requests := dataset_requests w |}).

End Primitives.

(* ================================================================= *)
(** ** The command *)

(** The options [add_arguments] declares: [--api], [--state] and
    [--frequency] (an [int], 7 when absent). *)
Record Options := mkOptions {
  opt_api : bool;
  opt_state : option string;
  opt_frequency : Z
}.

(** [s != n] for a [str] and an [int]: values of the two types are never
    equal. *)
Definition str_ne_int (s : string) (n : Z) : bool := true.

(** [StateForm.format(session, years, date, size)]. *)
Definition StateForm (session : Z) (years date : string) (size : Z) : string :=
  "Session " +++ str_int session +++ " Year: " +++ years
  +++ " Date: " +++ date +++ " Size: " +++ str_int size +++ " bytes".

(** Lines 120-128 of [recent_enough]: the loop over the names of the
    cached DatasetList files, on its two local variables. *)
Fixpoint latest_scan (dsl_list : list string)
    (latest_date : DT.datetime) (latest_name : option string)
    : exn + (DT.datetime * option string) :=
  match dsl_list with
  | [] => inr (latest_date, latest_name)
  | name :: rest =>
      match FOB.DatasetList_search name with
      | Some group1 =>
          match DT.strptime_ymd group1 with
          | Some filedate =>
              if latest_date <? filedate
              then latest_scan rest filedate (Some name)
              else latest_scan rest latest_date latest_name
          | None => inl ValueError
          end
      | None => latest_scan rest latest_date latest_name
      end
  end.

(** [DT.datetime(1911, 6, 16, 16, 20)], "long ago in history". *)
Definition long_ago : DT.datetime := DT.mk 1911 6 16 16 20.

Section Code.

Context {L : Type} `{LegiscanAPI L}.

(** [json.loads] of the standard library; [None] stands for its
    [JSONDecodeError]. *)
Variable json_loads : string -> option pyval.

(** [load_default_locations] of [cfc_app/views.py], as the change it
    makes to the table [Location]. *)
Variable load_default_locations : list Location.t -> list Location.t.

(** [settings.FOB_METHOD]. *)
Variable FOB_METHOD : string.

(** [json.loads(data)]. *)
Definition json_loads_py (data : pyval) : M L pyval :=
  match data with
  | PyStr text =>
      match json_loads text with
      | Some pkg => ret pkg
      | None => raise JSONDecodeError
      end
  | _ => raise TypeError
  end.

(** Lines 132-142 of [recent_enough]: ask the API for a new
    DatasetList when the cached one is more than a week old. *)
Definition refresh_from_api (now latest_date : DT.datetime) : M L unit :=
  let week_ago := now - DT.timedelta_days 7 in
  (* If --api is set, but file is more than a week old, get the latest *)
  api <- attr use_api ;;
  when (api && (latest_date <? week_ago)) (
    data <- leg_getDatasetList "Good" ;;
    assign (set_list_data data) ;;
    (* If successful return from API, save this to a file *)
    if truthy data then
      let today := DT.strftime_ymd now in
      let name := FOB.gen_DatasetList_name today in
      assign (set_list_name (Some name)) ;;
      fob_upload_text data name
    else
      print "API Failed to get DatasetList from Legiscan").

(** Lines 144-147: API failure or not called, get the item from
    File/Object storage. *)
Definition load_from_storage (latest_name : option string) : M L unit :=
  data <- attr list_data ;;
  when (truthy_name latest_name && negb (truthy data)) (
    name <- attr list_name ;;
    print ("Downloading:  " +++ str_name name) ;;
    text <- fob_download_text name ;;
    assign (set_list_data text)).

(** Lines 153-161: validate that the decoded package is a Legiscan
    DatasetList file. *)
Definition validate (pkg : pyval) : M L unit :=
  has_status <- lift (py_contains "status" pkg) ;;
  when has_status (
    status <- lift (py_getitem pkg "status") ;;
    if py_ne_str status "OK" then
      name <- attr list_name ;;
      msg <- lift (str_add "Status not OK: " name) ;;
      raise (CommandError msg)
    else
      has_list <- lift (py_contains "datasetlist" pkg) ;;
      if negb has_list then
        raise (CommandError "datsetlist missing")
      else
        entries <- lift (py_getitem pkg "datasetlist") ;;
        assign (set_datasetlist entries)).

(** Lines 149-161: decode the text and validate it. *)
Definition verify_contents : M L unit :=
  data <- attr list_data ;;
  when (truthy data) (
    name <- attr list_name ;;
    print ("Verifying JSON contents of:  " +++ str_name name) ;;
    pkg <- json_loads_py data ;;
    assign (set_list_pkg pkg) ;;
    validate pkg).

(** Lines 163-167: without a text the command fails. *)
Definition require_contents : M L unit :=
  data <- attr list_data ;;
  when (negb (truthy data)) (
    print "DatasetList-YYYY-MM-DD.json not found" ;;
    api <- attr use_api ;;
    when (negb api) (print "Did you forget the --api parameter?") ;;
    raise (CommandError "API failure, or DatasetList not Found")).

(** [recent_enough], lines 114-169: the four blocks above after the
    scan of the cached names; the function ends in a bare [return]. *)
Definition recent_enough : M L pyval :=
  now <- datetime_today ;;
  dsl_list <- attr (fun c => FOB.DatasetList_items (fob c)) ;;
  ' (latest_date, latest_name) <-
      lift (latest_scan dsl_list long_ago None) ;;
  assign (set_list_name latest_name) ;;
  refresh_from_api now latest_date ;;
  load_from_storage latest_name ;;
  verify_contents ;;
  require_contents ;;
  ret PyNone.

(** The body of the loop of [fetch_dataset], for one entry. *)
Definition fetch_entry (state : string) (state_id : Z) (entry : Entry.t)
    : M L unit :=
  when (Entry.state_id entry =? state_id) (
    let session_id := Entry.session_id entry in
    let access_key := Entry.access_key entry in
    let session_name := FOB.Dataset_name state state_id in
    from <- attr fromyear ;;
    when (from <=? Entry.year_end entry) (
      api <- attr use_api ;;
      ok <- attr (fun c => api_ok (leg c)) ;;
      when (api && ok) (
        print ("Fetching " +++ state +++ ": " +++ str_int session_id) ;;
        session_data <- leg_getDataset session_id access_key ;;
        fob_upload_text session_data session_name))).

Definition fetch_dataset (state : string) (state_id : Z) : M L unit :=
  entries <- attr datasetlist ;;
  entries <- lift (py_iter entries) ;;
  for_each entries (fetch_entry state state_id).

Definition show_results (json_name : string) (entry : Entry.t) : M L unit :=
  let year_range := str_int (Entry.year_start entry) in
  let year_range :=
    if str_ne_int year_range (Entry.year_end entry)
    then year_range +++ "-" +++ str_int (Entry.year_end entry)
    else year_range in
  print (StateForm (Entry.session_id entry) year_range
                   (Entry.dataset_date entry) (Entry.dataset_size entry)).

(** The body of the inner loop of [datasets_found], for one entry. *)
Definition found_entry (state : string) (state_id : Z)
    (found_list : list string) (entry : Entry.t) : M L unit :=
  from <- attr fromyear ;;
  when ((Entry.state_id entry =? state_id)
        && (from <=? Entry.year_end entry)) (
    let session_id := Entry.session_id entry in
    let session_name := FOB.Dataset_name state session_id in
    (if in_list session_name found_list then
       show_results session_name entry ;;
       print ("Found session dataset:  " +++ session_name)
     else
       print ("Item not found:  " +++ session_name)) ;;
    Hash_save {| Hash.item_name := session_name;
                 Hash.fob_method := FOB_METHOD;
                 Hash.generated_date := Entry.dataset_date entry;
                 Hash.hashcode := Entry.dataset_hash entry;
                 Hash.size := Entry.dataset_size entry;
                 Hash.desc := Entry.session_name entry |}).

Definition datasets_found (states : list (string * Z)) : M L unit :=
  for_each states (fun state_data =>
    print " " ;;
    let '(state, state_id) := state_data in
    found_list <- attr (fun c => FOB.Dataset_items state (fob c)) ;;
    entries <- attr datasetlist ;;
    entries <- lift (py_iter entries) ;;
    for_each entries (found_entry state state_id found_list)).

(** [load_default_locations()]. *)
Definition run_load_default_locations : M L unit :=
  rows <- gets (@Location_objects L) ;;
  set_Location_objects (load_default_locations rows).

(** Lines 71-76 of [handle]: the options that are set are copied
    into the command. *)
Definition take_options (options : Options) : M L unit :=
  when (opt_api options) (assign (set_use_api true)) ;;
  when (truthy_name (opt_state options))
       (assign (set_state (opt_state options))) ;;
  when (negb (opt_frequency options =? 0))
       (assign (set_frequency (opt_frequency options))).

Definition handle (options : Options) : M L unit :=
  take_options options ;;
  (* If the Legiscan DatasetList is recent enough, use it,
     otherwise, call Legiscan API to fetch a new one *)
  data <- recent_enough ;;
  assign (set_list_data data) ;;
  (* Get the list of states from the Django database for "Location" *)
  usa <- try_except (Location_get "usa") (fun e =>
           match e with
           | DoesNotExist =>
               Some (run_load_default_locations ;; Location_get "usa")
           | _ => None
           end) ;;
  locations <- Location_filter_parent usa ;;
  locations <- match locations with
               | [] => run_load_default_locations ;;
                       Location_filter_parent usa
               | _ => ret locations
               end ;;
  states <- for_each_acc locations [] (fun loc states =>
    let state := upper (Location.shortname loc) in
    let state_id := Location.legiscan_id loc in
    let states := states ++ [(state, state_id)] in
    (if truthy_name (opt_state options)
        && negb (String.eqb state (str_name (opt_state options)))
     then ret tt
     else
       print ("Processing: " +++ Location.desc loc
              +++ " (" +++ state +++ ")") ;;
       (* Get dataset and master files *)
       fetch_dataset state state_id) ;;
    ret states) ;;
  (* Show status of all files we expect to have now *)
  datasets_found states.

End Code.

(* ================================================================= *)
(** ** A concrete client and concrete runs *)

(** Modelled from the spec: a remote API client with a counter of the
    dataset fetches left; [getManifest] gives a fixed text or none,
    [getDataset] gives a text that names the session. *)
Module Budget.

Record client := mk {
  remaining : nat;
  manifest : option string
}.

#[export] Instance api : LegiscanAPI client := {
  api_ok l := (0 <? remaining l)%nat;
  getDatasetList _ l := (manifest l, l);
  getDataset sid _ l :=
    ("dataset " +++ str_int sid,
     {| remaining := remaining l - 1; manifest := manifest l |})
}.

#[export] Instance budget : QuotaClient client.
Proof.
  refine {| quota := remaining |}.
  - intros l Hok. simpl in Hok. apply Nat.ltb_lt in Hok. exact Hok.
  - intros sid key l. simpl. apply Nat.le_refl.
  - intros quality l. simpl. apply Nat.le_refl.
Defined.

End Budget.

Module Sample.

Import Budget.

Definition quote : string := String (ascii_of_nat 34) EmptyString.

(** The session of Scenario C: state 5, session 9001, ending 2019. *)
Definition session_9001 : Entry.t :=
  {| Entry.state_id := 5; Entry.session_id := 9001;
     Entry.access_key := "k9001";
     Entry.year_start := 2019; Entry.year_end := 2019;
     Entry.dataset_date := "2019-12-28";
     Entry.dataset_hash := "0f3a"; Entry.dataset_size := 4096;
     Entry.session_name := "2019 Regular Session" |}.

(** An older session of the same state, ending before 2018. *)
Definition session_1400 : Entry.t :=
  {| Entry.state_id := 5; Entry.session_id := 1400;
     Entry.access_key := "k1400";
     Entry.year_start := 2016; Entry.year_end := 2017;
     Entry.dataset_date := "2017-12-30";
     Entry.dataset_hash := "77b1"; Entry.dataset_size := 1024;
     Entry.session_name := "2017 Regular Session" |}.

(** JSON text: a quoted string, a member of an object, a session
    object, the array of the two sessions. *)
Definition quoted (s : string) : string := quote +++ s +++ quote.

Definition member (key value : string) : string :=
  quoted key +++ ": " +++ value.

Definition entry_text (e : Entry.t) : string :=
  "{" +++ member "state_id" (str_int (Entry.state_id e))
  +++ ", " +++ member "session_id" (str_int (Entry.session_id e))
  +++ ", " +++ member "access_key" (quoted (Entry.access_key e))
  +++ ", " +++ member "year_start" (str_int (Entry.year_start e))
  +++ ", " +++ member "year_end" (str_int (Entry.year_end e))
  +++ ", " +++ member "dataset_date" (quoted (Entry.dataset_date e))
  +++ ", " +++ member "dataset_hash" (quoted (Entry.dataset_hash e))
  +++ ", " +++ member "dataset_size" (str_int (Entry.dataset_size e))
  +++ ", " +++ member "session_name" (quoted (Entry.session_name e))
  +++ "}".

Definition sessions_text : string :=
  "[" +++ entry_text session_1400 +++ ", " +++ entry_text session_9001
  +++ "]".

(** A manifest as the API gives it. *)
Definition ok_text : string :=
  "{" +++ member "status" (quoted "OK")
  +++ ", " +++ member "datasetlist" sessions_text +++ "}".

Definition ok_pkg : pyval :=
  PyDict [("status", PyStr "OK");
          ("datasetlist", PyList [session_1400; session_9001])].

(** A manifest that reports an error. *)
Definition error_text : string :=
  "{" +++ member "status" (quoted "ERROR") +++ "}".

Definition error_pkg : pyval := PyDict [("status", PyStr "ERROR")].

(** A manifest without its list. *)
Definition no_list_text : string :=
  "{" +++ member "status" (quoted "OK") +++ "}".

Definition no_list_pkg : pyval := PyDict [("status", PyStr "OK")].

(** A manifest without a status. *)
Definition no_status_text : string :=
  "{" +++ member "datasetlist" sessions_text +++ "}".

Definition no_status_pkg : pyval :=
  PyDict [("datasetlist", PyList [session_1400; session_9001])].

(** [json.loads] on the four sample texts. *)
Definition json_loads (text : string) : option pyval :=
  if String.eqb text ok_text then Some ok_pkg
  else if String.eqb text error_text then Some error_pkg
  else if String.eqb text no_list_text then Some no_list_pkg
  else if String.eqb text no_status_text then Some no_status_pkg
  else None.

Definition usa : Location.t :=
  {| Location.id := 1; Location.shortname := "usa";
     Location.desc := "United States"; Location.legiscan_id := 52;
     Location.parent := None |}.

(** The region of Scenario C: code XX, external identifier 5. *)
Definition xx : Location.t :=
  {| Location.id := 2; Location.shortname := "xx";
     Location.desc := "State XX"; Location.legiscan_id := 5;
     Location.parent := Some 1 |}.

Definition load_default_locations (rows : list Location.t)
    : list Location.t :=
  match rows with
  | [] => [usa; xx]
  | _ => rows
  end.

(** A world at the start of a run: a fresh command, a clock, nothing
    printed, no ledger row and no request yet. *)
Definition world (store : FOB.store) (c : client) (now : DT.datetime)
    : World client :=
  {| self := init store c; clock := now; stdout := [];
     Location_objects := [usa; xx]; Hash_objects := [];
     manifest_requests := []; dataset_requests := [] |}.

Definition run (options : Options) (w : World client)
    : (exn + unit) * World client :=
  handle json_loads load_default_locations "FILE" options w.

(** The world in which [recent_enough] starts under [--api]. *)
Definition resolving (store : FOB.store) (c : client) (now : DT.datetime)
    : World client :=
  with_self (set_use_api true) (world store c now).

Definition options_api : Options :=
  {| opt_api := true; opt_state := None; opt_frequency := 7 |}.

Definition options_no_api : Options :=
  {| opt_api := false; opt_state := None; opt_frequency := 7 |}.

(** A client with three dataset fetches left that gives [text] as the
    manifest. *)
Definition serving (text : option string) : client :=
  {| remaining := 3; manifest := text |}.

(** Scenario A: an empty store and no remote fetching. *)
Definition scenario_A : World client :=
  world [] (serving None) (DT.mk 2024 1 3 10 0).

(** Scenario B: a manifest cached on 1 January 2024, a run on
    3 January 2024. *)
Definition scenario_B : World client :=
  resolving [("DatasetList-2024-01-01.json", ok_text)]
            (serving (Some ok_text)) (DT.mk 2024 1 3 10 0).

(** The same cache exactly seven days later, at midnight. *)
Definition a_week_later : World client :=
  resolving [("DatasetList-2024-01-01.json", ok_text)]
            (serving (Some ok_text)) (DT.mk 2024 1 8 0 0).

(** Scenario C: nothing in the store, remote fetching enabled, quota
    available. *)
Definition scenario_C : World client :=
  world [] (serving (Some ok_text)) (DT.mk 2024 1 3 10 0).

(** An old cached manifest and an API that gives nothing. *)
Definition api_down : World client :=
  resolving [("DatasetList-2023-12-01.json", ok_text)]
            (serving None) (DT.mk 2024 1 3 10 0).

(** The API gives a manifest without a status field. *)
Definition no_status : World client :=
  resolving [] (serving (Some no_status_text)) (DT.mk 2024 1 3 10 0).

(** Names as a listing of the store may give them. *)
Definition sample_keys : list string :=
  ["DatasetList-2024-01-01.json"; "notes.txt";
   "DatasetList-2023-12-25.json"].

(** A world that holds the two sample sessions as its manifest. *)
Definition with_manifest : World client :=
  with_self (set_datasetlist (PyList [session_1400; session_9001]))
            scenario_C.

End Sample.

(* ================================================================= *)
(** ** Vocabulary of the properties *)

(** The condition under which an entry of the manifest is processed for
    a state: it belongs to the state and ends in [from] or later. *)
Definition selected (state_id from : Z) (entry : Entry.t) : bool :=
  (Entry.state_id entry =? state_id) && (from <=? Entry.year_end entry).

(** The ledger row of an entry for a state, as [datasets_found] fills
    it in. *)
Definition ledger_row (method state : string) (entry : Entry.t) : Hash.t :=
  {| Hash.item_name := FOB.Dataset_name state (Entry.session_id entry);
     Hash.fob_method := method;
     Hash.generated_date := Entry.dataset_date entry;
     Hash.hashcode := Entry.dataset_hash entry;
     Hash.size := Entry.dataset_size entry;
     Hash.desc := Entry.session_name entry |}.

(** The lines [datasets_found] prints for an entry of a state, given the
    listing of the store for that state. *)
Definition report_of (found_list : list string) (state : string)
    (entry : Entry.t) : list string :=
  let name := FOB.Dataset_name state (Entry.session_id entry) in
  if in_list name found_list then
    [StateForm (Entry.session_id entry)
       (str_int (Entry.year_start entry) +++ "-"
        +++ str_int (Entry.year_end entry))
       (Entry.dataset_date entry) (Entry.dataset_size entry);
     "Found session dataset:  " +++ name]
  else ["Item not found:  " +++ name].

(** A world after more lines were printed and more ledger rows saved. *)
Definition reported {L} (lines : list string) (rows : list Hash.t)
    (w : World L) : World L :=
  {| self := self w; clock := clock w; stdout := stdout w ++ lines;
     Location_objects := Location_objects w;
     Hash_objects := Hash_objects w ++ rows;
     manifest_requests := manifest_requests w;
     dataset_requests := dataset_requests w |}.

(** The lines and the ledger rows of a whole report, state by state:
    a separating line, then the selected entries in manifest order. *)
Definition report_lines (store : FOB.store) (from : Z)
    (entries : list Entry.t) (state_data : string * Z) : list string :=
  " " :: flat_map (report_of (FOB.Dataset_items (fst state_data) store)
                             (fst state_data))
           (filter (selected (snd state_data) from) entries).

Definition ledger_rows (method : string) (from : Z) (entries : list Entry.t)
    (state_data : string * Z) : list Hash.t :=
  map (ledger_row method (fst state_data))
      (filter (selected (snd state_data) from) entries).

(** The request [getDataset] receives for an entry. *)
Definition request_of (entry : Entry.t) : Z * string :=
  (Entry.session_id entry, Entry.access_key entry).

(** The entries of a list for which a client is asked, one entry after
    the other: those at whose turn the client is available; each
    request leaves the client that answers the next one. *)
Fixpoint attempted {L} `{LegiscanAPI L} (entries : list Entry.t) (client : L)
    : list Entry.t :=
  match entries with
  | [] => []
  | entry :: rest =>
      if api_ok client then
        entry :: attempted rest
                   (snd (getDataset (Entry.session_id entry)
                           (Entry.access_key entry) client))
      else attempted rest client
  end.

(** A name that carries a date: it matches the pattern of the cached
    manifests and the text of the match is a day of the calendar. *)
Definition dated (name : string) (filedate : DT.datetime) : Prop :=
  exists group1,
    FOB.DatasetList_search name = Some group1
    /\ DT.strptime_ymd group1 = Some filedate.

(** The world in which the validation of a decoded package starts: the
    line is printed and the package recorded. *)
Definition verifying {L} `{LegiscanAPI L} (pkg : pyval) (w : World L)
    : World L :=
  with_self (set_list_pkg pkg)
    (snd (print ("Verifying JSON contents of:  "
                 +++ str_name (list_name (self w))) w)).

(** The age of the cached manifest at the time of the run. *)
Definition cache_age {L} (w : World L) (latest_date : DT.datetime) : Z :=
  clock w - latest_date.

Section Relations.

Context {L : Type} `{LegiscanAPI L}.

(** [c] takes every world to one that [R] relates to it, whether [c]
    returns or raises. *)
Definition moves (R : World L -> World L -> Prop) {A} (c : M L A) : Prop :=
  forall w, R w (snd (c w)).

(** The part [f] of the world is left as it was. *)
Definition keeps {X} (f : World L -> X) : World L -> World L -> Prop :=
  fun w w' => f w' = f w.

(** Standard output only grows. *)
Definition prints_more : World L -> World L -> Prop :=
  fun w w' => exists lines, stdout w' = stdout w ++ lines.

(** Dataset requests made so far plus the quota that is left. *)
Definition spent_and_left `{!QuotaClient L} (w : World L) : nat :=
  (List.length (dataset_requests w) + quota (leg (self w)))%nat.

(** Every dataset request is paid from the quota. *)
Definition within_quota `{!QuotaClient L} : World L -> World L -> Prop :=
  fun w w' => (spent_and_left w' <= spent_and_left w)%nat.

End Relations.

(* ================================================================= *)
(** ** Vocabulary of the further properties *)

(** The numbers from 0 up to [n], without [n]. *)
Definition upto (n : Z) : list Z := map Z.of_nat (seq 0 (Z.to_nat n)).

(** The month and the day of day [n] (from 0) of a year, as [_ord2ymd]
    finds them. *)
Definition month_day (leapyear : bool) (n : Z) : Z * Z :=
  let month := Z.shiftr (n + 50) 5 in
  let preceding :=
    nth (Z.to_nat month) DT.DAYS_BEFORE_MONTH 0
    + (if (2 <? month) && leapyear then 1 else 0) in
  if n <? preceding then
    let month := month - 1 in
    let preceding :=
      preceding
      - (nth (Z.to_nat month) DT.DAYS_IN_MONTH 0
         + (if (month =? 2) && leapyear then 1 else 0)) in
    (month, n - preceding + 1)
  else (month, n - preceding + 1).

(** The check of one day of a year: the month and the day are in the
    calendar and count [n] days from the start of the year. *)
Definition month_day_ok (leapyear : bool) (n : Z) : bool :=
  let '(m, d) := month_day leapyear n in
  (1 <=? m) && (m <=? 12) && (1 <=? d)
  && (d <=? (if (m =? 2) && leapyear then 29
             else nth (Z.to_nat m) DT.DAYS_IN_MONTH 0))
  && (nth (Z.to_nat m) DT.DAYS_BEFORE_MONTH 0
      + (if (2 <? m) && leapyear then 1 else 0) + d =? n + 1).

(** The checks of the texts [strftime] writes for a year, a month and a
    day: each is read back by [strptime] as the number it was written
    from. *)
Definition year_text_ok (y : Z) : bool :=
  let s := zero_pad 4 y in
  DT.year_token s && (digits_val 0 s =? y).

Definition month_text_ok (m : Z) : bool :=
  let s := zero_pad 2 m in
  DT.month_token s && all_digits s && (String.length s =? 2)%nat
  && (digits_val 0 s =? m).

Definition day_text_ok (d : Z) : bool :=
  let s := zero_pad 2 d in
  DT.day_token s && all_digits s && (String.length s =? 2)%nat
  && (DT.day_value s =? d).

(** The midnight that starts the day of a [datetime]. *)
Definition midnight (dt : DT.datetime) : DT.datetime :=
  dt / DT.us_per_day * DT.us_per_day.

(** The rows of the catalog named [usa], the rows below one of them, and
    the code and number [handle] takes from a row. *)
Definition named_usa (rows : list Location.t) : list Location.t :=
  filter (fun loc => String.eqb (Location.shortname loc) "usa") rows.

Definition children_of (above : Location.t) (rows : list Location.t)
    : list Location.t :=
  filter (fun loc =>
            match Location.parent loc with
            | Some p => p =? Location.id above
            | None => false
            end) rows.

Definition state_data_of (loc : Location.t) : string * Z :=
  (upper (Location.shortname loc), Location.legiscan_id loc).

Section Views.

Context {L : Type} `{LegiscanAPI L}.
Variable load_default_locations : list Location.t -> list Location.t.
Variable FOB_METHOD : string.

(** The name under which a manifest fetched at the time of the run is
    stored. *)
Definition todays_name (w : World L) : string :=
  FOB.gen_DatasetList_name (DT.strftime_ymd (clock w)).

(** What the API gives for the manifest, when it is a text that is not
    empty. *)
Definition fresh_manifest (w : World L) : option string :=
  match fst (getDatasetList "Good" (leg (self w))) with
  | Some text => if String.eqb text "" then None else Some text
  | None => None
  end.

(** With remote fetching disabled it stays disabled, and the client, the
    store and the requests are left as they were. *)
Definition offline : World L -> World L -> Prop :=
  fun w w' =>
    use_api (self w) = false ->
    use_api (self w') = false
    /\ leg (self w') = leg (self w)
    /\ fob (self w') = fob (self w)
    /\ manifest_requests w' = manifest_requests w
    /\ dataset_requests w' = dataset_requests w.

(** The world with the attribute [frequency] put aside. *)
Definition forget_frequency (w : World L) : World L :=
  with_self (set_frequency 0) w.

(** A computation that does not look at [frequency]: from two worlds
    that differ in this attribute only, it gives the same result and
    worlds that differ in this attribute only. *)
Definition blind {A} (c : M L A) : Prop :=
  forall w1 w2,
    forget_frequency w1 = forget_frequency w2 ->
    fst (c w1) = fst (c w2)
    /\ forget_frequency (snd (c w1)) = forget_frequency (snd (c w2)).

(** The manifest list, the year filter, the ledger and the catalog. *)
Definition report_inputs (w : World L)
    : pyval * Z * list Hash.t * list Location.t :=
  (datasetlist (self w), fromyear (self w), Hash_objects w,
   Location_objects w).

(** Lines 81-111 of [handle]: what follows the resolver. *)
Definition catalog_and_report (options : Options) : M L unit :=
  usa <- try_except (Location_get "usa") (fun e =>
           match e with
           | DoesNotExist =>
               Some (run_load_default_locations load_default_locations ;;
                     Location_get "usa")
           | _ => None
           end) ;;
  locations <- Location_filter_parent usa ;;
  locations <- match locations with
               | [] => run_load_default_locations load_default_locations ;;
                       Location_filter_parent usa
               | _ => ret locations
               end ;;
  states <- for_each_acc locations [] (fun loc states =>
    let state := upper (Location.shortname loc) in
    let state_id := Location.legiscan_id loc in
    let states := states ++ [(state, state_id)] in
    (if truthy_name (opt_state options)
        && negb (String.eqb state (str_name (opt_state options)))
     then ret tt
     else
       print ("Processing: " +++ Location.desc loc
              +++ " (" +++ state +++ ")") ;;
       fetch_dataset state state_id) ;;
    ret states) ;;
  datasets_found FOB_METHOD states.

End Views.

(** Further scenarios. *)
Module Cases.

Import Budget Sample.

(** A first run under [--api] on an empty store. *)
Definition first_run : World client :=
  resolving [] (serving (Some ok_text)) (DT.mk 2024 1 3 10 0).

(** A run two days later on the store the first run left, with a client
    that gives nothing. *)
Definition two_days_later : World client :=
  world (fob (self (snd (recent_enough json_loads first_run))))
        (serving None) (DT.mk 2024 1 5 9 0).

(** A stale cache and no remote fetching. *)
Definition stale_cache : World client :=
  world [("DatasetList-2024-01-01.json", ok_text)]
        (serving (Some ok_text)) (DT.mk 2024 3 1 10 0).

(** A cached manifest that reports an error. *)
Definition cached_error : World client :=
  resolving [("DatasetList-2024-01-01.json", error_text)]
            (serving None) (DT.mk 2024 1 3 10 0).

(** The option [--state] in lower case and in upper case. *)
Definition options_lower : Options :=
  {| opt_api := true; opt_state := Some "xx"; opt_frequency := 7 |}.

Definition options_upper : Options :=
  {| opt_api := true; opt_state := Some "XX"; opt_frequency := 7 |}.

(** A world with another catalog. *)
Definition with_catalog (rows : list Location.t) (w : World client)
    : World client :=
  {| self := self w; clock := clock w; stdout := stdout w;
     Location_objects := rows; Hash_objects := Hash_objects w;
     manifest_requests := manifest_requests w;
     dataset_requests := dataset_requests w |}.

(** Default locations that add nothing. *)
Definition no_defaults (rows : list Location.t) : list Location.t := rows.

(** The two sample sessions as the manifest, with remote fetching
    enabled. *)
Definition fetching : World client :=
  with_self (set_use_api true) with_manifest.

(** The two sample sessions as the manifest, over a store that holds
    the dataset of session 9001. *)
Definition holding : World client :=
  with_self (set_fob [("XX-9001.json", "dataset 9001")]) with_manifest.

(** A store with a name that carries an impossible date. *)
Definition impossible_date : World client :=
  resolving [("DatasetList-2024-02-30.json", ok_text)]
            (serving (Some ok_text)) (DT.mk 2024 3 1 10 0).

(** A first run to which the API gives a manifest that reports an error,
    and a run two days later on the store it left, with an API that
    would give a good manifest. *)
Definition bad_fetch : World client :=
  resolving [] (serving (Some error_text)) (DT.mk 2024 1 3 10 0).

Definition after_bad_fetch : World client :=
  resolving (fob (self (snd (recent_enough json_loads bad_fetch))))
            (serving (Some ok_text)) (DT.mk 2024 1 5 9 0).

End Cases.

(** Calendar and naming functions stay folded under simplification. *)
Arguments DT.timedelta_days : simpl never.
Arguments DT.strftime_ymd : simpl never.
Arguments DT.strptime_ymd : simpl never.
Arguments DT.mk : simpl never.
Arguments long_ago : simpl never.
Arguments str_int : simpl never.
Arguments FOB.gen_DatasetList_name : simpl never.
Arguments FOB.Dataset_name : simpl never.
Arguments FOB.DatasetList_search : simpl never.
Arguments FOB.DatasetList_items : simpl never.
Arguments FOB.Dataset_items : simpl never.
Arguments String.append : simpl never.

(* ================================================================= *)
(** ** Reasoning about computations *)

Section MonadLemmas.

Context {L : Type} `{LegiscanAPI L}.

Lemma bind_inr {A B} (c : M L A) (k : A -> M L B) w a w' :
  c w = (inr a, w') -> bind c k w = k a w'.
Proof. intros E. unfold bind. rewrite E. reflexivity. Qed.

Lemma bind_inl {A B} (c : M L A) (k : A -> M L B) w e w' :
  c w = (inl e, w') -> bind c k w = (inl e, w').
Proof. intros E. unfold bind. rewrite E. reflexivity. Qed.

(** A computation that returns under [bind] has returned in its first
    part. *)
Lemma bind_returns {A B} (c : M L A) (k : A -> M L B) w b w' :
  bind c k w = (inr b, w') ->
  exists a w1, c w = (inr a, w1) /\ k a w1 = (inr b, w').
Proof.
  unfold bind. destruct (c w) as [[e | a] w1]; intros E.
  - discriminate E.
  - exists a, w1. split; [reflexivity | exact E].
Qed.

Section Moves.

Variable R : World L -> World L -> Prop.
Hypothesis R_pre : PreOrder R.

Lemma moves_ret {A} (a : A) : moves R (ret a).
Proof. intros w. simpl. reflexivity. Qed.

Lemma moves_raise {A} (e : exn) : moves R (@raise L A e).
Proof. intros w. simpl. reflexivity. Qed.

Lemma moves_lift {A} (r : exn + A) : moves R (lift r).
Proof. intros w. simpl. reflexivity. Qed.

Lemma moves_gets {A} (f : World L -> A) : moves R (gets f).
Proof. intros w. simpl. reflexivity. Qed.

Lemma moves_attr {A} (f : Command L -> A) : moves R (attr f).
Proof. intros w. simpl. reflexivity. Qed.

Lemma moves_bind {A B} (c : M L A) (k : A -> M L B) :
  moves R c -> (forall a, moves R (k a)) -> moves R (bind c k).
Proof.
  intros Hc Hk w. unfold bind.
  specialize (Hc w). destruct (c w) as [[e | a] w1]; simpl in *.
  - exact Hc.
  - transitivity w1; [exact Hc | apply Hk].
Qed.

Lemma moves_when (b : bool) (c : M L unit) :
  moves R c -> moves R (when b c).
Proof. intros Hc. destruct b; simpl; [exact Hc | apply moves_ret]. Qed.

Lemma moves_for_each {X} (xs : list X) (body : X -> M L unit) :
  (forall x, moves R (body x)) -> moves R (for_each xs body).
Proof.
  intros Hb. induction xs as [| x xs IH]; simpl.
  - apply moves_ret.
  - apply moves_bind; [apply Hb | intros _; exact IH].
Qed.

Lemma moves_for_each_acc {X S} (xs : list X) (acc : S)
    (body : X -> S -> M L S) :
  (forall x s, moves R (body x s)) -> moves R (for_each_acc xs acc body).
Proof.
  intros Hb. revert acc. induction xs as [| x xs IH]; intros acc; simpl.
  - apply moves_ret.
  - apply moves_bind; [apply Hb | intros s; apply IH].
Qed.

Lemma moves_try_except {A} (c : M L A) (handler : exn -> option (M L A)) :
  moves R c ->
  (forall e h, handler e = Some h -> moves R h) ->
  moves R (try_except c handler).
Proof.
  intros Hc Hh w. unfold try_except.
  specialize (Hc w). destruct (c w) as [[e | a] w1]; simpl in *.
  - destruct (handler e) as [h |] eqn:E; simpl.
    + transitivity w1; [exact Hc | apply (Hh e h E)].
    + exact Hc.
  - exact Hc.
Qed.

Lemma moves_modify (f : World L -> World L) :
  (forall w, R w (f w)) -> moves R (modify f).
Proof. intros Hf w. simpl. apply Hf. Qed.

End Moves.

#[export] Instance keeps_pre {X} (f : World L -> X) : PreOrder (keeps f).
Proof.
  split.
  - intros w. reflexivity.
  - intros w1 w2 w3 H12 H23. unfold keeps in *. congruence.
Qed.

#[export] Instance prints_more_pre : PreOrder (@prints_more L).
Proof.
  split.
  - intros w. exists []. symmetry. apply app_nil_r.
  - intros w1 w2 w3 [l1 H1] [l2 H2]. exists (l1 ++ l2).
    rewrite H2, H1. symmetry. apply app_assoc.
Qed.

#[export] Instance within_quota_pre `{!QuotaClient L} : PreOrder within_quota.
Proof.
  split.
  - intros w. unfold within_quota. apply Nat.le_refl.
  - intros w1 w2 w3 H12 H23. unfold within_quota in *.
    eapply Nat.le_trans; eassumption.
Qed.

End MonadLemmas.

(** Tactics: [moves_step] peels one construct of a computation off a goal
    [moves R c]; [prim] settles a primitive by running it. *)
Ltac moves_step :=
  match goal with
  | |- moves _ (ret _) => apply moves_ret; [exact _]
  | |- moves _ (raise _) => apply moves_raise; [exact _]
  | |- moves _ (lift _) => apply moves_lift; [exact _]
  | |- moves _ (gets _) => apply moves_gets; [exact _]
  | |- moves _ (attr _) => apply moves_attr; [exact _]
  | |- moves _ (bind _ _) => apply moves_bind; [exact _ | | intros ? ]
  | |- moves _ (when _ _) => apply moves_when; [exact _ | ]
  | |- moves _ (for_each _ _) => apply moves_for_each; [exact _ | intros ? ]
  | |- moves _ (for_each_acc _ _ _) =>
      apply moves_for_each_acc; [exact _ | intros ? ? ]
  | |- moves _ (if ?b then _ else _) => destruct b
  | |- moves _ (match ?x with _ => _ end) => destruct x
  end.

Ltac prim :=
  let w := fresh "w" in
  intros w;
  unfold keeps, fob_upload_text, fob_download_text, Location_get,
    Location_filter_parent, set_Location_objects, leg_getDatasetList,
    leg_getDataset, Hash_save, print, assign, attr, modify, gets, raise,
    ret, lift, bind, with_self;
  simpl;
  repeat match goal with
         | |- context [match ?x with _ => _ end] => destruct x; simpl
         end;
  try reflexivity.

Ltac moves_auto := repeat moves_step; try solve [prim].

Section Frames.

Context {L : Type} `{LegiscanAPI L}.
Variable json_loads : string -> option pyval.
Variable load_default_locations : list Location.t -> list Location.t.
Variable FOB_METHOD : string.

Lemma json_loads_py_moves R (R_pre : PreOrder R) data :
  moves R (json_loads_py (L := L) json_loads data).
Proof. unfold json_loads_py. moves_auto. Qed.

Lemma print_more line : moves prints_more (print (L := L) line).
Proof. intros w. exists [line]. reflexivity. Qed.

Lemma bind_keeps {X A B} (f : World L -> X) (c : M L A) (k : A -> M L B) :
  (forall a, moves (keeps f) (k a)) ->
  forall w, f (snd (bind c k w)) = f (snd (c w)).
Proof.
  intros Hk w. unfold bind. destruct (c w) as [[e | a] w1]; simpl.
  - reflexivity.
  - apply Hk.
Qed.

(** *** What the blocks of the manifest resolver leave alone *)

Lemma refresh_from_api_keeps {X} (f : World L -> X) now latest_date :
  (forall w c, f (with_self c w) = f w) ->
  (forall w line, f (snd (print line w)) = f w) ->
  (forall w quality, f (snd (leg_getDatasetList quality w)) = f w) ->
  moves (keeps f) (refresh_from_api now latest_date).
Proof.
  intros Hself Hprint Hleg.
  unfold refresh_from_api, fob_upload_text. moves_auto.
  all: intros w; first [apply Hleg | apply Hself | apply Hprint].
Qed.

Lemma load_from_storage_keeps {X} (f : World L -> X) latest_name :
  (forall w c, f (with_self c w) = f w) ->
  (forall w line, f (snd (print line w)) = f w) ->
  moves (keeps f) (load_from_storage latest_name).
Proof.
  intros Hself Hprint.
  unfold load_from_storage, fob_download_text. moves_auto.
  all: intros w; first [apply Hself | apply Hprint].
Qed.

Lemma verify_contents_keeps {X} (f : World L -> X) :
  (forall w v, f (with_self (set_list_pkg v) w) = f w) ->
  (forall w v, f (with_self (set_datasetlist v) w) = f w) ->
  (forall w line, f (snd (print line w)) = f w) ->
  moves (keeps f) (verify_contents json_loads).
Proof.
  intros Hpkg Hlist Hprint.
  unfold verify_contents, validate, json_loads_py. moves_auto.
  all: intros w; first [apply Hpkg | apply Hlist | apply Hprint].
Qed.

Lemma require_contents_keeps {X} (f : World L -> X) :
  (forall w line, f (snd (print line w)) = f w) ->
  moves (keeps f) (@require_contents L).
Proof.
  intros Hprint. unfold require_contents. moves_auto.
  all: intros w; apply Hprint.
Qed.

End Frames.

(* ================================================================= *)
(** ** The manifest resolver, block by block *)

Section Resolver.

Context {L : Type} `{LegiscanAPI L}.
Variable json_loads : string -> option pyval.

(** After a scan that ends, [recent_enough] records the latest name and
    runs its four blocks. *)
Lemma recent_enough_scanned (w : World L) d n :
  latest_scan (FOB.DatasetList_items (fob (self w))) long_ago None
    = inr (d, n) ->
  recent_enough json_loads w
  = (refresh_from_api (clock w) d ;;
     load_from_storage n ;;
     verify_contents json_loads ;;
     require_contents ;;
     ret PyNone) (with_self (set_list_name n) w).
Proof.
  intros E. unfold recent_enough.
  unfold bind at 1 2 3 4. simpl. rewrite E. reflexivity.
Qed.

(** A scan that raises ends [recent_enough] before it changes
    anything. *)
Lemma recent_enough_scan_raises (w : World L) e :
  latest_scan (FOB.DatasetList_items (fob (self w))) long_ago None = inl e ->
  recent_enough json_loads w = (inl e, w).
Proof.
  intros E. unfold recent_enough.
  unfold bind at 1 2 3. simpl. rewrite E. reflexivity.
Qed.

(** *** Asking the API *)

Lemma refresh_skipped now d (w : World L) :
  use_api (self w) && (d <? now - DT.timedelta_days 7) = false ->
  refresh_from_api now d w = (inr tt, w).
Proof.
  intros E. unfold refresh_from_api. unfold bind at 1. simpl.
  rewrite E. reflexivity.
Qed.

Lemma refresh_failed now d (w : World L) :
  use_api (self w) && (d <? now - DT.timedelta_days 7) = true ->
  truthy (text_or_none (fst (getDatasetList "Good" (leg (self w))))) = false ->
  refresh_from_api now d w
  = (inr tt,
     snd (print "API Failed to get DatasetList from Legiscan"
            (with_self
               (set_list_data
                  (text_or_none (fst (getDatasetList "Good" (leg (self w))))))
               (snd (leg_getDatasetList "Good" w))))).
Proof.
  intros E F. unfold refresh_from_api. unfold bind at 1. simpl.
  rewrite E. simpl. unfold bind at 1. unfold leg_getDatasetList.
  destruct (getDatasetList "Good" (leg (self w))) as [text client].
  simpl in F. unfold bind at 1. simpl. rewrite F. reflexivity.
Qed.

Lemma refresh_succeeded now d (w : World L) text :
  use_api (self w) && (d <? now - DT.timedelta_days 7) = true ->
  fst (getDatasetList "Good" (leg (self w))) = Some text ->
  text <> "" ->
  refresh_from_api now d w
  = (inr tt,
     with_self
       (fun c =>
          set_fob (FOB.upload_text text
                     (FOB.gen_DatasetList_name (DT.strftime_ymd now)) (fob c)) c)
       (with_self
          (set_list_name
             (Some (FOB.gen_DatasetList_name (DT.strftime_ymd now))))
          (with_self (set_list_data (PyStr text))
             (snd (leg_getDatasetList "Good" w))))).
Proof.
  intros E F N. unfold refresh_from_api. unfold bind at 1. simpl.
  rewrite E. simpl. unfold bind at 1. unfold leg_getDatasetList.
  destruct (getDatasetList "Good" (leg (self w))) as [r client].
  simpl in F. subst r. unfold bind at 1. simpl.
  destruct (String.eqb_spec text "") as [-> | _]; [contradiction |].
  simpl. reflexivity.
Qed.

(** The API block never raises. *)
Lemma refresh_returns now d (w : World L) :
  fst (refresh_from_api now d w) = inr tt.
Proof.
  destruct (use_api (self w) && (d <? now - DT.timedelta_days 7)) eqn:E.
  - destruct (fst (getDatasetList "Good" (leg (self w)))) as [text |] eqn:F.
    + destruct (String.eqb_spec text "") as [-> | N].
      * rewrite refresh_failed; [reflexivity | exact E |].
        rewrite F. reflexivity.
      * rewrite (refresh_succeeded _ _ _ text E F N). reflexivity.
    + rewrite refresh_failed; [reflexivity | exact E |].
      rewrite F. reflexivity.
  - rewrite refresh_skipped by exact E. reflexivity.
Qed.

(** One manifest request is made when the API is enabled and the latest
    cached date is more than seven days before now, none otherwise. *)
Lemma refresh_manifest_requests now d (w : World L) :
  manifest_requests (snd (refresh_from_api now d w))
  = manifest_requests w
    ++ (if use_api (self w) && (d <? now - DT.timedelta_days 7)
        then ["Good"] else []).
Proof.
  destruct (use_api (self w) && (d <? now - DT.timedelta_days 7)) eqn:E.
  - assert (R : manifest_requests (snd (leg_getDatasetList "Good" w))
                = manifest_requests w ++ ["Good"]).
    { unfold leg_getDatasetList.
      destruct (getDatasetList "Good" (leg (self w))). reflexivity. }
    destruct (fst (getDatasetList "Good" (leg (self w)))) as [text |] eqn:F.
    + destruct (String.eqb_spec text "") as [-> | N].
      * rewrite refresh_failed; [exact R | exact E |].
        rewrite F. reflexivity.
      * rewrite (refresh_succeeded _ _ _ text E F N). exact R.
    + rewrite refresh_failed; [exact R | exact E |].
      rewrite F. reflexivity.
  - rewrite refresh_skipped by exact E. simpl. symmetry. apply app_nil_r.
Qed.

End Resolver.

(* ================================================================= *)
(** ** The scan of the cached manifest names *)

Section Scan.

Lemma latest_scan_result keys : forall d0 n0 d n,
  latest_scan keys d0 n0 = inr (d, n) ->
  d0 <= d
  /\ (forall k fd, In k keys -> dated k fd -> fd <= d)
  /\ ((d = d0 /\ n = n0)
      \/ (d0 < d /\ exists k, n = Some k /\ In k keys /\ dated k d)).
Proof.
  induction keys as [| name rest IH]; intros d0 n0 d n E; simpl in E.
  - injection E as <- <-. split; [lia |]. split.
    + intros k fd [].
    + left. split; reflexivity.
  - destruct (FOB.DatasetList_search name) as [g |] eqn:S.
    + destruct (DT.strptime_ymd g) as [fd |] eqn:P; [| discriminate E].
      destruct (d0 <? fd) eqn:C.
      * apply Z.ltb_lt in C.
        destruct (IH _ _ _ _ E) as (Hle & Hmax & Hsel).
        split; [lia |]. split.
        -- intros k fd' [<- | Hin] [g' [S' P']].
           ++ rewrite S in S'. injection S' as <-.
              rewrite P in P'. injection P' as <-. exact Hle.
           ++ apply (Hmax k); [exact Hin | exists g'; split; assumption].
        -- right. split; [lia |].
           destruct Hsel as [[-> ->] | (Hlt & k & -> & Hin & Hk)].
           ++ exists name. split; [reflexivity |]. split; [left; reflexivity |].
              exists g. split; assumption.
           ++ exists k. split; [reflexivity |]. split; [right; exact Hin | exact Hk].
      * apply Z.ltb_ge in C.
        destruct (IH _ _ _ _ E) as (Hle & Hmax & Hsel).
        split; [exact Hle |]. split.
        -- intros k fd' [<- | Hin] [g' [S' P']].
           ++ rewrite S in S'. injection S' as <-.
              rewrite P in P'. injection P' as <-. lia.
           ++ apply (Hmax k); [exact Hin | exists g'; split; assumption].
        -- destruct Hsel as [Hsame | (Hlt & k & -> & Hin & Hk)].
           ++ left. exact Hsame.
           ++ right. split; [exact Hlt |]. exists k.
              split; [reflexivity |]. split; [right; exact Hin | exact Hk].
    + destruct (IH _ _ _ _ E) as (Hle & Hmax & Hsel).
      split; [exact Hle |]. split.
      * intros k fd' [<- | Hin] [g' [S' P']].
        -- rewrite S in S'. discriminate S'.
        -- apply (Hmax k); [exact Hin | exists g'; split; assumption].
      * destruct Hsel as [Hsame | (Hlt & k & -> & Hin & Hk)].
        -- left. exact Hsame.
        -- right. split; [exact Hlt |]. exists k.
           split; [reflexivity |]. split; [right; exact Hin | exact Hk].
Qed.

(** The scan ends when every name that matches carries a day of the
    calendar. *)
Lemma latest_scan_ends keys :
  (forall k g, In k keys -> FOB.DatasetList_search k = Some g ->
               DT.strptime_ymd g <> None) ->
  forall d0 n0, exists d n, latest_scan keys d0 n0 = inr (d, n).
Proof.
  induction keys as [| name rest IH]; intros Hvalid d0 n0; simpl.
  - exists d0, n0. reflexivity.
  - assert (Hrest : forall k g, In k rest ->
              FOB.DatasetList_search k = Some g ->
              DT.strptime_ymd g <> None).
    { intros k g Hin. apply Hvalid. right. exact Hin. }
    destruct (FOB.DatasetList_search name) as [g |] eqn:S.
    + destruct (DT.strptime_ymd g) as [fd |] eqn:P.
      * destruct (d0 <? fd); apply IH; exact Hrest.
      * exfalso. apply (Hvalid name g); [left; reflexivity | exact S | exact P].
    + apply IH. exact Hrest.
Qed.

(** Without a name that matches, the scan keeps what it started with. *)
Lemma latest_scan_no_match keys : forall d0 n0,
  (forall k, In k keys -> FOB.DatasetList_search k = None) ->
  latest_scan keys d0 n0 = inr (d0, n0).
Proof.
  induction keys as [| name rest IH]; intros d0 n0 Hnone; simpl.
  - reflexivity.
  - rewrite (Hnone name) by (left; reflexivity).
    apply IH. intros k Hin. apply Hnone. right. exact Hin.
Qed.

(** A name that matches is not empty. *)
Lemma DatasetList_search_name name g :
  FOB.DatasetList_search name = Some g -> truthy_name (Some name) = true.
Proof.
  unfold FOB.DatasetList_search. intros E.
  destruct (String.eqb_spec name
              ("DatasetList-" +++ String.substring 12 10 name +++ ".json"))
    as [Hname | _]; [| discriminate E].
  rewrite Hname. reflexivity.
Qed.

(** A listed key can be downloaded. *)
Lemma download_listed prefix name (store : FOB.store) :
  In name (FOB.list_items prefix store) ->
  exists content, FOB.download_text name store = inr content.
Proof.
  unfold FOB.list_items. intros Hin. apply filter_In in Hin as [Hin _].
  induction store as [| [k v] store IH]; simpl in *.
  - contradiction.
  - destruct (String.eqb_spec k name) as [_ | N].
    + exists v. reflexivity.
    + destruct Hin as [E | Hin]; [contradiction |]. apply IH. exact Hin.
Qed.

End Scan.

Section Blocks.

Context {L : Type} `{LegiscanAPI L}.
Variable json_loads : string -> option pyval.

(** *** Reading the cached manifest *)

Lemma load_skipped n (w : World L) :
  truthy_name n && negb (truthy (list_data (self w))) = false ->
  load_from_storage n w = (inr tt, w).
Proof.
  intros E. unfold load_from_storage. unfold bind at 1. simpl.
  rewrite E. reflexivity.
Qed.

Lemma load_downloaded n name content (w : World L) :
  truthy_name n = true ->
  truthy (list_data (self w)) = false ->
  list_name (self w) = Some name ->
  FOB.download_text name (fob (self w)) = inr content ->
  load_from_storage n w
  = (inr tt,
     with_self (set_list_data (PyStr content))
       (snd (print ("Downloading:  " +++ name) w))).
Proof.
  intros Hn Hdata Hname Hget. unfold load_from_storage.
  unfold bind at 1. simpl. rewrite Hn, Hdata. simpl.
  unfold bind at 1. simpl. rewrite Hname. simpl.
  unfold bind at 1. simpl. unfold bind at 1.
  unfold fob_download_text. unfold bind at 1. simpl.
  unfold bind at 1. simpl. rewrite Hget. reflexivity.
Qed.

(** *** Decoding and validating *)

Lemma verify_skipped (w : World L) :
  truthy (list_data (self w)) = false ->
  verify_contents json_loads w = (inr tt, w).
Proof.
  intros E. unfold verify_contents. unfold bind at 1. simpl.
  rewrite E. reflexivity.
Qed.

Lemma verify_decoded text pkg (w : World L) :
  list_data (self w) = PyStr text ->
  text <> "" ->
  json_loads text = Some pkg ->
  verify_contents json_loads w = validate pkg (verifying pkg w).
Proof.
  intros Hdata Htext Hpkg. unfold verify_contents.
  unfold bind at 1. simpl. rewrite Hdata. simpl.
  destruct (String.eqb_spec text "") as [-> | _]; [contradiction |].
  simpl. unfold bind at 1. simpl. unfold bind at 1. simpl.
  unfold bind at 1. rewrite Hpkg. simpl.
  unfold bind at 1. simpl. reflexivity.
Qed.

(** A manifest without a status field passes the validation, and
    nothing is recorded as its list of datasets. *)
Lemma validate_no_status pkg (w : World L) :
  py_contains "status" pkg = inr false ->
  validate pkg w = (inr tt, w).
Proof.
  intros E. unfold validate. unfold bind at 1. simpl.
  rewrite E. reflexivity.
Qed.

Lemma validate_status_not_ok d status file (w : World L) :
  dict_get d "status" = Some status ->
  py_ne_str status "OK" = true ->
  list_name (self w) = Some file ->
  validate (PyDict d) w = (inl (ManifestStatusError file), w).
Proof.
  intros Hs Hne Hname. unfold validate. unfold bind at 1. simpl.
  rewrite Hs. simpl. unfold bind at 1. simpl. rewrite ?Hs. simpl.
  rewrite Hne. unfold bind at 1. simpl. rewrite Hname. reflexivity.
Qed.

Lemma validate_list_missing d (w : World L) :
  dict_get d "status" = Some (PyStr "OK") ->
  dict_get d "datasetlist" = None ->
  validate (PyDict d) w = (inl ManifestMalformed, w).
Proof.
  intros Hs Hl. unfold validate. unfold bind at 1. simpl.
  rewrite Hs. simpl. unfold bind at 1. simpl. rewrite ?Hs. simpl.
  unfold bind at 1. simpl. rewrite Hl. reflexivity.
Qed.

Lemma validate_ok d entries (w : World L) :
  dict_get d "status" = Some (PyStr "OK") ->
  dict_get d "datasetlist" = Some entries ->
  validate (PyDict d) w = (inr tt, with_self (set_datasetlist entries) w).
Proof.
  intros Hs Hl. unfold validate. unfold bind at 1. simpl.
  rewrite Hs. simpl. unfold bind at 1. simpl. rewrite ?Hs. simpl.
  unfold bind at 1. simpl. rewrite Hl. simpl.
  unfold bind at 1. simpl. rewrite ?Hl. reflexivity.
Qed.

(** When the validation returns on a package with a status field, the
    list of datasets of the package is the command's [datasetlist]. *)
Lemma validate_returned pkg (w w' : World L) :
  validate pkg w = (inr tt, w') ->
  list_data (self w') = list_data (self w)
  /\ list_pkg (self w') = list_pkg (self w)
  /\ (py_contains "status" pkg = inr true ->
      py_getitem pkg "datasetlist" = inr (datasetlist (self w'))).
Proof.
  unfold validate. unfold bind at 1. simpl.
  destruct (py_contains "status" pkg) as [e | [|]] eqn:Hs; simpl.
  - discriminate.
  - unfold bind at 1. simpl.
    destruct (py_getitem pkg "status") as [e | status]; simpl.
    + discriminate.
    + destruct (py_ne_str status "OK").
      * unfold bind at 1. simpl.
        destruct (str_add "Status not OK: " (list_name (self w))); discriminate.
      * unfold bind at 1. simpl.
        destruct (py_contains "datasetlist" pkg) as [e | [|]]; simpl.
        -- discriminate.
        -- unfold bind at 1. simpl.
           destruct (py_getitem pkg "datasetlist") as [e | entries]; simpl.
           ++ discriminate.
           ++ intros E. injection E as <-. simpl.
              split; [reflexivity |]. split; [reflexivity |].
              intros _. reflexivity.
        -- discriminate.
  - intros E. injection E as <-.
    split; [reflexivity |]. split; [reflexivity |]. discriminate.
Qed.

(** *** Failing without a text *)

Lemma require_passes (w : World L) :
  truthy (list_data (self w)) = true ->
  require_contents w = (inr tt, w).
Proof.
  intros E. unfold require_contents. unfold bind at 1. simpl.
  rewrite E. reflexivity.
Qed.

Lemma require_raises (w : World L) :
  truthy (list_data (self w)) = false ->
  fst (require_contents w) = inl ManifestUnavailable.
Proof.
  intros E. unfold require_contents. unfold bind at 1. simpl.
  rewrite E. simpl. unfold bind at 1. simpl. unfold bind at 1. simpl.
  destruct (use_api (self w)); reflexivity.
Qed.

End Blocks.

(* ================================================================= *)
(** ** The manifest resolver as a whole *)

Section ResolverWhole.

Context {L : Type} `{LegiscanAPI L}.
Variable json_loads : string -> option pyval.

Lemma verify_keeps_list_data :
  moves (keeps (fun w : World L => list_data (self w)))
        (verify_contents json_loads).
Proof. apply verify_contents_keeps; intros; reflexivity. Qed.

Lemma require_keeps_list_data :
  moves (keeps (fun w : World L => list_data (self w))) require_contents.
Proof. apply require_contents_keeps; intros; reflexivity. Qed.

Lemma verify_raises_on (w : World L) e :
  truthy (list_data (self w)) = true ->
  json_loads_py json_loads (list_data (self w))
    (snd (print ("Verifying JSON contents of:  "
                 +++ str_name (list_name (self w))) w))
  = (inl e, snd (print ("Verifying JSON contents of:  "
                        +++ str_name (list_name (self w))) w)) ->
  fst (verify_contents json_loads w) = inl e.
Proof.
  intros T E. unfold verify_contents. unfold bind at 1. simpl.
  rewrite T. simpl. unfold bind at 1. simpl. unfold bind at 1. simpl.
  unfold bind at 1. simpl in E. rewrite E. reflexivity.
Qed.

(** When the decoding block returns with a text held, the text decodes
    to the package that was validated. *)
Lemma verify_returned (w w' : World L) :
  verify_contents json_loads w = (inr tt, w') ->
  truthy (list_data (self w')) = true ->
  exists text pkg,
    list_data (self w') = PyStr text
    /\ json_loads text = Some pkg
    /\ list_pkg (self w') = pkg
    /\ (py_contains "status" pkg = inr true ->
        py_getitem pkg "datasetlist" = inr (datasetlist (self w'))).
Proof.
  intros E T.
  assert (K : list_data (self w') = list_data (self w)).
  { pose proof (verify_keeps_list_data w) as K. rewrite E in K. exact K. }
  rewrite K in T |- *.
  destruct (list_data (self w)) as [| b | z | text | l | d] eqn:D;
    try (exfalso;
         assert (F : fst (verify_contents json_loads w) = inl TypeError)
           by (apply verify_raises_on; [rewrite D; exact T | rewrite D; reflexivity]);
         rewrite E in F; discriminate F).
  assert (N : text <> "").
  { intros ->. discriminate T. }
  destruct (json_loads text) as [pkg |] eqn:J.
  - rewrite (verify_decoded json_loads text pkg w D N J) in E.
    apply validate_returned in E as (_ & Hpkg & Hlist).
    exists text, pkg. split; [reflexivity |]. split; [exact J |].
    split; [rewrite Hpkg; reflexivity | exact Hlist].
  - exfalso.
    assert (F : fst (verify_contents json_loads w) = inl JSONDecodeError).
    { apply verify_raises_on; [rewrite D; exact T |].
      rewrite D. simpl. rewrite J. reflexivity. }
    rewrite E in F. discriminate F.
Qed.

(** The two last blocks: what they give when they return, and how they
    fail when no text is held. *)
Lemma tail_returned (w : World L) r w' :
  (verify_contents json_loads ;; require_contents ;; ret PyNone) w
    = (inr r, w') ->
  r = PyNone
  /\ exists text pkg,
       list_data (self w') = PyStr text
       /\ json_loads text = Some pkg
       /\ list_pkg (self w') = pkg
       /\ (py_contains "status" pkg = inr true ->
           py_getitem pkg "datasetlist" = inr (datasetlist (self w'))).
Proof.
  intros E.
  apply bind_returns in E as ([] & w3 & Hv & E).
  apply bind_returns in E as ([] & w4 & Hr & E).
  injection E as <- <-. split; [reflexivity |].
  destruct (truthy (list_data (self w3))) eqn:T.
  - rewrite (require_passes w3 T) in Hr. injection Hr as <-.
    apply (verify_returned w w3); assumption.
  - pose proof (require_raises w3 T) as F. rewrite Hr in F. discriminate F.
Qed.

Lemma tail_unavailable (w : World L) :
  truthy (list_data
            (self (snd ((verify_contents json_loads ;;
                         require_contents ;; ret PyNone) w)))) = false ->
  fst ((verify_contents json_loads ;; require_contents ;; ret PyNone) w)
  = inl ManifestUnavailable.
Proof.
  intros T.
  assert (K : moves (keeps (fun w : World L => list_data (self w)))
                (verify_contents json_loads ;; require_contents ;; ret PyNone)).
  { moves_auto.
    - apply verify_keeps_list_data.
    - apply require_keeps_list_data. }
  rewrite (K w) in T.
  unfold bind at 1. rewrite (verify_skipped json_loads w T).
  unfold bind at 1. pose proof (require_raises w T) as F.
  destruct (require_contents w) as [[e | []] w1]; simpl in F.
  - injection F as ->. reflexivity.
  - discriminate F.
Qed.

End ResolverWhole.

Section ResolverRuns.

Context {L : Type} `{LegiscanAPI L}.
Variable json_loads : string -> option pyval.

(** The name the scan selects is a key of the store that is not empty
    and can be downloaded. *)
Lemma selected_name_is_stored (store : FOB.store) d name :
  latest_scan (FOB.DatasetList_items store) long_ago None
    = inr (d, Some name) ->
  truthy_name (Some name) = true
  /\ exists content, FOB.download_text name store = inr content.
Proof.
  intros E. apply latest_scan_result in E as (_ & _ & Hsel).
  destruct Hsel as [[_ N] | (_ & k & N & Hin & g & S & _)].
  - discriminate N.
  - injection N as <-. split.
    + apply (DatasetList_search_name name g S).
    + apply (download_listed "DatasetList-"). exact Hin.
Qed.

Lemma leg_getDatasetList_stdout quality (w : World L) :
  stdout (snd (leg_getDatasetList quality w)) = stdout w.
Proof.
  unfold leg_getDatasetList.
  destruct (getDatasetList quality (leg (self w))). reflexivity.
Qed.

Lemma leg_getDatasetList_list_name quality (w : World L) :
  list_name (self (snd (leg_getDatasetList quality w))) = list_name (self w).
Proof.
  unfold leg_getDatasetList.
  destruct (getDatasetList quality (leg (self w))). reflexivity.
Qed.

Lemma leg_getDatasetList_fob quality (w : World L) :
  fob (self (snd (leg_getDatasetList quality w))) = fob (self w).
Proof.
  unfold leg_getDatasetList.
  destruct (getDatasetList quality (leg (self w))). reflexivity.
Qed.

(** The first two blocks never raise: they take the world to one from
    which the rest of [recent_enough] continues. *)
Lemma resolver_prefix (w : World L) d n :
  latest_scan (FOB.DatasetList_items (fob (self w))) long_ago None
    = inr (d, n) ->
  exists w2,
    (forall B (rest : M L B),
        (refresh_from_api (clock w) d ;; load_from_storage n ;; rest)
          (with_self (set_list_name n) w)
        = rest w2)
    /\ (use_api (self w) && (d <? clock w - DT.timedelta_days 7) = true ->
        truthy (text_or_none (fst (getDatasetList "Good" (leg (self w)))))
          = false ->
        In "API Failed to get DatasetList from Legiscan" (stdout w2)
        /\ forall name, n = Some name ->
             exists content,
               FOB.download_text name (fob (self w)) = inr content
               /\ In ("Downloading:  " +++ name) (stdout w2)
               /\ list_data (self w2) = PyStr content)
    /\ (use_api (self w) = false -> n = None ->
        w2 = with_self (set_list_name None) w).
Proof.
  intros E. set (w0 := with_self (set_list_name n) w).
  destruct (use_api (self w) && (d <? clock w - DT.timedelta_days 7)) eqn:C.
  - destruct (truthy (text_or_none
                        (fst (getDatasetList "Good" (leg (self w)))))) eqn:T.
    + (* the API gave a text *)
      destruct (fst (getDatasetList "Good" (leg (self w)))) as [text |] eqn:F;
        [| discriminate T].
      assert (N : text <> "") by (intros ->; discriminate T).
      eexists. split; [| split].
      * intros B rest. unfold bind at 1.
        rewrite (refresh_succeeded (clock w) d w0 text C F N).
        unfold bind at 1. rewrite load_skipped.
        -- reflexivity.
        -- simpl. destruct (String.eqb_spec text "") as [-> | _];
             [contradiction | apply andb_false_r].
      * intros _ X. discriminate X.
      * intros U. rewrite U in C. discriminate C.
    + (* the API gave nothing *)
      pose proof (refresh_failed (clock w) d w0 C T) as R.
      set (w1 := snd (print "API Failed to get DatasetList from Legiscan"
                        (with_self
                           (set_list_data
                              (text_or_none
                                 (fst (getDatasetList "Good" (leg (self w0))))))
                           (snd (leg_getDatasetList "Good" w0))))) in R.
      assert (S1 : stdout w1
                   = stdout w ++ ["API Failed to get DatasetList from Legiscan"]).
      { subst w1. simpl. rewrite leg_getDatasetList_stdout. reflexivity. }
      assert (D1 : truthy (list_data (self w1)) = false).
      { subst w1. simpl. exact T. }
      assert (N1 : list_name (self w1) = n).
      { subst w1. simpl. rewrite leg_getDatasetList_list_name. reflexivity. }
      assert (F1 : fob (self w1) = fob (self w)).
      { subst w1. simpl. rewrite leg_getDatasetList_fob. reflexivity. }
      clearbody w1.
      destruct n as [name |].
      * destruct (selected_name_is_stored _ _ _ E) as (Tn & content & G).
        exists (with_self (set_list_data (PyStr content))
                  (snd (print ("Downloading:  " +++ name) w1))).
        split; [| split].
        -- intros B rest. unfold bind at 1. rewrite R.
           unfold bind at 1.
           rewrite (load_downloaded (Some name) name content w1 Tn D1 N1).
           ++ reflexivity.
           ++ rewrite F1. exact G.
        -- intros _ _. split.
           ++ simpl. rewrite S1. apply in_or_app. left.
              apply in_or_app. right. left. reflexivity.
           ++ intros name' X. injection X as <-. exists content.
              split; [exact G |]. split; [| reflexivity].
              simpl. apply in_or_app. right. left. reflexivity.
        -- intros _ X. discriminate X.
      * exists w1. split; [| split].
        -- intros B rest. unfold bind at 1. rewrite R.
           unfold bind at 1. rewrite load_skipped; reflexivity.
        -- intros _ _. split.
           ++ rewrite S1. apply in_or_app. right. left. reflexivity.
           ++ intros name X. discriminate X.
        -- intros U. rewrite U in C. discriminate C.
  - (* the API is not asked *)
    pose proof (refresh_skipped (clock w) d w0 C) as R.
    destruct (truthy_name n && negb (truthy (list_data (self w0)))) eqn:Ld.
    + apply andb_true_iff in Ld as [Tn Td].
      apply negb_true_iff in Td.
      destruct n as [name |]; [| discriminate Tn].
      destruct (selected_name_is_stored _ _ _ E) as (_ & content & G).
      exists (with_self (set_list_data (PyStr content))
                (snd (print ("Downloading:  " +++ name) w0))).
      split; [| split].
      * intros B rest. unfold bind at 1. rewrite R.
        unfold bind at 1.
        rewrite (load_downloaded (Some name) name content w0 Tn Td);
          [reflexivity | reflexivity | exact G].
      * intros X. discriminate X.
      * intros _ X. discriminate X.
    + exists w0. split; [| split].
      * intros B rest. unfold bind at 1. rewrite R.
        unfold bind at 1. rewrite (load_skipped n w0 Ld). reflexivity.
      * intros X. discriminate X.
      * intros _ ->. reflexivity.
Qed.

End ResolverRuns.

Section ResolverClaims.

Context {L : Type} `{LegiscanAPI L}.
Variable json_loads : string -> option pyval.
Variable load_default_locations : list Location.t -> list Location.t.
Variable FOB_METHOD : string.

Lemma tail_prints_more :
  moves (@prints_more L)
    (verify_contents json_loads ;; require_contents ;; ret PyNone).
Proof.
  unfold verify_contents, validate, require_contents, json_loads_py.
  moves_auto.
  all: intros w; first [ eexists; reflexivity
                       | exists []; simpl; symmetry; apply app_nil_r ].
Qed.

Lemma tail_keeps_list_data :
  moves (keeps (fun w : World L => list_data (self w)))
    (verify_contents json_loads ;; require_contents ;; ret PyNone).
Proof.
  moves_auto.
  - apply verify_keeps_list_data.
  - apply require_keeps_list_data.
Qed.

Lemma after_scan_keeps_manifest_requests n :
  moves (keeps (@manifest_requests L))
    (load_from_storage n ;; verify_contents json_loads ;;
     require_contents ;; ret PyNone).
Proof.
  moves_auto.
  - apply load_from_storage_keeps; intros; reflexivity.
  - apply verify_contents_keeps; intros; reflexivity.
  - apply require_contents_keeps; intros; reflexivity.
Qed.

Lemma take_options_returns options (w : World L) :
  fst (take_options options w) = inr tt.
Proof.
  unfold take_options.
  destruct (opt_api options), (truthy_name (opt_state options)),
    (negb (opt_frequency options =? 0)); reflexivity.
Qed.

(** When the resolver fails, so does the run, in the world the
    resolver left: nothing is done after it. *)
Lemma handle_aborts options (w : World L) e :
  fst (recent_enough json_loads (snd (take_options options w))) = inl e ->
  handle json_loads load_default_locations FOB_METHOD options w
  = (inl e, snd (recent_enough json_loads (snd (take_options options w)))).
Proof.
  intros E. unfold handle. unfold bind at 1.
  pose proof (take_options_returns options w) as T.
  destruct (take_options options w) as [[x | []] w0]; simpl in T;
    [discriminate T |].
  cbn [snd] in *. unfold bind at 1.
  destruct (recent_enough json_loads w0) as [[e' | r] w1]; simpl in E.
  - injection E as ->. reflexivity.
  - discriminate E.
Qed.

(** Claim C2, amended.  With the frequency at its default of seven
    days and a scan of the cached names that ends with the latest date
    [d], the resolver makes exactly one request for a manifest when
    remote fetching is enabled and the age of the cache is more than
    seven days (strictly), and makes none otherwise. *)
Theorem manifest_request_when_older_than_a_week (w : World L) d n :
  latest_scan (FOB.DatasetList_items (fob (self w))) long_ago None
    = inr (d, n) ->
  frequency (self w) = 7 ->
  manifest_requests (snd (recent_enough json_loads w))
  = manifest_requests w
    ++ (if use_api (self w)
           && (DT.timedelta_days (frequency (self w)) <? cache_age w d)
        then ["Good"] else []).
Proof.
  intros E F. rewrite (recent_enough_scanned json_loads w d n E).
  rewrite bind_keeps by (intros _; apply after_scan_keeps_manifest_requests).
  rewrite refresh_manifest_requests. simpl. rewrite F.
  replace (DT.timedelta_days 7 <? cache_age w d)
    with (d <? clock w - DT.timedelta_days 7); [reflexivity |].
  unfold cache_age.
  destruct (Z.ltb_spec d (clock w - DT.timedelta_days 7)),
    (Z.ltb_spec (DT.timedelta_days 7) (clock w - d)); try reflexivity; lia.
Qed.

(** Claim C4, amended.  Whenever [recent_enough] does not fail, the
    value it returns to its caller is [None]; the text it holds decodes
    to the package it recorded, and when that package has a status
    field its list of datasets is left in the attribute [datasetlist],
    where the fetch and the report read it. *)
Theorem recent_enough_returns_None (w : World L) r w' :
  recent_enough json_loads w = (inr r, w') ->
  r = PyNone
  /\ exists text pkg,
       list_data (self w') = PyStr text
       /\ json_loads text = Some pkg
       /\ list_pkg (self w') = pkg
       /\ (py_contains "status" pkg = inr true ->
           py_getitem pkg "datasetlist" = inr (datasetlist (self w'))).
Proof.
  intros E.
  destruct (latest_scan (FOB.DatasetList_items (fob (self w))) long_ago None)
    as [e | [d n]] eqn:S.
  - rewrite (recent_enough_scan_raises json_loads w e S) in E. discriminate E.
  - rewrite (recent_enough_scanned json_loads w d n S) in E.
    destruct (resolver_prefix w d n S) as (w2 & Hrun & _).
    rewrite Hrun in E. apply tail_returned in E. exact E.
Qed.

(** Claim C5.  When the request for a manifest gives nothing, the
    failure is printed and the latest cached manifest is downloaded
    from the store; when no text is held after that the resolver fails
    with [ManifestUnavailable], as it does on an empty store without
    remote fetching; and the run ends with the error of the resolver,
    in the world the resolver left. *)
Theorem manifest_unavailable_is_fatal (w : World L) d n :
  latest_scan (FOB.DatasetList_items (fob (self w))) long_ago None
    = inr (d, n) ->
  let out := recent_enough json_loads w in
  (use_api (self w) && (d <? clock w - DT.timedelta_days 7) = true ->
   truthy (text_or_none (fst (getDatasetList "Good" (leg (self w))))) = false ->
   In "API Failed to get DatasetList from Legiscan" (stdout (snd out))
   /\ forall name, n = Some name ->
        exists content,
          FOB.download_text name (fob (self w)) = inr content
          /\ In ("Downloading:  " +++ name) (stdout (snd out))
          /\ list_data (self (snd out)) = PyStr content)
  /\ (truthy (list_data (self (snd out))) = false ->
      fst out = inl ManifestUnavailable)
  /\ (fob (self w) = [] -> use_api (self w) = false ->
      truthy (list_data (self w)) = false ->
      fst out = inl ManifestUnavailable)
  /\ (forall options w0 e,
        snd (take_options options w0) = w ->
        fst out = inl e ->
        handle json_loads load_default_locations FOB_METHOD options w0
        = (inl e, snd out)).
Proof.
  intros S out. subst out.
  rewrite (recent_enough_scanned json_loads w d n S).
  destruct (resolver_prefix w d n S) as (w2 & Hrun & Hfail & Hoff).
  rewrite Hrun.
  destruct (tail_prints_more w2) as [lines Hout].
  pose proof (tail_keeps_list_data w2) as Hdata. unfold keeps in Hdata.
  split; [| split; [| split]].
  - intros C T. destruct (Hfail C T) as [Hlog Hload]. split.
    + rewrite Hout. apply in_or_app. left. exact Hlog.
    + intros name Hn. destruct (Hload name Hn) as (content & G & Hline & Hd).
      exists content. split; [exact G |]. split.
      * rewrite Hout. apply in_or_app. left. exact Hline.
      * rewrite Hdata. exact Hd.
  - apply tail_unavailable.
  - intros Hfob Hapi Hnone.
    assert (Hn : n = None).
    { rewrite Hfob in S. injection S as _ <-. reflexivity. }
    apply tail_unavailable.
    rewrite Hdata. rewrite (Hoff Hapi Hn). exact Hnone.
  - intros options w0 e Hw He.
    rewrite (handle_aborts options w0 e).
    + rewrite Hw. rewrite (recent_enough_scanned json_loads w d n S).
      rewrite Hrun. reflexivity.
    + rewrite Hw. rewrite (recent_enough_scanned json_loads w d n S).
      rewrite Hrun. exact He.
Qed.

End ResolverClaims.

(** Claim C9, amended.  For every list of cached manifest names in which
    each name that matches the pattern carries a day of the calendar,
    the scan ends with a latest date that no dated name exceeds; the
    latest name is a listed name that carries exactly that date when a
    dated name is later than the sentinel of 16 June 1911, 16:20, and it
    is absent, with the sentinel as latest date, otherwise -- in
    particular when no name matches the pattern. *)
Theorem latest_scan_selects_latest (keys : list string) :
  (forall k g, In k keys -> FOB.DatasetList_search k = Some g ->
               DT.strptime_ymd g <> None) ->
  exists d n,
    latest_scan keys long_ago None = inr (d, n)
    /\ (forall k fd, In k keys -> dated k fd -> fd <= d)
    /\ match n with
       | Some name => In name keys /\ dated name d /\ long_ago < d
       | None => d = long_ago
       end
    /\ ((forall k, In k keys -> FOB.DatasetList_search k = None) ->
        d = long_ago /\ n = None).
Proof.
  intros Hvalid.
  destruct (latest_scan_ends keys Hvalid long_ago None) as (d & n & E).
  exists d, n. split; [exact E |].
  destruct (latest_scan_result keys _ _ _ _ E) as (_ & Hmax & Hsel).
  split; [exact Hmax |]. split.
  - destruct Hsel as [[-> ->] | (Hlt & k & -> & Hin & Hk)].
    + reflexivity.
    + split; [exact Hin |]. split; [exact Hk | exact Hlt].
  - intros Hnone. rewrite (latest_scan_no_match keys _ _ Hnone) in E.
    injection E as <- <-. split; reflexivity.
Qed.

(* ================================================================= *)
(** ** The fetch of the datasets of a state *)

Section Scheduler.

Context {L : Type} `{LegiscanAPI L}.

(** An entry of another state, or one that ends before [fromyear], has
    no effect. *)
Lemma fetch_entry_unselected state state_id entry (w : World L) :
  selected state_id (fromyear (self w)) entry = false ->
  fetch_entry state state_id entry w = (inr tt, w).
Proof.
  unfold selected, fetch_entry. intros E.
  destruct (Entry.state_id entry =? state_id); simpl in *.
  - unfold bind at 1. simpl. rewrite E. reflexivity.
  - reflexivity.
Qed.

(** With remote fetching disabled or the client not available, the
    entry is skipped: no request, no line, no exception. *)
Lemma fetch_entry_skipped state state_id entry (w : World L) :
  use_api (self w) && api_ok (leg (self w)) = false ->
  fetch_entry state state_id entry w = (inr tt, w).
Proof.
  unfold fetch_entry. intros E.
  destruct (Entry.state_id entry =? state_id); simpl; [| reflexivity].
  unfold bind at 1. simpl.
  destruct (fromyear (self w) <=? Entry.year_end entry); simpl;
    [| reflexivity].
  unfold bind at 1. simpl. unfold bind at 1. simpl.
  rewrite E. reflexivity.
Qed.

(** Otherwise the dataset is requested and its text uploaded, under
    the name made of the state and the state's own number. *)
Lemma fetch_entry_fetches state state_id entry (w : World L) :
  selected state_id (fromyear (self w)) entry = true ->
  use_api (self w) && api_ok (leg (self w)) = true ->
  fetch_entry state state_id entry w
  = (inr tt,
     with_self
       (fun c =>
          set_fob
            (FOB.upload_text
               (fst (getDataset (Entry.session_id entry)
                       (Entry.access_key entry) (leg (self w))))
               (FOB.Dataset_name state state_id) (fob c)) c)
       (snd (leg_getDataset (Entry.session_id entry)
               (Entry.access_key entry)
               (snd (print ("Fetching " +++ state +++ ": "
                            +++ str_int (Entry.session_id entry)) w))))).
Proof.
  unfold selected, fetch_entry. intros S E.
  apply andb_true_iff in S as [S1 S2]. rewrite S1. simpl.
  unfold bind at 1. simpl. rewrite S2. simpl.
  unfold bind at 1. simpl. unfold bind at 1. simpl. rewrite E. simpl.
  unfold bind at 1. simpl. unfold bind at 1. unfold leg_getDataset. simpl.
  destruct (getDataset (Entry.session_id entry) (Entry.access_key entry)
              (leg (self w))) as [text client].
  reflexivity.
Qed.

Lemma fetch_entry_returns state state_id entry (w : World L) :
  fst (fetch_entry state state_id entry w) = inr tt.
Proof.
  destruct (selected state_id (fromyear (self w)) entry) eqn:S.
  - destruct (use_api (self w) && api_ok (leg (self w))) eqn:E.
    + rewrite fetch_entry_fetches by assumption. reflexivity.
    + rewrite fetch_entry_skipped by assumption. reflexivity.
  - rewrite fetch_entry_unselected by assumption. reflexivity.
Qed.

Lemma fetch_entry_keeps {X} (f : World L -> X) state state_id entry :
  (forall w c, f (with_self c w) = f w) ->
  (forall w line, f (snd (print line w)) = f w) ->
  (forall w sid key, f (snd (leg_getDataset sid key w)) = f w) ->
  moves (keeps f) (fetch_entry state state_id entry).
Proof.
  intros Hself Hprint Hleg.
  unfold fetch_entry, fob_upload_text. moves_auto.
  all: intros w; first [apply Hleg | apply Hself | apply Hprint].
Qed.

Lemma fetch_entry_keeps_fromyear state state_id entry :
  moves (keeps (fun w : World L => fromyear (self w)))
        (fetch_entry state state_id entry).
Proof.
  unfold fetch_entry, fob_upload_text. moves_auto.
Qed.

(** The loop of [fetch_dataset] does what it would do on the selected
    entries alone. *)
Lemma fetch_loop_selected state state_id from entries : forall w : World L,
  fromyear (self w) = from ->
  for_each entries (fetch_entry state state_id) w
  = for_each (filter (selected state_id from) entries)
             (fetch_entry state state_id) w.
Proof.
  induction entries as [| entry rest IH]; intros w F; simpl.
  - reflexivity.
  - destruct (selected state_id from entry) eqn:S; simpl.
    + unfold bind. pose proof (fetch_entry_keeps_fromyear state state_id entry w) as K.
      destruct (fetch_entry state state_id entry w) as [[e | []] w1].
      * reflexivity.
      * apply IH. simpl in K. unfold keeps in K. congruence.
    + unfold bind. rewrite fetch_entry_unselected by (rewrite F; exact S).
      apply IH. exact F.
Qed.

(** A request is made for listed entries only, and for all of them by
    a client that is always available. *)
Lemma attempted_listed entries : forall (client : L) e,
  In e (attempted entries client) -> In e entries.
Proof.
  induction entries as [| entry rest IH]; intros client e Hin; simpl in *.
  - exact Hin.
  - destruct (api_ok client).
    + destruct Hin as [<- | Hin]; [left; reflexivity |].
      right. apply (IH _ e Hin).
    + right. apply (IH _ e Hin).
Qed.

Lemma attempted_all entries :
  (forall client : L, api_ok client = true) ->
  forall client : L, attempted entries client = entries.
Proof.
  intros Hok. induction entries as [| entry rest IH]; intros client; simpl.
  - reflexivity.
  - rewrite Hok, IH. reflexivity.
Qed.

(** The requests of the loop of [fetch_dataset]: with remote fetching
    enabled, one for every selected entry at whose turn the client is
    available, in the order of the list; none otherwise. *)
Lemma fetch_loop_requests state state_id entries : forall w : World L,
  exists w',
    for_each entries (fetch_entry state state_id) w = (inr tt, w')
    /\ dataset_requests w'
       = dataset_requests w
         ++ map request_of
              (if use_api (self w)
               then attempted
                      (filter (selected state_id (fromyear (self w))) entries)
                      (leg (self w))
               else []).
Proof.
  induction entries as [| entry rest IH]; intros w.
  - exists w. split; [reflexivity |]. simpl.
    destruct (use_api (self w)); simpl; rewrite app_nil_r; reflexivity.
  - simpl for_each. unfold bind. simpl filter.
    destruct (selected state_id (fromyear (self w)) entry) eqn:S.
    + destruct (use_api (self w) && api_ok (leg (self w))) eqn:A.
      * rewrite fetch_entry_fetches by assumption.
        apply andb_true_iff in A as [Hapi Hok].
        match goal with
        | |- context [for_each rest _ ?v] => set (w1 := v)
        end.
        assert (F1 : fromyear (self w1) = fromyear (self w)
                     /\ use_api (self w1) = use_api (self w)
                     /\ leg (self w1)
                        = snd (getDataset (Entry.session_id entry)
                                 (Entry.access_key entry) (leg (self w)))
                     /\ dataset_requests w1
                        = dataset_requests w ++ [request_of entry]).
        { subst w1. simpl. unfold leg_getDataset.
          destruct (getDataset _ _ _). repeat split; reflexivity. }
        clearbody w1. destruct F1 as (Hfrom & Huse & Hleg & Hreq).
        destruct (IH w1) as (w' & E & R).
        exists w'. split; [exact E |].
        rewrite R, Hfrom, Huse, Hleg, Hreq, Hapi. simpl attempted.
        rewrite Hok. simpl. rewrite <- app_assoc. reflexivity.
      * rewrite fetch_entry_skipped by exact A.
        destruct (IH w) as (w' & E & R).
        exists w'. split; [exact E |]. rewrite R.
        destruct (use_api (self w)); [| reflexivity].
        simpl in A. simpl attempted. rewrite A. reflexivity.
    + rewrite fetch_entry_unselected by exact S. apply IH.
Qed.

End Scheduler.

(* ================================================================= *)
(** ** The report and the ledger *)

Section Ledger.

Context {L : Type} `{LegiscanAPI L}.
Variable FOB_METHOD : string.

Lemma reported_nothing (w : World L) : reported [] [] w = w.
Proof.
  destruct w. unfold reported. simpl. rewrite !app_nil_r. reflexivity.
Qed.

Lemma reported_twice lines1 rows1 lines2 rows2 (w : World L) :
  reported lines2 rows2 (reported lines1 rows1 w)
  = reported (lines1 ++ lines2) (rows1 ++ rows2) w.
Proof. unfold reported. simpl. rewrite !app_assoc. reflexivity. Qed.

Lemma found_entry_unselected state state_id found entry (w : World L) :
  selected state_id (fromyear (self w)) entry = false ->
  found_entry FOB_METHOD state state_id found entry w = (inr tt, w).
Proof.
  unfold selected, found_entry. intros E.
  unfold bind at 1. simpl. rewrite E. reflexivity.
Qed.

(** A selected entry gets its lines and exactly one new row, whether
    its dataset is in the listing or not. *)
Lemma found_entry_selected state state_id found entry (w : World L) :
  selected state_id (fromyear (self w)) entry = true ->
  found_entry FOB_METHOD state state_id found entry w
  = (inr tt,
     reported (report_of found state entry)
              [ledger_row FOB_METHOD state entry] w).
Proof.
  unfold selected, found_entry, report_of. intros E.
  unfold bind at 1. simpl. rewrite E. simpl.
  unfold bind at 1.
  destruct (in_list (FOB.Dataset_name state (Entry.session_id entry)) found);
    unfold reported; simpl; rewrite <- ?app_assoc; reflexivity.
Qed.

(** The inner loop of [datasets_found] for one state. *)
Lemma found_loop state state_id found entries : forall w : World L,
  for_each entries (found_entry FOB_METHOD state state_id found) w
  = (inr tt,
     reported
       (flat_map (report_of found state)
          (filter (selected state_id (fromyear (self w))) entries))
       (map (ledger_row FOB_METHOD state)
          (filter (selected state_id (fromyear (self w))) entries)) w).
Proof.
  induction entries as [| entry rest IH]; intros w; simpl.
  - rewrite reported_nothing. reflexivity.
  - unfold bind.
    destruct (selected state_id (fromyear (self w)) entry) eqn:S.
    + rewrite found_entry_selected by exact S.
      rewrite IH. simpl. rewrite reported_twice. reflexivity.
    + rewrite found_entry_unselected by exact S. apply IH.
Qed.

Lemma datasets_found_reported entries states : forall w : World L,
  datasetlist (self w) = PyList entries ->
  datasets_found FOB_METHOD states w
  = (inr tt,
     reported
       (flat_map (report_lines (fob (self w)) (fromyear (self w)) entries)
                 states)
       (flat_map (ledger_rows FOB_METHOD (fromyear (self w)) entries) states)
       w).
Proof.
  unfold datasets_found.
  induction states as [| [state state_id] rest IH]; intros w D; simpl.
  - rewrite reported_nothing. reflexivity.
  - unfold bind at 1. unfold bind at 1. simpl.
    unfold bind at 1. simpl. unfold bind at 1. simpl. rewrite D. simpl.
    unfold bind at 1. simpl. rewrite found_loop. simpl.
    rewrite IH by exact D. simpl.
    rewrite !reported_twice. unfold reported. simpl.
    rewrite <- !app_assoc. reflexivity.
Qed.

End Ledger.

(* ================================================================= *)
(** ** The quota *)

Section Quota.

Context {L : Type} `{QuotaClient L}.
Variable json_loads : string -> option pyval.
Variable load_default_locations : list Location.t -> list Location.t.
Variable FOB_METHOD : string.

(** Steps that make no dataset request and leave the client alone. *)
Ltac quiet :=
  let w := fresh "w" in
  intros w; unfold within_quota, spent_and_left;
  unfold fob_upload_text, fob_download_text, Location_get,
    Location_filter_parent, set_Location_objects, Hash_save, print,
    assign, attr, modify, gets, raise, ret, lift, bind, with_self;
  simpl;
  repeat match goal with
         | |- context [match ?x with _ => _ end] => destruct x; simpl
         end;
  apply Nat.le_refl.

Lemma leg_getDatasetList_within_quota quality :
  moves within_quota (leg_getDatasetList (L := L) quality).
Proof.
  intros w. unfold within_quota, spent_and_left, leg_getDatasetList.
  pose proof (getDatasetList_keeps quality (leg (self w))) as K.
  destruct (getDatasetList quality (leg (self w))) as [text client].
  simpl in *. apply Nat.add_le_mono_l. exact K.
Qed.

(** A dataset request is made only with the client available, and is
    paid from the quota. *)
Lemma fetch_entry_within_quota state state_id entry :
  moves within_quota (fetch_entry (L := L) state state_id entry).
Proof.
  intros w. unfold within_quota.
  destruct (selected state_id (fromyear (self w)) entry) eqn:S.
  - destruct (use_api (self w) && api_ok (leg (self w))) eqn:E.
    + rewrite fetch_entry_fetches by assumption.
      apply andb_true_iff in E as [_ Ok].
      pose proof (api_ok_quota _ Ok) as Pos.
      pose proof (getDataset_spends (Entry.session_id entry)
                    (Entry.access_key entry) (leg (self w))) as Sp.
      unfold spent_and_left, leg_getDataset. simpl.
      destruct (getDataset (Entry.session_id entry)
                  (Entry.access_key entry) (leg (self w))) as [text client].
      simpl in *. rewrite length_app. simpl. lia.
    + rewrite fetch_entry_skipped by assumption. apply Nat.le_refl.
  - rewrite fetch_entry_unselected by assumption. apply Nat.le_refl.
Qed.

Lemma recent_enough_within_quota :
  moves within_quota (recent_enough (L := L) json_loads).
Proof.
  unfold recent_enough, refresh_from_api, load_from_storage,
    verify_contents, validate, require_contents, json_loads_py,
    datetime_today.
  repeat first [ apply leg_getDatasetList_within_quota | moves_step ].
  all: try quiet.
Qed.

Lemma handle_within_quota options :
  moves within_quota
    (handle (L := L) json_loads load_default_locations FOB_METHOD options).
Proof.
  unfold handle. apply moves_bind; [exact _ | | intros _].
  { unfold take_options. moves_auto. all: quiet. }
  apply moves_bind; [exact _ | apply recent_enough_within_quota | intros data].
  unfold fetch_dataset, datasets_found, found_entry, show_results,
    run_load_default_locations.
  repeat first [ apply fetch_entry_within_quota
               | apply moves_try_except; [exact _ | | intros ? ? ?]
               | moves_step ].
  all: try quiet.
  destruct e; try discriminate.
  match goal with X : Some _ = Some _ |- _ => injection X as <- end.
  moves_auto. all: quiet.
Qed.

End Quota.

(* ================================================================= *)
(** ** The claims about the fetch, the report and the ledger *)

Section SchedulerClaims.

Context {L : Type} `{LegiscanAPI L}.
Variable json_loads : string -> option pyval.
Variable load_default_locations : list Location.t -> list Location.t.
Variable FOB_METHOD : string.

Lemma filter_twice {X} (f : X -> bool) (l : list X) :
  filter f (filter f l) = filter f l.
Proof.
  induction l as [| x l IH]; simpl.
  - reflexivity.
  - destruct (f x) eqn:E; simpl; [rewrite E, IH |]; auto.
Qed.

(** Claim C6.  With the manifest entries in [datasetlist], the fetch
    of a state and the report consider an entry exactly when it is
    selected: it has the number of the state and ends in [fromyear] or
    later.  [fetch_dataset] does not fail, and with remote fetching
    enabled it requests the selected entries at whose turn the client
    is available, in the order of the list, and nothing else -- all
    the selected entries when the client is always available.
    [datasets_found] does not fail; the lines it prints and the rows
    it adds to the ledger are, state by state, those of the selected
    entries: an entry that is not selected gets no request, no line
    and no row. *)
Theorem only_selected_entries_are_processed
    state state_id entries states (w : World L) :
  datasetlist (self w) = PyList entries ->
  let from := fromyear (self w) in
  let chosen := filter (selected state_id from) entries in
  (exists w',
      fetch_dataset state state_id w = (inr tt, w')
      /\ dataset_requests w'
         = dataset_requests w
           ++ map request_of
                (if use_api (self w) then attempted chosen (leg (self w))
                 else []))
  /\ (forall e, In e (attempted chosen (leg (self w))) ->
        In e entries /\ selected state_id from e = true)
  /\ ((forall client : L, api_ok client = true) ->
      attempted chosen (leg (self w)) = chosen)
  /\ (exists w',
        datasets_found FOB_METHOD states w = (inr tt, w')
        /\ stdout w'
           = stdout w
             ++ flat_map (report_lines (fob (self w)) from entries) states
        /\ Hash_objects w'
           = Hash_objects w
             ++ flat_map (ledger_rows FOB_METHOD from entries) states)
  /\ (forall state_data row,
        In row (ledger_rows FOB_METHOD from entries state_data)
        <-> exists e,
              In e entries
              /\ selected (snd state_data) from e = true
              /\ row = ledger_row FOB_METHOD (fst state_data) e)
  /\ (forall state_data line,
        In line (report_lines (fob (self w)) from entries state_data)
        <-> line = " "
            \/ exists e,
                 In e entries
                 /\ selected (snd state_data) from e = true
                 /\ In line
                      (report_of
                         (FOB.Dataset_items (fst state_data) (fob (self w)))
                         (fst state_data) e)).
Proof.
  intros D from chosen.
  split; [| split; [| split; [| split; [| split]]]].
  - unfold fetch_dataset.
    rewrite (bind_inr _ _ w (PyList entries) w)
      by (unfold attr, gets; rewrite D; reflexivity).
    rewrite (bind_inr _ _ w entries w eq_refl).
    apply fetch_loop_requests.
  - intros e Hin. apply attempted_listed in Hin.
    apply filter_In in Hin. exact Hin.
  - intros Hok. apply attempted_all. exact Hok.
  - eexists. split; [apply datasets_found_reported; exact D |].
    split; reflexivity.
  - intros state_data row. unfold ledger_rows. rewrite in_map_iff. split.
    + intros (e & <- & Hin). apply filter_In in Hin as [Hin Hsel].
      exists e. repeat split; assumption.
    + intros (e & Hin & Hsel & ->). exists e. split; [reflexivity |].
      apply filter_In. split; assumption.
  - intros state_data line. unfold report_lines. simpl. rewrite in_flat_map.
    split.
    + intros [E | (e & Hin & Hline)]; [left; symmetry; exact E |].
      apply filter_In in Hin as [Hin Hsel].
      right. exists e. repeat split; assumption.
    + intros [-> | (e & Hin & Hsel & Hline)]; [left; reflexivity |].
      right. exists e. split; [| exact Hline].
      apply filter_In. split; assumption.
Qed.

(** Claim C7.  With the manifest entries in [datasetlist], the report
    never fails and appends to the ledger, after the rows it had,
    exactly one row for every selected entry of every state, holding
    the entry's hash, size, date and description with the storage
    method and the item name; the rows do not depend on what the store
    holds. *)
Theorem ledger_gets_one_row_per_selected_entry
    entries states (w : World L) :
  datasetlist (self w) = PyList entries ->
  (exists w',
      datasets_found FOB_METHOD states w = (inr tt, w')
      /\ Hash_objects w'
         = Hash_objects w
           ++ flat_map (ledger_rows FOB_METHOD (fromyear (self w)) entries)
                       states)
  /\ (forall store,
        Hash_objects
          (snd (datasets_found FOB_METHOD states
                  (with_self (set_fob store) w)))
        = Hash_objects w
          ++ flat_map (ledger_rows FOB_METHOD (fromyear (self w)) entries)
                      states)
  /\ (forall state_data,
        List.length (ledger_rows FOB_METHOD (fromyear (self w)) entries
                       state_data)
        = List.length (filter (selected (snd state_data)
                                 (fromyear (self w))) entries)).
Proof.
  intros D. split; [| split].
  - eexists. split.
    + apply datasets_found_reported. exact D.
    + reflexivity.
  - intros store.
    rewrite (datasets_found_reported FOB_METHOD entries states) by exact D.
    reflexivity.
  - intros state_data. unfold ledger_rows. apply length_map.
Qed.

End SchedulerClaims.

Section QuotaClaim.

Context {L : Type} `{QuotaClient L}.
Variable json_loads : string -> option pyval.
Variable load_default_locations : list Location.t -> list Location.t.
Variable FOB_METHOD : string.

(** Claim C8.  A dataset is requested only when remote fetching is
    enabled and the client reports that it is available; otherwise the
    entry is skipped without a request, a line or an exception; and
    with a client that pays every dataset request from its quota, the
    requests made during a whole run are at most the quota the client
    had when the run started. *)
Theorem dataset_requests_within_quota options (w : World L) :
  (forall state state_id entry (w0 : World L),
      use_api (self w0) && api_ok (leg (self w0)) = false ->
      fetch_entry state state_id entry w0 = (inr tt, w0))
  /\ (forall state state_id entry (w0 : World L),
        dataset_requests (snd (fetch_entry state state_id entry w0))
          <> dataset_requests w0 ->
        use_api (self w0) = true /\ api_ok (leg (self w0)) = true)
  /\ (List.length
        (dataset_requests
           (snd (handle json_loads load_default_locations FOB_METHOD
                   options w)))
      <= List.length (dataset_requests w) + quota (leg (self w)))%nat.
Proof.
  split; [| split].
  - intros state state_id entry w0. apply fetch_entry_skipped.
  - intros state state_id entry w0 Hreq.
    destruct (use_api (self w0) && api_ok (leg (self w0))) eqn:E.
    + apply andb_true_iff in E. exact E.
    + rewrite fetch_entry_skipped in Hreq by exact E.
      exfalso. apply Hreq. reflexivity.
  - pose proof (handle_within_quota json_loads load_default_locations
                  FOB_METHOD options w) as Q.
    unfold within_quota, spent_and_left in Q.
    eapply Nat.le_trans; [| exact Q]. apply Nat.le_add_r.
Qed.

End QuotaClaim.

(* ================================================================= *)
(** ** Concrete runs *)

Module Runs.

Import Budget Sample.

(** *** Where the code departs from the claims *)

(** Claim C1.  In Scenario C the dataset of session 9001 of state 5 is
    requested once, and its text is stored under [XX-5.json], the name
    made of the state's own number: [fetch_dataset] passes [state_id]
    to [Dataset_name] where [datasets_found] passes [session_id].
    Nothing is stored under [XX-9001.json]. *)
Theorem scenario_C_uploads_under_the_state_number :
  let w' := snd (run options_api scenario_C) in
  dataset_requests w' = [(9001, "k9001")]
  /\ FOB.Dataset_name "XX" (Entry.session_id session_9001) = "XX-9001.json"
  /\ FOB.download_text "XX-9001.json" (fob (self w'))
     = inl (NotFound "XX-9001.json")
  /\ FOB.download_text "XX-5.json" (fob (self w')) = inr "dataset 9001".
Proof. vm_compute. repeat split; reflexivity. Qed.

(** Claim C10.  In the same run the report looks for [XX-9001.json],
    which the fetch of that very run did not write, and prints the
    session that was just fetched as not found. *)
Theorem scenario_C_reports_the_fetched_dataset_as_not_found :
  let out := run options_api scenario_C in
  fst out = inr tt
  /\ In "Fetching XX: 9001" (stdout (snd out))
  /\ In "Item not found:  XX-9001.json" (stdout (snd out))
  /\ ~ In "Found session dataset:  XX-9001.json" (stdout (snd out)).
Proof.
  vm_compute. repeat split; try tauto.
  intros F. repeat (destruct F as [F | F]; [discriminate F |]). exact F.
Qed.

(** Claim C3.  A manifest that decodes to an object without a status
    field is not rejected: [recent_enough] returns, and [datasetlist]
    is left at [None]; the run fails later, when the fetch iterates
    over it. *)
Theorem manifest_without_status_is_not_rejected :
  let out := recent_enough json_loads no_status in
  json_loads no_status_text = Some no_status_pkg
  /\ py_contains "status" no_status_pkg = inr false
  /\ fst out = inr PyNone
  /\ list_pkg (self (snd out)) = no_status_pkg
  /\ datasetlist (self (snd out)) = PyNone
  /\ fst (run options_api
            (world [] (serving (Some no_status_text)) (DT.mk 2024 1 3 10 0)))
     = inl TypeError.
Proof. vm_compute. repeat split; reflexivity. Qed.

(** Scenario D: a manifest whose status is not OK ends the run with an
    error that names the file, before any dataset is requested. *)
Example scenario_D_aborts_before_any_fetch :
  let out := run options_api
               (world [] (serving (Some error_text)) (DT.mk 2024 1 3 10 0)) in
  fst out = inl (ManifestStatusError "DatasetList-2024-01-03.json")
  /\ dataset_requests (snd out) = []
  /\ Hash_objects (snd out) = [].
Proof. vm_compute. repeat split; reflexivity. Qed.

(** Scenario B: a manifest cached two days ago is used as it is, with
    no manifest request. *)
Example scenario_B_reuses_the_cache :
  let out := recent_enough json_loads scenario_B in
  fst out = inr PyNone
  /\ manifest_requests (snd out) = []
  /\ list_name (self (snd out)) = Some "DatasetList-2024-01-01.json".
Proof. vm_compute. repeat split; reflexivity. Qed.

(** The option [--frequency] is copied into the command and never read:
    with a frequency of 3 days and a cache that is five days old, no
    manifest is requested. *)
Example frequency_option_is_not_read :
  let w := world [("DatasetList-2024-01-01.json", ok_text)]
                 (serving (Some ok_text)) (DT.mk 2024 1 6 0 0) in
  let out := run {| opt_api := true; opt_state := None;
                    opt_frequency := 3 |} w in
  frequency (self (snd out)) = 3
  /\ manifest_requests (snd out) = [].
Proof. vm_compute. split; reflexivity. Qed.

(** A name that matches the pattern without naming a day of the
    calendar ends the scan with the [ValueError] of [strptime]. *)
Example scan_raises_on_an_impossible_date :
  FOB.DatasetList_search "DatasetList-2024-02-30.json" = Some "2024-02-30"
  /\ latest_scan ["DatasetList-2024-02-30.json"] long_ago None
     = inl ValueError.
Proof. vm_compute. split; reflexivity. Qed.

(** *** Counterexamples to the claims as they are stated *)

(** Claim C2 fails at the boundary: with the frequency 7, remote
    fetching enabled and a cache that is exactly seven days old, no
    manifest is requested. *)
Lemma week_old_manifest_is_not_refreshed :
  latest_scan (FOB.DatasetList_items (fob (self a_week_later))) long_ago None
    = inr (DT.mk 2024 1 1 0 0, Some "DatasetList-2024-01-01.json")
  /\ use_api (self a_week_later) = true
  /\ frequency (self a_week_later) = 7
  /\ cache_age a_week_later (DT.mk 2024 1 1 0 0)
     = DT.timedelta_days (frequency (self a_week_later))
  /\ manifest_requests (snd (recent_enough json_loads a_week_later)) = [].
Proof. vm_compute. repeat split; reflexivity. Qed.

(** Claim C4 fails in Scenario B: [recent_enough] does not fail, and
    what it returns is [None], not the list of entries it parsed. *)
Lemma recent_enough_value_is_not_the_manifest :
  let out := recent_enough json_loads scenario_B in
  fst out = inr PyNone
  /\ datasetlist (self (snd out)) = PyList [session_1400; session_9001]
  /\ PyNone <> PyList [session_1400; session_9001].
Proof.
  vm_compute. repeat split; try reflexivity. discriminate.
Qed.

(** Claim C9 fails on a name dated before the sentinel: the only key
    matches the pattern and carries a date, and no name is selected. *)
Lemma manifest_older_than_the_sentinel_is_not_selected :
  dated "DatasetList-1900-01-01.json" (DT.mk 1900 1 1 0 0)
  /\ latest_scan ["DatasetList-1900-01-01.json"] long_ago None
     = inr (long_ago, None).
Proof.
  split.
  - exists "1900-01-01". split; vm_compute; reflexivity.
  - vm_compute. reflexivity.
Qed.

End Runs.

(** *** The theorems at concrete worlds *)

Module Witnesses.

Import Budget Sample.

(** Claim C2, amended, in Scenario B. *)
Lemma manifest_request_witness :
  (latest_scan (FOB.DatasetList_items (fob (self scenario_B))) long_ago None
     = inr (DT.mk 2024 1 1 0 0, Some "DatasetList-2024-01-01.json")
   /\ frequency (self scenario_B) = 7)
  /\ manifest_requests (snd (recent_enough json_loads scenario_B))
     = manifest_requests scenario_B
       ++ (if use_api (self scenario_B)
              && (DT.timedelta_days (frequency (self scenario_B))
                  <? cache_age scenario_B (DT.mk 2024 1 1 0 0))
           then ["Good"] else []).
Proof.
  assert (S : latest_scan (FOB.DatasetList_items (fob (self scenario_B)))
                long_ago None
              = inr (DT.mk 2024 1 1 0 0, Some "DatasetList-2024-01-01.json"))
    by (vm_compute; reflexivity).
  assert (F : frequency (self scenario_B) = 7) by reflexivity.
  split; [split; assumption |].
  exact (manifest_request_when_older_than_a_week
           json_loads scenario_B _ _ S F).
Defined.

(** Claim C4, amended, in Scenario B. *)
Lemma recent_enough_returns_None_witness :
  recent_enough json_loads scenario_B
    = (inr PyNone, snd (recent_enough json_loads scenario_B))
  /\ exists text pkg,
       list_data (self (snd (recent_enough json_loads scenario_B)))
         = PyStr text
       /\ json_loads text = Some pkg
       /\ list_pkg (self (snd (recent_enough json_loads scenario_B))) = pkg
       /\ (py_contains "status" pkg = inr true ->
           py_getitem pkg "datasetlist"
           = inr (datasetlist
                    (self (snd (recent_enough json_loads scenario_B))))).
Proof.
  assert (E : recent_enough json_loads scenario_B
              = (inr PyNone, snd (recent_enough json_loads scenario_B)))
    by (vm_compute; reflexivity).
  split; [exact E |].
  exact (proj2 (recent_enough_returns_None json_loads scenario_B _ _ E)).
Defined.

(** Claim C5, with the API down and an old cache, and in Scenario A. *)
Lemma manifest_unavailable_witness :
  latest_scan (FOB.DatasetList_items (fob (self api_down))) long_ago None
    = inr (DT.mk 2023 12 1 0 0, Some "DatasetList-2023-12-01.json")
  /\ In "API Failed to get DatasetList from Legiscan"
        (stdout (snd (recent_enough json_loads api_down)))
  /\ (exists content,
        FOB.download_text "DatasetList-2023-12-01.json" (fob (self api_down))
          = inr content
        /\ In "Downloading:  DatasetList-2023-12-01.json"
              (stdout (snd (recent_enough json_loads api_down)))
        /\ list_data (self (snd (recent_enough json_loads api_down)))
           = PyStr content)
  /\ fst (recent_enough json_loads scenario_A) = inl ManifestUnavailable
  /\ run options_no_api scenario_A
     = (inl ManifestUnavailable, snd (recent_enough json_loads scenario_A)).
Proof.
  assert (S : latest_scan (FOB.DatasetList_items (fob (self api_down)))
                long_ago None
              = inr (DT.mk 2023 12 1 0 0, Some "DatasetList-2023-12-01.json"))
    by (vm_compute; reflexivity).
  split; [exact S |].
  destruct (manifest_unavailable_is_fatal json_loads load_default_locations
              "FILE" api_down _ _ S) as (Hfail & _).
  destruct Hfail as [Hlog Hload]; [reflexivity | reflexivity |].
  split; [exact Hlog |]. split; [apply Hload; reflexivity |].
  assert (A : latest_scan (FOB.DatasetList_items (fob (self scenario_A)))
                long_ago None
              = inr (long_ago, None)) by reflexivity.
  destruct (manifest_unavailable_is_fatal json_loads load_default_locations
              "FILE" scenario_A _ _ A) as (_ & _ & Hempty & Hrun).
  assert (E : fst (recent_enough json_loads scenario_A)
              = inl ManifestUnavailable)
    by (apply Hempty; reflexivity).
  split; [exact E |].
  apply (Hrun options_no_api scenario_A ManifestUnavailable);
    [reflexivity | exact E].
Defined.

(** Claim C9, amended, on three names of which two are dated. *)
Lemma latest_scan_selects_latest_witness :
  exists d n,
    latest_scan sample_keys long_ago None = inr (d, n)
    /\ (forall k fd, In k sample_keys -> dated k fd -> fd <= d)
    /\ match n with
       | Some name => In name sample_keys /\ dated name d /\ long_ago < d
       | None => d = long_ago
       end
    /\ ((forall k, In k sample_keys -> FOB.DatasetList_search k = None) ->
        d = long_ago /\ n = None).
Proof.
  apply (latest_scan_selects_latest sample_keys).
  intros k g [<- | [<- | [<- | []]]] E; vm_compute in E;
    first [discriminate E | injection E as <-; vm_compute; discriminate].
Defined.

(** Claim C6, on the session that ends in 2017 and on the one that ends
    in 2019, with remote fetching enabled: the fetch of state 5 asks
    for session 9001 only, and the report has a line and a row for it
    only. *)
Lemma only_selected_witness :
  dataset_requests
    (snd (fetch_dataset "XX" 5 (with_self (set_use_api true) with_manifest)))
    = [request_of session_9001]
  /\ stdout
       (snd (datasets_found "FILE" [("XX", 5)]
               (with_self (set_use_api true) with_manifest)))
     = [" "; "Item not found:  XX-9001.json"]
  /\ Hash_objects
       (snd (datasets_found "FILE" [("XX", 5)]
               (with_self (set_use_api true) with_manifest)))
     = [ledger_row "FILE" "XX" session_9001].
Proof.
  destruct (only_selected_entries_are_processed "FILE" "XX" 5
              [session_1400; session_9001] [("XX", 5)]
              (with_self (set_use_api true) with_manifest) eq_refl)
    as ((w1 & E1 & R1) & _ & _ & (w2 & E2 & O2 & H2) & _).
  rewrite E1, E2. simpl fst. simpl snd. rewrite R1, O2, H2.
  vm_compute. repeat split; reflexivity.
Defined.

(** Claim C7, on the two sample sessions. *)
Lemma ledger_witness :
  datasetlist (self with_manifest) = PyList [session_1400; session_9001]
  /\ exists w',
       datasets_found "FILE" [("XX", 5)] with_manifest = (inr tt, w')
       /\ Hash_objects w'
          = Hash_objects with_manifest
            ++ flat_map (ledger_rows "FILE" (fromyear (self with_manifest))
                           [session_1400; session_9001])
                        [("XX", 5)].
Proof.
  split; [reflexivity |].
  apply (proj1 (ledger_gets_one_row_per_selected_entry
                  "FILE" [session_1400; session_9001] [("XX", 5)]
                  with_manifest eq_refl)).
Defined.

(** Claim C8, in Scenario C with the counting client. *)
Lemma quota_witness :
  (List.length (dataset_requests (snd (run options_api scenario_C)))
   <= List.length (dataset_requests scenario_C)
      + quota (leg (self scenario_C)))%nat.
Proof.
  exact (proj2 (proj2 (dataset_requests_within_quota
                         json_loads load_default_locations "FILE"
                         options_api scenario_C))).
Defined.

End Witnesses.

(* ================================================================= *)
(** * Further properties of the command *)

(** ** The calendar and the names of the manifests *)


Lemma upto_In n z : 0 <= z < n -> In z (upto n).
Proof.
  intros Hz. unfold upto. apply in_map_iff. exists (Z.to_nat z). split.
  - lia.
  - apply in_seq. lia.
Qed.

Lemma month_day_checked leapyear n :
  0 <= n < 365 -> month_day_ok leapyear n = true.
Proof.
  intros Hn.
  assert (A : forallb (fun n => month_day_ok true n && month_day_ok false n)
                (upto 365) = true) by (vm_compute; reflexivity).
  rewrite forallb_forall in A. specialize (A n (upto_In 365 n Hn)).
  apply andb_true_iff in A as [T F]. destruct leapyear; assumption.
Qed.

Lemma ord2ymd_ymd2ord ordinal :
  1 <= ordinal <= 3652059 ->
  let '(y, m, d) := DT.ord2ymd ordinal in
  1 <= y <= 9999 /\ 1 <= m <= 12 /\ 1 <= d <= DT.days_in_month y m
  /\ DT.ymd2ord y m d = ordinal.
Proof.
  intros Hn. unfold DT.ord2ymd. cbv zeta.
  set (n0 := ordinal - 1).
  set (n400 := n0 / 146097). set (r400 := n0 mod 146097).
  set (n100 := r400 / 36524). set (r100 := r400 mod 36524).
  set (n4 := r100 / 1461). set (r4 := r100 mod 1461).
  set (n1 := r4 / 365). set (r := r4 mod 365).
  assert (E400 : n0 = 146097 * n400 + r400 /\ 0 <= r400 < 146097)
    by (subst n400 r400; split; [apply Z.div_mod; lia | apply Z.mod_pos_bound; lia]).
  assert (E100 : r400 = 36524 * n100 + r100 /\ 0 <= r100 < 36524)
    by (subst n100 r100; split; [apply Z.div_mod; lia | apply Z.mod_pos_bound; lia]).
  assert (E4 : r100 = 1461 * n4 + r4 /\ 0 <= r4 < 1461)
    by (subst n4 r4; split; [apply Z.div_mod; lia | apply Z.mod_pos_bound; lia]).
  assert (E1 : r4 = 365 * n1 + r /\ 0 <= r < 365)
    by (subst n1 r; split; [apply Z.div_mod; lia | apply Z.mod_pos_bound; lia]).
  assert (B : 0 <= n0 <= 3652058 /\ ordinal = n0 + 1) by (subst n0; lia).
  clearbody n400 r400 n100 r100 n4 r4 n1 r. clearbody n0.
  assert (Q : 0 <= n400 <= 24 /\ 0 <= n100 <= 4 /\ 0 <= n4 <= 24
              /\ 0 <= n1 <= 4) by lia.
  destruct ((n1 =? 4) || (n100 =? 4)) eqn:Last.
  - (* the last day of a leap year or of a cycle of 400 years *)
    assert (Hyear : n1 = 4 /\ n4 <= 23 /\ r = 0 \/ n100 = 4 /\ n4 = 0 /\ n1 = 0 /\ r = 0).
    { apply orb_true_iff in Last as [L | L]; apply Z.eqb_eq in L; lia. }
    unfold DT.days_in_month, DT.ymd2ord, DT.days_before_year,
      DT.days_before_month, DT.is_leap.
    cbv zeta. simpl nth.
    split; [lia |]. split; [lia |].
    assert (Leap : ((n400 * 400 + 1 + n100 * 100 + n4 * 4 + n1 - 1) mod 4 =? 0)
                   && (negb ((n400 * 400 + 1 + n100 * 100 + n4 * 4 + n1 - 1)
                               mod 100 =? 0)
                       || ((n400 * 400 + 1 + n100 * 100 + n4 * 4 + n1 - 1)
                             mod 400 =? 0)) = true).
    { apply andb_true_iff. split.
      - apply Z.eqb_eq. Z.div_mod_to_equations. lia.
      - apply orb_true_iff.
        destruct Hyear as [(? & ? & ?) | (? & ? & ? & ?)].
        + left. apply negb_true_iff. apply Z.eqb_neq.
          Z.div_mod_to_equations. lia.
        + right. apply Z.eqb_eq. Z.div_mod_to_equations. lia. }
    rewrite Leap. simpl. split; [lia |].
    Z.div_mod_to_equations. lia.
  - apply orb_false_iff in Last as [L1 L100].
    apply Z.eqb_neq in L1. apply Z.eqb_neq in L100.
    set (leapyear := (n1 =? 3) && (negb (n4 =? 24) || (n100 =? 3))).
    set (year := n400 * 400 + 1 + n100 * 100 + n4 * 4 + n1).
    assert (Leap : DT.is_leap year = leapyear).
    { unfold DT.is_leap, leapyear, year.
      destruct (Z.eqb_spec n1 3), (Z.eqb_spec n4 24), (Z.eqb_spec n100 3);
        simpl;
        repeat match goal with
               | |- context [?a mod ?b =? 0] =>
                   destruct (Z.eqb_spec (a mod b) 0)
               end; simpl; try reflexivity;
        exfalso; Z.div_mod_to_equations; lia. }
    assert (Before : DT.days_before_year year = n0 - r).
    { unfold DT.days_before_year, year. cbv zeta.
      Z.div_mod_to_equations. lia. }
    pose proof (month_day_checked leapyear r (proj2 E1)) as MD.
    unfold month_day_ok, month_day in MD. cbv zeta in MD.
    destruct (r <? nth (Z.to_nat (Z.shiftr (r + 50) 5)) DT.DAYS_BEFORE_MONTH 0
                   + (if (2 <? Z.shiftr (r + 50) 5) && leapyear then 1 else 0))
      eqn:Lt;
      repeat (apply andb_true_iff in MD as [MD ?]);
      repeat match goal with
             | X : (_ <=? _) = true |- _ => apply Z.leb_le in X
             | X : (_ =? _) = true |- _ => apply Z.eqb_eq in X
             end;
      unfold DT.days_in_month, DT.ymd2ord, DT.days_before_month;
      rewrite Leap, Before;
      (split; [unfold year; lia |]); (split; [lia |]); (split; [lia |]); lia.
Qed.


(** *** Decimal texts *)

Lemma all_digits_of_uint u :
  all_digits (NilEmpty.string_of_uint u) = true.
Proof.
  induction u; simpl; try exact IHu. reflexivity.
Qed.

Lemma length_of_uint u :
  String.length (NilEmpty.string_of_uint u) = Decimal.nb_digits u.
Proof.
  induction u; simpl; try (rewrite IHu); reflexivity.
Qed.

(** The value of the digits of a number, read after the digits of
    [acc]. *)
Lemma digits_val_of_uint_acc u : forall acc,
  digits_val (Z.pos acc) (NilEmpty.string_of_uint u)
  = Z.pos (Pos.of_uint_acc u acc).
Proof.
  induction u; intros acc; cbn [NilEmpty.string_of_uint Pos.of_uint_acc];
    [reflexivity | ..];
    cbn [digits_val]; rewrite <- IHu; f_equal;
    match goal with
    | |- context [digit_val ?c] =>
        let v := eval vm_compute in (digit_val c) in
        change (digit_val c) with v
    end; lia.
Qed.

Lemma digits_val_of_uint u :
  digits_val 0 (NilEmpty.string_of_uint u) = Z.of_N (Pos.of_uint u).
Proof.
  induction u; cbn [NilEmpty.string_of_uint Pos.of_uint];
    [reflexivity | exact IHu | ..];
    cbn [digits_val]; unfold Z.of_N; rewrite <- digits_val_of_uint_acc;
    reflexivity.
Qed.

(** A number is not less than what its first digits stand for. *)
Lemma of_uint_acc_bound u : forall acc,
  Z.pos acc * 10 ^ Z.of_nat (Decimal.nb_digits u)
  <= Z.pos (Pos.of_uint_acc u acc).
Proof.
  induction u; intros acc; cbn [Pos.of_uint_acc Decimal.nb_digits];
    [simpl; lia | ..];
    rewrite Nat2Z.inj_succ, Z.pow_succ_r by lia;
    (eapply Z.le_trans; [| apply IHu]);
    assert (0 < 10 ^ Z.of_nat (Decimal.nb_digits u))
      by (apply Z.pow_pos_nonneg; lia);
    nia.
Qed.

Lemma first_digit_bound u acc p (width : nat) :
  Pos.of_uint_acc u acc = p ->
  Z.pos p < 10 ^ Z.of_nat width ->
  (S (Decimal.nb_digits u) <= width)%nat.
Proof.
  intros V Hp. pose proof (of_uint_acc_bound u acc) as B. rewrite V in B.
  destruct (Nat.le_gt_cases (S (Decimal.nb_digits u)) width) as [Le | Gt];
    [exact Le |].
  exfalso.
  assert (10 ^ Z.of_nat width <= 10 ^ Z.of_nat (Decimal.nb_digits u))
    by (apply Z.pow_le_mono_r; lia).
  assert (0 < 10 ^ Z.of_nat (Decimal.nb_digits u))
    by (apply Z.pow_pos_nonneg; lia).
  nia.
Qed.

(** The decimal text of a positive number has no more digits than the
    number allows. *)
Lemma nb_digits_to_uint p (width : nat) :
  Z.pos p < 10 ^ Z.of_nat width ->
  (Decimal.nb_digits (Pos.to_uint p) <= width)%nat.
Proof.
  intros Hp.
  pose proof (DecimalPos.Unsigned.of_to p) as V.
  pose proof (DecimalPos.Unsigned.to_of (Pos.to_uint p)) as N.
  rewrite V in N. simpl in N.
  destruct (Pos.to_uint p) as [| u | u | u | u | u | u | u | u | u | u] eqn:E;
    cbn [Pos.of_uint] in V; cbn [Decimal.nb_digits];
    try (injection V as V; exact (first_digit_bound u _ p width V Hp)).
  - discriminate V.
  - (* a leading zero *)
    exfalso. unfold Decimal.unorm in N. cbn [Decimal.nzhead] in N.
    pose proof (DecimalFacts.nb_digits_nzhead u) as Len.
    destruct (Decimal.nzhead u) eqn:Z; try discriminate N.
    + injection N as N. subst u. simpl in V. discriminate V.
    + injection N as N. subst u. simpl in Len. lia.
Qed.

Lemma zeros_all_digits n s :
  all_digits (zeros n +++ s) = all_digits s.
Proof.
  induction n as [| n IH]; [reflexivity |]. simpl zeros.
  change (String "0" (zeros n) +++ s) with (String "0" (zeros n +++ s)).
  simpl. exact IH.
Qed.

Lemma zeros_digits_val n s :
  digits_val 0 (zeros n +++ s) = digits_val 0 s.
Proof.
  induction n as [| n IH]; [reflexivity |]. simpl zeros.
  change (String "0" (zeros n) +++ s) with (String "0" (zeros n +++ s)).
  simpl. exact IH.
Qed.

Lemma zeros_length n s :
  String.length (zeros n +++ s) = (n + String.length s)%nat.
Proof.
  induction n as [| n IH]; [reflexivity |]. simpl zeros.
  change (String "0" (zeros n) +++ s) with (String "0" (zeros n +++ s)).
  simpl. rewrite IH. reflexivity.
Qed.

(** [str(n)] of a number that is not negative: digits only, that stand
    for the number, and no more of them than the number allows. *)
Lemma str_int_digits n (width : nat) :
  0 <= n < 10 ^ Z.of_nat width -> (0 < width)%nat ->
  all_digits (str_int n) = true
  /\ digits_val 0 (str_int n) = n
  /\ (String.length (str_int n) <= width)%nat.
Proof.
  intros Hn Hw. unfold str_int. destruct n as [| p | p]; [| | lia].
  - split; [reflexivity |]. split; [reflexivity |]. simpl. lia.
  - simpl Z.to_int. unfold NilZero.string_of_int, NilZero.string_of_uint.
    assert (E : match Pos.to_uint p with
                | Decimal.Nil => "0"
                | _ => NilEmpty.string_of_uint (Pos.to_uint p)
                end = NilEmpty.string_of_uint (Pos.to_uint p)).
    { pose proof (DecimalPos.Unsigned.to_uint_nonnil p) as NN.
      destruct (Pos.to_uint p); [contradiction | reflexivity ..]. }
    rewrite E. split; [apply all_digits_of_uint |]. split.
    + rewrite digits_val_of_uint, DecimalPos.Unsigned.of_to. reflexivity.
    + rewrite length_of_uint. apply nb_digits_to_uint. lia.
Qed.

(** A number written with [width] digits and zeros before them is read
    back. *)
Lemma zero_pad_digits (width : nat) n :
  0 <= n < 10 ^ Z.of_nat width -> (0 < width)%nat ->
  all_digits (zero_pad width n) = true
  /\ digits_val 0 (zero_pad width n) = n
  /\ String.length (zero_pad width n) = width.
Proof.
  intros Hn Hw. destruct (str_int_digits n width Hn Hw) as (A & V & Len).
  unfold zero_pad. cbv zeta.
  rewrite zeros_all_digits, zeros_digits_val, zeros_length.
  split; [exact A |]. split; [exact V | lia].
Qed.

(** A run of digits stands for a number below the power of ten of its
    length. *)
Lemma digit_val_bound c : is_digit c = true -> 0 <= digit_val c <= 9.
Proof.
  unfold is_digit, digit_val. intros D.
  apply andb_true_iff in D as [Lo Hi].
  apply Nat.leb_le in Lo. apply Nat.leb_le in Hi. lia.
Qed.

Lemma digits_val_bound s : forall acc,
  all_digits s = true ->
  digits_val acc s < (acc + 1) * 10 ^ Z.of_nat (String.length s).
Proof.
  induction s as [| c s IH]; intros acc D.
  - simpl. lia.
  - simpl in D. apply andb_true_iff in D as [Dc Ds].
    pose proof (digit_val_bound c Dc) as B.
    cbn [digits_val String.length].
    rewrite Nat2Z.inj_succ, Z.pow_succ_r by lia.
    pose proof (IH (10 * acc + digit_val c) Ds) as I.
    assert (0 < 10 ^ Z.of_nat (String.length s))
      by (apply Z.pow_pos_nonneg; lia).
    nia.
Qed.

(** A year from 1000 on is written with its four digits. *)
Lemma str_int_four_digits y :
  1000 <= y <= 9999 -> str_int y = zero_pad 4 y.
Proof.
  intros Hy.
  destruct (str_int_digits y 4) as (A & V & Len);
    [change (10 ^ Z.of_nat 4) with 10000; lia | lia |].
  pose proof (digits_val_bound (str_int y) 0 A) as B. rewrite V in B.
  assert (Hlen : String.length (str_int y) = 4%nat).
  { destruct (String.length (str_int y)) as [| [| [| [| [| n]]]]];
      simpl in B; try lia. }
  unfold zero_pad. cbv zeta. rewrite Hlen. reflexivity.
Qed.

Lemma year_text_checked y : 0 <= y <= 9999 -> year_text_ok y = true.
Proof.
  intros Hy.
  destruct (zero_pad_digits 4 y) as (A & V & Len);
    [change (10 ^ Z.of_nat 4) with 10000; lia | lia |].
  unfold year_text_ok, DT.year_token. cbv zeta.
  rewrite A, V, Len. rewrite Z.eqb_refl. reflexivity.
Qed.

Lemma month_text_checked m : 1 <= m <= 12 -> month_text_ok m = true.
Proof.
  intros Hm.
  assert (A : forallb (fun m => (m =? 0) || month_text_ok m) (upto 13) = true)
    by (vm_compute; reflexivity).
  rewrite forallb_forall in A. specialize (A m (upto_In 13 m ltac:(lia))).
  apply orb_true_iff in A as [Z0 | A]; [apply Z.eqb_eq in Z0; lia | exact A].
Qed.

Lemma day_text_checked d : 1 <= d <= 31 -> day_text_ok d = true.
Proof.
  intros Hd.
  assert (A : forallb (fun d => (d =? 0) || day_text_ok d) (upto 32) = true)
    by (vm_compute; reflexivity).
  rewrite forallb_forall in A. specialize (A d (upto_In 32 d ltac:(lia))).
  apply orb_true_iff in A as [Z0 | A]; [apply Z.eqb_eq in Z0; lia | exact A].
Qed.

Lemma digit_is_no_dash c : is_digit c = true -> Ascii.eqb c "-" = false.
Proof.
  intros D. destruct (Ascii.eqb_spec c "-") as [-> | N].
  - discriminate D.
  - reflexivity.
Qed.

Lemma append_cons c a b : String c a +++ b = String c (a +++ b).
Proof. reflexivity. Qed.

Lemma split_on_digits a rest :
  all_digits a = true ->
  split_on "-" (a +++ String "-" rest) = a :: split_on "-" rest.
Proof.
  induction a as [| c a IH]; intros D.
  - reflexivity.
  - simpl in D. apply andb_true_iff in D as [Dc Da].
    rewrite append_cons. simpl. rewrite (digit_is_no_dash c Dc).
    rewrite (IH Da). reflexivity.
Qed.

Lemma split_on_last a :
  all_digits a = true -> split_on "-" a = [a].
Proof.
  induction a as [| c a IH]; intros D.
  - reflexivity.
  - simpl in D. apply andb_true_iff in D as [Dc Da].
    simpl. rewrite (digit_is_no_dash c Dc). rewrite (IH Da). reflexivity.
Qed.

Lemma substring_prefix a b :
  String.substring 0 (String.length a) (a +++ b) = a.
Proof.
  induction a as [| c a IH].
  - simpl. destruct b; reflexivity.
  - rewrite append_cons. simpl. rewrite IH. reflexivity.
Qed.

Lemma length_append a b :
  String.length (a +++ b) = (String.length a + String.length b)%nat.
Proof.
  induction a as [| c a IH].
  - reflexivity.
  - rewrite append_cons. simpl. rewrite IH. reflexivity.
Qed.

Lemma append_assoc a b c : (a +++ b) +++ c = a +++ b +++ c.
Proof.
  induction a as [| x a IH].
  - reflexivity.
  - rewrite !append_cons. rewrite IH. reflexivity.
Qed.

(** The text of a date of the calendar: [strptime] reads it back, and it
    has the shape of the dates in the names of the cached manifests. *)
Lemma date_text_read_back y m d :
  1 <= y <= 9999 -> 1 <= m <= 12 -> 1 <= d <= DT.days_in_month y m ->
  let text := zero_pad 4 y +++ "-" +++ zero_pad 2 m +++ "-" +++ zero_pad 2 d in
  DT.strptime_ymd text = Some (DT.ymd2ord y m d * DT.us_per_day)
  /\ FOB.date_shape text = true
  /\ String.length text = 10%nat.
Proof.
  intros Hy Hm Hd text.
  assert (Hd31 : 1 <= d <= 31).
  { split; [lia |]. destruct Hd as [_ Hd]. revert Hd.
    unfold DT.days_in_month.
    destruct ((m =? 2) && DT.is_leap y); [lia |].
    assert (A : forallb (fun m => nth (Z.to_nat m) DT.DAYS_IN_MONTH 0 <=? 31)
                  (upto 13) = true) by (vm_compute; reflexivity).
    rewrite forallb_forall in A. specialize (A m (upto_In 13 m ltac:(lia))).
    apply Z.leb_le in A. lia. }
  pose proof (year_text_checked y ltac:(lia)) as Y.
  pose proof (month_text_checked m Hm) as M.
  pose proof (day_text_checked d Hd31) as D.
  unfold year_text_ok in Y. unfold month_text_ok in M. unfold day_text_ok in D.
  cbv zeta in Y, M, D.
  apply andb_true_iff in Y as [Yt Yv].
  repeat (apply andb_true_iff in M as [M ?]).
  repeat (apply andb_true_iff in D as [D ?]).
  repeat match goal with
         | X : (_ =? _) = true |- _ => apply Z.eqb_eq in X
         | X : (_ =? _)%nat = true |- _ => apply Nat.eqb_eq in X
         end.
  assert (Yd : all_digits (zero_pad 4 y) = true /\ String.length (zero_pad 4 y) = 4%nat).
  { unfold DT.year_token in Yt. apply andb_true_iff in Yt as [L A].
    apply Nat.eqb_eq in L. split; assumption. }
  destruct Yd as [Yd Yl].
  assert (S : split_on "-" text
              = [zero_pad 4 y; zero_pad 2 m; zero_pad 2 d]).
  { unfold text.
    change ("-" +++ zero_pad 2 m +++ "-" +++ zero_pad 2 d)
      with (String "-" (zero_pad 2 m +++ String "-" (zero_pad 2 d))).
    rewrite split_on_digits by assumption.
    rewrite split_on_digits by assumption.
    rewrite split_on_last by assumption. reflexivity. }
  split; [| split].
  - unfold DT.strptime_ymd. rewrite S. rewrite Yt, M, D. simpl.
    match goal with X : digits_val 0 (zero_pad 4 y) = y |- _ => rewrite X end.
    match goal with X : digits_val 0 (zero_pad 2 m) = m |- _ => rewrite X end.
    match goal with X : DT.day_value (zero_pad 2 d) = d |- _ => rewrite X end.
    destruct (Z.leb_spec 1 y); [| lia].
    destruct (Z.leb_spec d (DT.days_in_month y m)); [| lia].
    reflexivity.
  - unfold FOB.date_shape. rewrite S.
    repeat match goal with
           | X : String.length _ = _ |- _ => rewrite X
           | X : all_digits _ = true |- _ => rewrite X
           end.
    reflexivity.
  - unfold text. rewrite !length_append.
    repeat match goal with
           | X : String.length _ = _ |- _ => rewrite X
           end.
    reflexivity.
Qed.

Lemma substring_skip a n b :
  String.substring (String.length a) n (a +++ b) = String.substring 0 n b.
Proof.
  induction a as [| c a IH].
  - reflexivity.
  - rewrite append_cons. simpl. exact IH.
Qed.

(** A manifest named after a text of the shape of a date matches the
    pattern of the cached manifests, with the text as its group. *)
Lemma date_name_matches text :
  FOB.date_shape text = true ->
  String.length text = 10%nat ->
  FOB.DatasetList_search (FOB.gen_DatasetList_name text) = Some text.
Proof.
  intros Hshape Hlen.
  assert (G : String.substring 12 10 (FOB.gen_DatasetList_name text) = text).
  { unfold FOB.gen_DatasetList_name.
    change 12%nat with (String.length "DatasetList-").
    rewrite substring_skip. rewrite <- Hlen. apply substring_prefix. }
  unfold FOB.DatasetList_search. cbv zeta. rewrite G.
  unfold FOB.gen_DatasetList_name.
  rewrite String.eqb_refl. rewrite Hshape. reflexivity.
Qed.

(** The first day of the year 1000 and the days of the years before. *)
Lemma year_1000_starts : DT.mk 1000 1 1 0 0 = 364878 * DT.us_per_day.
Proof. vm_compute. reflexivity. Qed.

Lemma day_of_year_bound y m d :
  1 <= m <= 12 -> 1 <= d <= DT.days_in_month y m ->
  DT.days_before_month y m + d <= if DT.is_leap y then 366 else 365.
Proof.
  intros Hm Hd.
  assert (A : forallb
                (fun m =>
                   (m =? 0)
                   || forallb
                        (fun leap : bool =>
                           nth (Z.to_nat m) DT.DAYS_BEFORE_MONTH 0
                           + (if (2 <? m) && leap then 1 else 0)
                           + (if (m =? 2) && leap then 29
                              else nth (Z.to_nat m) DT.DAYS_IN_MONTH 0)
                           <=? (if leap then 366 else 365))
                        [true; false])
                (upto 13) = true) by (vm_compute; reflexivity).
  rewrite forallb_forall in A. specialize (A m (upto_In 13 m ltac:(lia))).
  apply orb_true_iff in A as [Z0 | A]; [apply Z.eqb_eq in Z0; lia |].
  rewrite forallb_forall in A.
  specialize (A (DT.is_leap y)
                ltac:(destruct (DT.is_leap y); simpl; tauto)).
  apply Z.leb_le in A.
  unfold DT.days_in_month, DT.days_before_month in *. lia.
Qed.

Lemma before_the_year_1000 y m d :
  1 <= y <= 999 -> 1 <= m <= 12 -> 1 <= d <= DT.days_in_month y m ->
  DT.ymd2ord y m d < 364878.
Proof.
  intros Hy Hm Hd. pose proof (day_of_year_bound y m d Hm Hd) as B.
  unfold DT.ymd2ord.
  assert (Y : DT.days_before_year y
              + (if DT.is_leap y then 366 else 365) <= 364877).
  { unfold DT.days_before_year, DT.is_leap. cbv zeta.
    destruct (Z.eqb_spec (y mod 4) 0) as [E4 | N4]; simpl;
      [destruct (Z.eqb_spec (y mod 100) 0) as [E100 | N100]; simpl;
       [destruct (Z.eqb_spec (y mod 400) 0) as [E400 | N400]; simpl |] |];
      Z.div_mod_to_equations; lia. }
  lia.
Qed.

(** The text [strftime] writes for a time in the years 1000 to 9999 is
    read back by [strptime] as the midnight of its day, and it has the
    shape of a date. *)
Lemma strftime_date_text (now : DT.datetime) :
  DT.mk 1000 1 1 0 0 <= now < 3652060 * DT.us_per_day ->
  DT.strptime_ymd (DT.strftime_ymd now) = Some (midnight now)
  /\ FOB.date_shape (DT.strftime_ymd now) = true
  /\ String.length (DT.strftime_ymd now) = 10%nat.
Proof.
  rewrite year_1000_starts. intros Hnow.
  assert (Hord : 364878 <= now / DT.us_per_day <= 3652059).
  { unfold DT.us_per_day in *. split.
    - apply Z.div_le_lower_bound; lia.
    - assert (now / 86400000000 < 3652060); [| lia].
      apply Z.div_lt_upper_bound; lia. }
  pose proof (ord2ymd_ymd2ord (now / DT.us_per_day) ltac:(lia)) as R.
  unfold DT.strftime_ymd, midnight.
  destruct (DT.ord2ymd (now / DT.us_per_day)) as [[y m] d].
  destruct R as (Hy & Hm & Hd & Hback).
  assert (Hyear : 1000 <= y).
  { destruct (Z.le_gt_cases 1000 y) as [Le | Gt]; [exact Le |].
    pose proof (before_the_year_1000 y m d ltac:(lia) Hm Hd). lia. }
  rewrite (str_int_four_digits y) by lia.
  destruct (date_text_read_back y m d Hy Hm Hd) as (Hparse & Hshape & Hlen).
  cbv zeta in Hparse, Hshape, Hlen.
  split; [| split; assumption].
  rewrite Hparse. rewrite Hback. reflexivity.
Qed.


(** A name written in the year 999 is not one the scan recognises. *)
Example year_999_is_written_with_three_digits :
  DT.strftime_ymd (DT.mk 999 3 1 0 0) = "999-03-01"
  /\ FOB.DatasetList_search
       (FOB.gen_DatasetList_name (DT.strftime_ymd (DT.mk 999 3 1 0 0)))
     = None.
Proof. vm_compute. split; reflexivity. Qed.


(* ================================================================= *)
(** ** The store and the scan, once more *)

Section StoreFacts.

Lemma download_upload_same data name (s : FOB.store) :
  FOB.download_text name (FOB.upload_text data name s) = inr data.
Proof.
  induction s as [| [k v] s IH]; simpl.
  - rewrite String.eqb_refl. reflexivity.
  - destruct (String.eqb_spec k name) as [-> | N]; simpl.
    + rewrite String.eqb_refl. reflexivity.
    + destruct (String.eqb_spec k name); [contradiction | exact IH].
Qed.

Lemma download_upload_other data name key (s : FOB.store) :
  key <> name ->
  FOB.download_text key (FOB.upload_text data name s)
  = FOB.download_text key s.
Proof.
  intros N. induction s as [| [k v] s IH]; simpl.
  - destruct (String.eqb_spec name key); [congruence | reflexivity].
  - destruct (String.eqb_spec k name) as [-> | Nk]; simpl.
    + destruct (String.eqb_spec name key); [congruence | reflexivity].
    + destruct (String.eqb_spec k key); [reflexivity | exact IH].
Qed.

Lemma keys_after_upload data name key (s : FOB.store) :
  In key (map fst (FOB.upload_text data name s))
  <-> In key (map fst s) \/ key = name.
Proof.
  induction s as [| [k v] s IH]; simpl.
  - split; [intros [E | []]; right; congruence | intros [[] | E]; left; congruence].
  - destruct (String.eqb_spec k name) as [-> | Nk]; simpl.
    + split; [intros [E | I]; left; [left | right]; assumption |].
      intros [[E | I] | E]; [left | right | left]; congruence.
    + rewrite IH. tauto.
Qed.

Lemma items_after_upload prefix data name key (s : FOB.store) :
  In key (FOB.list_items prefix (FOB.upload_text data name s))
  <-> In key (FOB.list_items prefix s)
      \/ (key = name /\ String.prefix prefix name = true).
Proof.
  unfold FOB.list_items. rewrite !filter_In. rewrite keys_after_upload.
  split.
  - intros [[I | E] P]; [left; split; assumption | right; subst; split; auto].
  - intros [[I P] | [E P]]; [split; [left |]; assumption |].
    subst. split; [right; reflexivity | exact P].
Qed.

Lemma prefix_append a b : String.prefix a (a +++ b) = true.
Proof.
  induction a as [| c a IH].
  - destruct b; reflexivity.
  - rewrite append_cons. simpl.
    destruct (ascii_dec c c) as [_ | N]; [exact IH | contradiction].
Qed.

(** A scan that ends met no name with an impossible date. *)
Lemma latest_scan_ended keys : forall d0 n0 r,
  latest_scan keys d0 n0 = inr r ->
  forall k g, In k keys -> FOB.DatasetList_search k = Some g ->
              DT.strptime_ymd g <> None.
Proof.
  induction keys as [| name rest IH]; intros d0 n0 r E k g Hin S.
  - destruct Hin.
  - simpl in E. destruct Hin as [<- | Hin].
    + rewrite S in E. destruct (DT.strptime_ymd g); [discriminate | discriminate E].
    + destruct (FOB.DatasetList_search name) as [g' |].
      * destruct (DT.strptime_ymd g') as [fd |]; [| discriminate E].
        destruct (d0 <? fd); apply (IH _ _ _ E k g Hin S).
      * apply (IH _ _ _ E k g Hin S).
Qed.

Lemma dated_once name d1 d2 : dated name d1 -> dated name d2 -> d1 = d2.
Proof.
  intros (g1 & S1 & P1) (g2 & S2 & P2). congruence.
Qed.

(** The scan selects a name whose date is after the sentinel and after
    the date of every other name. *)
Lemma latest_scan_strict_latest keys name D :
  (forall k g, In k keys -> FOB.DatasetList_search k = Some g ->
               DT.strptime_ymd g <> None) ->
  In name keys -> dated name D -> long_ago < D ->
  (forall k fd, In k keys -> dated k fd -> k <> name -> fd < D) ->
  latest_scan keys long_ago None = inr (D, Some name).
Proof.
  intros Hvalid Hin Hd Hlong Hothers.
  destruct (latest_scan_ends keys Hvalid long_ago None) as (d & n & E).
  rewrite E.
  destruct (latest_scan_result keys _ _ _ _ E) as (_ & Hmax & Hsel).
  pose proof (Hmax name D Hin Hd) as HD.
  destruct Hsel as [[-> _] | (_ & k & -> & Hk & Hkd)].
  - lia.
  - destruct (String.eqb_spec k name) as [-> | N].
    + rewrite (dated_once name d D Hkd Hd). reflexivity.
    + pose proof (Hothers k d Hk Hkd N). lia.
Qed.

(** Property X2. The scan does not depend on the order in which the
    store lists its keys. When no two listed names carry the same date,
    two listings of the same keys give the same latest date and the same
    latest name; and when the scan ends on one of them it ends on the
    other. *)
Theorem scan_does_not_depend_on_the_listing_order keys1 keys2 d n :
  (forall k, In k keys1 <-> In k keys2) ->
  (forall k k' fd, In k keys1 -> In k' keys1 ->
                   dated k fd -> dated k' fd -> k = k') ->
  latest_scan keys1 long_ago None = inr (d, n) ->
  latest_scan keys2 long_ago None = inr (d, n).
Proof.
  intros Hsame Hinj S1.
  assert (Hvalid : forall k g, In k keys2 ->
                     FOB.DatasetList_search k = Some g ->
                     DT.strptime_ymd g <> None).
  { intros k g Hin. apply (latest_scan_ended _ _ _ _ S1).
    apply Hsame. exact Hin. }
  destruct (latest_scan_ends keys2 Hvalid long_ago None) as (d2 & n2 & S2).
  rewrite S2.
  destruct (latest_scan_result _ _ _ _ _ S1) as (_ & Hmax1 & Hsel1).
  destruct (latest_scan_result _ _ _ _ _ S2) as (_ & Hmax2 & Hsel2).
  destruct Hsel1 as [[-> ->] | (Hlate1 & k1 & -> & Hin1 & Hd1)];
    destruct Hsel2 as [[-> ->] | (Hlate2 & k2 & -> & Hin2 & Hd2)].
  - reflexivity.
  - pose proof (Hmax1 k2 d2 (proj2 (Hsame k2) Hin2) Hd2). lia.
  - pose proof (Hmax2 k1 d (proj1 (Hsame k1) Hin1) Hd1). lia.
  - pose proof (Hmax1 k2 d2 (proj2 (Hsame k2) Hin2) Hd2).
    pose proof (Hmax2 k1 d (proj1 (Hsame k1) Hin1) Hd1).
    assert (d2 = d) by lia. subst d2.
    rewrite (Hinj k1 k2 d Hin1 (proj2 (Hsame k2) Hin2) Hd1 Hd2).
    reflexivity.
Qed.

End StoreFacts.


(* ================================================================= *)
(** ** The resolver and the store *)

Section ResolverStore.

Context {L : Type} `{LegiscanAPI L}.
Variable json_loads : string -> option pyval.

Lemma after_refresh_keeps {X} (f : Command L -> X) n :
  (forall v c, f (set_list_data v c) = f c) ->
  (forall v c, f (set_list_pkg v c) = f c) ->
  (forall v c, f (set_datasetlist v c) = f c) ->
  moves (keeps (fun w : World L => f (self w)))
    (load_from_storage n ;; verify_contents json_loads ;;
     require_contents ;; ret PyNone).
Proof.
  intros Hdata Hpkg Hlist.
  unfold load_from_storage, verify_contents, validate, require_contents,
    json_loads_py, fob_download_text.
  moves_auto.
  all: intros w; unfold keeps, assign, modify, with_self; simpl;
    first [apply Hdata | apply Hpkg | apply Hlist].
Qed.

(** The store [recent_enough] leaves. *)
Lemma recent_enough_store (w : World L) :
  fob (self (snd (recent_enough json_loads w)))
  = match latest_scan (FOB.DatasetList_items (fob (self w))) long_ago None with
    | inr (d, _) =>
        if use_api (self w) && (d <? clock w - DT.timedelta_days 7) then
          match fresh_manifest w with
          | Some text => FOB.upload_text text (todays_name w) (fob (self w))
          | None => fob (self w)
          end
        else fob (self w)
    | inl _ => fob (self w)
    end.
Proof.
  destruct (latest_scan (FOB.DatasetList_items (fob (self w))) long_ago None)
    as [e | [d n]] eqn:S.
  - rewrite (recent_enough_scan_raises json_loads w e S). reflexivity.
  - rewrite (recent_enough_scanned json_loads w d n S).
    set (w0 := with_self (set_list_name n) w).
    rewrite (bind_keeps (fun w : World L => fob (self w)))
      by (intros _; apply after_refresh_keeps; reflexivity).
    destruct (use_api (self w) && (d <? clock w - DT.timedelta_days 7)) eqn:C.
    + unfold fresh_manifest.
      destruct (fst (getDatasetList "Good" (leg (self w)))) as [text |] eqn:F.
      * destruct (String.eqb_spec text "") as [-> | N].
        -- assert (T : truthy (text_or_none
                                 (fst (getDatasetList "Good" (leg (self w0)))))
                        = false) by (unfold w0; simpl; rewrite F; reflexivity).
           rewrite (refresh_failed (clock w) d w0 C T).
           simpl. rewrite leg_getDatasetList_fob. reflexivity.
        -- rewrite (refresh_succeeded (clock w) d w0 text C F N). simpl.
           rewrite leg_getDatasetList_fob. reflexivity.
      * assert (T : truthy (text_or_none
                               (fst (getDatasetList "Good" (leg (self w0)))))
                      = false) by (unfold w0; simpl; rewrite F; reflexivity).
        rewrite (refresh_failed (clock w) d w0 C T).
        simpl. rewrite leg_getDatasetList_fob. reflexivity.
    + rewrite refresh_skipped by exact C. reflexivity.
Qed.

(** Property X3. The resolver writes at most one key of the store, the
    name of today's manifest: every other key keeps its content (or
    stays absent), the whole store is left as it was when remote
    fetching is disabled or the API gives no text, and a manifest that
    was fetched can be downloaded under today's name. *)
Theorem resolver_writes_only_todays_manifest (w : World L) :
  let w' := snd (recent_enough json_loads w) in
  (forall key, key <> todays_name w ->
     FOB.download_text key (fob (self w'))
     = FOB.download_text key (fob (self w)))
  /\ (use_api (self w) = false \/ fresh_manifest w = None ->
      fob (self w') = fob (self w))
  /\ (manifest_requests w' <> manifest_requests w ->
      forall text, fresh_manifest w = Some text ->
      FOB.download_text (todays_name w) (fob (self w')) = inr text).
Proof.
  cbv zeta. rewrite recent_enough_store.
  destruct (latest_scan (FOB.DatasetList_items (fob (self w))) long_ago None)
    as [e | [d n]] eqn:S.
  - split; [reflexivity |]. split; [reflexivity |].
    intros Hreq. exfalso. apply Hreq.
    rewrite (recent_enough_scan_raises json_loads w e S). reflexivity.
  - split; [| split].
    + intros key Hkey.
      destruct (use_api (self w) && (d <? clock w - DT.timedelta_days 7));
        [| reflexivity].
      destruct (fresh_manifest w); [| reflexivity].
      apply download_upload_other. exact Hkey.
    + intros [Hoff | Hnone].
      * rewrite Hoff. reflexivity.
      * rewrite Hnone.
        destruct (use_api (self w) && (d <? clock w - DT.timedelta_days 7));
          reflexivity.
    + intros Hreq text Htext. rewrite Htext.
      destruct (use_api (self w) && (d <? clock w - DT.timedelta_days 7)) eqn:C.
      * apply download_upload_same.
      * exfalso. apply Hreq.
        rewrite (recent_enough_scanned json_loads w d n S).
        rewrite bind_keeps by (intros _; apply after_scan_keeps_manifest_requests).
        rewrite refresh_manifest_requests. simpl. rewrite C. apply app_nil_r.
Qed.

End ResolverStore.


Section Reuse.

Context {L : Type} `{LegiscanAPI L}.
Variable json_loads : string -> option pyval.

Lemma tail_keeps {X} (f : World L -> X) :
  (forall w v, f (with_self (set_list_pkg v) w) = f w) ->
  (forall w v, f (with_self (set_datasetlist v) w) = f w) ->
  (forall w line, f (snd (print line w)) = f w) ->
  moves (keeps f)
    (verify_contents json_loads ;; require_contents ;; ret PyNone).
Proof.
  intros Hpkg Hlist Hprint. moves_auto.
  - apply verify_contents_keeps; assumption.
  - apply require_contents_keeps; assumption.
Qed.

Lemma midnight_bounds now :
  midnight now <= now < midnight now + DT.us_per_day.
Proof.
  unfold midnight, DT.us_per_day.
  pose proof (Z.div_mod now 86400000000 ltac:(lia)).
  pose proof (Z.mod_pos_bound now 86400000000 ltac:(lia)). lia.
Qed.

(** The scan of a run that starts on the store a fetch has left, no
    more than seven days after the midnight of the day of the fetch: it
    selects the name the manifest was stored under, and the store gives
    the text that was fetched. *)
Lemma scan_after_a_fetch (w w2 : World L) d n text :
  latest_scan (FOB.DatasetList_items (fob (self w))) long_ago None
    = inr (d, n) ->
  use_api (self w) && (d <? clock w - DT.timedelta_days 7) = true ->
  fresh_manifest w = Some text ->
  DT.us_per_day <= clock w < 3652060 * DT.us_per_day ->
  fob (self w2) = fob (self (snd (recent_enough json_loads w))) ->
  latest_scan (FOB.DatasetList_items (fob (self w2))) long_ago None
    = inr (midnight (clock w), Some (todays_name w))
  /\ FOB.download_text (todays_name w) (fob (self w2)) = inr text.
Proof.
  intros S C Htext Hclock Hstore.
  rewrite recent_enough_store in Hstore. rewrite S, C, Htext in Hstore.
  set (name := todays_name w) in *.
  destruct (latest_scan_result _ _ _ _ _ S) as (Hlong & Hmax & _).
  apply andb_true_iff in C as [_ Hstale]. apply Z.ltb_lt in Hstale.
  assert (Hyear : DT.mk 1000 1 1 0 0 <= clock w < 3652060 * DT.us_per_day).
  { assert (DT.mk 1000 1 1 0 0 <= long_ago) by (vm_compute; discriminate).
    unfold DT.timedelta_days, DT.us_per_day in *. lia. }
  destruct (strftime_date_text (clock w) Hyear) as (Hparse & Hshape & Hlen).
  pose proof (date_name_matches _ Hshape Hlen) as Hsearch.
  fold (todays_name w) in Hsearch. fold name in Hsearch.
  assert (Hdated : dated name (midnight (clock w))).
  { exists (DT.strftime_ymd (clock w)). split; assumption. }
  pose proof (midnight_bounds (clock w)) as Hmid.
  assert (Hd : d < midnight (clock w)).
  { unfold DT.timedelta_days, DT.us_per_day in *. lia. }
  split.
  - rewrite Hstore. unfold FOB.DatasetList_items.
    apply latest_scan_strict_latest.
    + intros k g Hin Hk. apply items_after_upload in Hin as [Hold | [-> _]].
      * apply (latest_scan_ended _ _ _ _ S k g Hold Hk).
      * rewrite Hsearch in Hk. injection Hk as <-. rewrite Hparse.
        discriminate.
    + apply items_after_upload. right. split; [reflexivity |].
      apply prefix_append.
    + exact Hdated.
    + lia.
    + intros k fd Hin Hk Hneq.
      apply items_after_upload in Hin as [Hold | [-> _]]; [| contradiction].
      pose proof (Hmax k fd Hold Hk). lia.
  - rewrite Hstore. apply download_upload_same.
Qed.

(** Property X4. A manifest fetched by one run is what the next runs
    use, and its age counts from the midnight of the day of the fetch.
    When a run has asked the API and got a text, a command that starts
    on the store this run left asks the API again exactly when remote
    fetching is enabled and its time is more than seven days after that
    midnight; when its time is no more than seven days after it, the
    command selects the name the text was stored under and holds the
    very text that was fetched. *)
Theorem fetched_manifest_is_reused (w w2 : World L) d n text :
  latest_scan (FOB.DatasetList_items (fob (self w))) long_ago None
    = inr (d, n) ->
  use_api (self w) && (d <? clock w - DT.timedelta_days 7) = true ->
  fresh_manifest w = Some text ->
  DT.us_per_day <= clock w < 3652060 * DT.us_per_day ->
  fob (self w2) = fob (self (snd (recent_enough json_loads w))) ->
  truthy (list_data (self w2)) = false ->
  let out := recent_enough json_loads w2 in
  manifest_requests (snd out)
  = manifest_requests w2
    ++ (if use_api (self w2)
           && (midnight (clock w) <? clock w2 - DT.timedelta_days 7)
        then ["Good"] else [])
  /\ (clock w2 - DT.timedelta_days 7 <= midnight (clock w) ->
      list_name (self (snd out)) = Some (todays_name w)
      /\ list_data (self (snd out)) = PyStr text).
Proof.
  intros S C Htext Hclock Hstore Hnone out. subst out.
  destruct (scan_after_a_fetch w w2 d n text S C Htext Hclock Hstore)
    as [S2 Hget].
  set (name := todays_name w) in *.
  split.
  { rewrite (recent_enough_scanned json_loads w2 _ _ S2).
    rewrite bind_keeps
      by (intros _; apply after_scan_keeps_manifest_requests).
    rewrite refresh_manifest_requests. reflexivity. }
  intros Hsoon.
  destruct (selected_name_is_stored _ _ _ S2) as [Hname _].
  rewrite (recent_enough_scanned json_loads w2 _ _ S2).
  set (w0 := with_self (set_list_name (Some name)) w2).
  assert (Skip : use_api (self w0)
                 && (midnight (clock w) <? clock w0 - DT.timedelta_days 7)
                 = false).
  { apply andb_false_iff. right. apply Z.ltb_ge. exact Hsoon. }
  set (w3 := with_self (set_list_data (PyStr text))
               (snd (print ("Downloading:  " +++ name) w0))).
  assert (Run : (refresh_from_api (clock w2) (midnight (clock w)) ;;
                 load_from_storage (Some name) ;;
                 verify_contents json_loads ;; require_contents ;;
                 ret PyNone) w0
                = (verify_contents json_loads ;; require_contents ;;
                   ret PyNone) w3).
  { unfold bind at 1. rewrite (refresh_skipped (clock w2) _ w0 Skip).
    unfold bind at 1.
    rewrite (load_downloaded (Some name) name text w0 Hname Hnone eq_refl Hget).
    reflexivity. }
  rewrite Run.
  assert (K2 : moves (keeps (fun w : World L => list_name (self w)))
                 (verify_contents json_loads ;; require_contents ;;
                  ret PyNone))
    by (apply tail_keeps; intros; reflexivity).
  assert (K3 : moves (keeps (fun w : World L => list_data (self w)))
                 (verify_contents json_loads ;; require_contents ;;
                  ret PyNone))
    by (apply tail_keeps; intros; reflexivity).
  specialize (K2 w3). specialize (K3 w3).
  cbv beta delta [keeps] in K2, K3.
  rewrite K2, K3. split; reflexivity.
Qed.

End Reuse.


(* ================================================================= *)
(** ** A run without the API *)

Section Offline.

Context {L : Type} `{LegiscanAPI L}.
Variable json_loads : string -> option pyval.
Variable load_default_locations : list Location.t -> list Location.t.
Variable FOB_METHOD : string.

#[export] Instance offline_pre : PreOrder (@offline L).
Proof.
  split.
  - intros w Hoff. repeat split; auto.
  - intros w1 w2 w3 H12 H23 Hoff.
    destruct (H12 Hoff) as (U2 & L2 & F2 & M2 & D2).
    destruct (H23 U2) as (U3 & L3 & F3 & M3 & D3).
    repeat split; congruence.
Qed.

Ltac offline_prim :=
  let w := fresh "w" in
  let Hoff := fresh "Hoff" in
  intros w Hoff;
  unfold fob_download_text, Location_get, Location_filter_parent,
    set_Location_objects, Hash_save, print, assign, attr, modify, gets,
    raise, ret, lift, bind, with_self;
  simpl;
  repeat match goal with
         | |- context [match ?x with _ => _ end] => destruct x; simpl
         end;
  repeat split; first [exact Hoff | reflexivity].

Lemma refresh_offline now d :
  moves offline (refresh_from_api (L := L) now d).
Proof.
  intros w Hoff. rewrite refresh_skipped by (rewrite Hoff; reflexivity).
  repeat split; auto.
Qed.

Lemma fetch_entry_offline state state_id entry :
  moves offline (fetch_entry (L := L) state state_id entry).
Proof.
  intros w Hoff. rewrite fetch_entry_skipped by (rewrite Hoff; reflexivity).
  repeat split; auto.
Qed.

Lemma after_options_offline options :
  moves offline
    (data <- recent_enough json_loads ;;
     assign (set_list_data data) ;;
     usa <- try_except (Location_get "usa") (fun e =>
              match e with
              | DoesNotExist =>
                  Some (run_load_default_locations load_default_locations ;;
                        Location_get "usa")
              | _ => None
              end) ;;
     locations <- Location_filter_parent usa ;;
     locations <- match locations with
                  | [] => run_load_default_locations load_default_locations ;;
                          Location_filter_parent usa
                  | _ => ret locations
                  end ;;
     states <- for_each_acc locations [] (fun loc states =>
       let state := upper (Location.shortname loc) in
       let state_id := Location.legiscan_id loc in
       let states := states ++ [(state, state_id)] in
       (if truthy_name (opt_state options)
           && negb (String.eqb state (str_name (opt_state options)))
        then ret tt
        else
          print ("Processing: " +++ Location.desc loc
                 +++ " (" +++ state +++ ")") ;;
          fetch_dataset state state_id) ;;
       ret states) ;;
     datasets_found FOB_METHOD states).
Proof.
  unfold recent_enough, load_from_storage, verify_contents, validate,
    require_contents, json_loads_py, datetime_today,
    fetch_dataset, datasets_found, found_entry, show_results,
    run_load_default_locations.
  repeat first [ apply refresh_offline
               | apply fetch_entry_offline
               | apply moves_try_except; [exact _ | | intros ? ? ?]
               | moves_step ].
  all: try offline_prim.
  destruct e; try discriminate.
  match goal with X : Some _ = Some _ |- _ => injection X as <- end.
  moves_auto. all: offline_prim.
Qed.

(** Property X5. Without [--api] a run only looks: it makes no request
    to the API, for the manifest or for a dataset, leaves the client and
    the store exactly as they were, whatever the store, the catalog and
    the other options are, and whether it returns or fails. *)
Theorem without_api_nothing_is_fetched options (w : World L) :
  opt_api options = false ->
  use_api (self w) = false ->
  let w' := snd (handle json_loads load_default_locations FOB_METHOD
                   options w) in
  manifest_requests w' = manifest_requests w
  /\ dataset_requests w' = dataset_requests w
  /\ fob (self w') = fob (self w)
  /\ leg (self w') = leg (self w).
Proof.
  intros Hopt Hoff.
  assert (M : moves offline
                (handle json_loads load_default_locations FOB_METHOD options)).
  { unfold handle. apply moves_bind; [exact _ | | intros _].
    - unfold take_options. rewrite Hopt. unfold when at 1.
      moves_auto. all: offline_prim.
    - apply after_options_offline. }
  destruct (M w Hoff) as (_ & Hl & Hf & Hm & Hd). cbv zeta.
  repeat split; assumption.
Qed.

End Offline.


(* ================================================================= *)
(** ** The option [--frequency] *)

Section Frequency.

Context {L : Type} `{LegiscanAPI L}.
Variable json_loads : string -> option pyval.
Variable load_default_locations : list Location.t -> list Location.t.
Variable FOB_METHOD : string.

Lemma blind_step {A} (c : M L A) :
  (forall w, fst (c w) = fst (c (forget_frequency w))
             /\ forget_frequency (snd (c w))
                = forget_frequency (snd (c (forget_frequency w)))) ->
  blind c.
Proof.
  intros Hc w1 w2 S.
  destruct (Hc w1) as [F1 S1]. destruct (Hc w2) as [F2 S2].
  rewrite F1, F2, S1, S2, S. split; reflexivity.
Qed.

Lemma blind_bind {A B} (c : M L A) (k : A -> M L B) :
  blind c -> (forall a, blind (k a)) -> blind (bind c k).
Proof.
  intros Hc Hk w1 w2 S. unfold bind.
  destruct (Hc w1 w2 S) as [F W].
  destruct (c w1) as [[e1 | a1] v1], (c w2) as [[e2 | a2] v2];
    simpl in F, W; try discriminate F.
  - injection F as <-. split; [reflexivity | exact W].
  - injection F as <-. apply Hk. exact W.
Qed.

Lemma blind_when (b : bool) (c : M L unit) : blind c -> blind (when b c).
Proof.
  intros Hc. destruct b; simpl; [exact Hc |].
  intros w1 w2 S. split; [reflexivity | exact S].
Qed.

Lemma blind_ret {A} (a : A) : blind (ret (L := L) a).
Proof. intros w1 w2 S. split; [reflexivity | exact S]. Qed.

Lemma blind_raise {A} (e : exn) : blind (@raise L A e).
Proof. intros w1 w2 S. split; [reflexivity | exact S]. Qed.

Lemma blind_lift {A} (r : exn + A) : blind (lift (L := L) r).
Proof. intros w1 w2 S. split; [reflexivity | exact S]. Qed.

Lemma blind_for_each {X} (xs : list X) (body : X -> M L unit) :
  (forall x, blind (body x)) -> blind (for_each xs body).
Proof.
  intros Hb. induction xs as [| x xs IH]; simpl.
  - apply blind_ret.
  - apply blind_bind; [apply Hb | intros _; exact IH].
Qed.

Lemma blind_for_each_acc {X S} (xs : list X) (acc : S)
    (body : X -> S -> M L S) :
  (forall x s, blind (body x s)) -> blind (for_each_acc xs acc body).
Proof.
  intros Hb. revert acc. induction xs as [| x xs IH]; intros acc; simpl.
  - apply blind_ret.
  - apply blind_bind; [apply Hb | intros s; apply IH].
Qed.

Lemma blind_try_except {A} (c : M L A) (handler : exn -> option (M L A)) :
  blind c ->
  (forall e h, handler e = Some h -> blind h) ->
  blind (try_except c handler).
Proof.
  intros Hc Hh w1 w2 S. unfold try_except.
  destruct (Hc w1 w2 S) as [F W].
  destruct (c w1) as [[e1 | a1] v1], (c w2) as [[e2 | a2] v2];
    simpl in F, W; try discriminate F.
  - injection F as <-. destruct (handler e1) as [h |] eqn:E.
    + apply (Hh e1 h E). exact W.
    + split; [reflexivity | exact W].
  - injection F as <-. split; [reflexivity | exact W].
Qed.

Ltac blind_step_tac :=
  match goal with
  | |- blind (ret _) => apply blind_ret
  | |- blind (raise _) => apply blind_raise
  | |- blind (lift _) => apply blind_lift
  | |- blind (bind _ _) => apply blind_bind; [ | intros ? ]
  | |- blind (when _ _) => apply blind_when
  | |- blind (for_each _ _) => apply blind_for_each; intros ?
  | |- blind (for_each_acc _ _ _) => apply blind_for_each_acc; intros ? ?
  | |- blind (try_except _ _) => apply blind_try_except; [ | intros ? ? ? ]
  | |- blind (if ?b then _ else _) => destruct b
  | |- blind (match ?x with _ => _ end) => destruct x
  end.

Ltac blind_prim :=
  apply blind_step;
  let w := fresh "w" in
  intros w;
  unfold forget_frequency, fob_upload_text, fob_download_text, Location_get,
    Location_filter_parent, set_Location_objects, leg_getDatasetList,
    leg_getDataset, Hash_save, print, assign, attr, modify, gets, raise,
    ret, lift, bind, with_self, datetime_today;
  simpl;
  repeat match goal with
         | |- context [match ?x with _ => _ end] => destruct x; simpl
         | |- context [let '(_, _) := ?x in _] => destruct x; simpl
         end;
  split; reflexivity.

(** What [handle] does after it has taken the options. *)
Lemma after_options_blind options :
  blind
    (data <- recent_enough json_loads ;;
     assign (set_list_data data) ;;
     usa <- try_except (Location_get "usa") (fun e =>
              match e with
              | DoesNotExist =>
                  Some (run_load_default_locations load_default_locations ;;
                        Location_get "usa")
              | _ => None
              end) ;;
     locations <- Location_filter_parent usa ;;
     locations <- match locations with
                  | [] => run_load_default_locations load_default_locations ;;
                          Location_filter_parent usa
                  | _ => ret locations
                  end ;;
     states <- for_each_acc locations [] (fun loc states =>
       let state := upper (Location.shortname loc) in
       let state_id := Location.legiscan_id loc in
       let states := states ++ [(state, state_id)] in
       (if truthy_name (opt_state options)
           && negb (String.eqb state (str_name (opt_state options)))
        then ret tt
        else
          print ("Processing: " +++ Location.desc loc
                 +++ " (" +++ state +++ ")") ;;
          fetch_dataset state state_id) ;;
       ret states) ;;
     datasets_found FOB_METHOD states).
Proof.
  unfold recent_enough, refresh_from_api, load_from_storage,
    verify_contents, validate, require_contents, json_loads_py,
    fetch_dataset, fetch_entry, datasets_found, found_entry, show_results,
    run_load_default_locations.
  repeat blind_step_tac.
  all: try blind_prim.
  destruct e; try discriminate.
  match goal with X : Some _ = Some _ |- _ => injection X as <- end.
  repeat blind_step_tac. all: blind_prim.
Qed.

Lemma take_options_frequency options f (w : World L) :
  fst (take_options
         {| opt_api := opt_api options; opt_state := opt_state options;
            opt_frequency := f |} w)
  = fst (take_options options w)
  /\ forget_frequency
       (snd (take_options
               {| opt_api := opt_api options; opt_state := opt_state options;
                  opt_frequency := f |} w))
     = forget_frequency (snd (take_options options w)).
Proof.
  unfold take_options. simpl.
  destruct (opt_api options), (truthy_name (opt_state options)),
    (negb (f =? 0)), (negb (opt_frequency options =? 0));
    split; reflexivity.
Qed.

(** Property X6. The option [--frequency] changes nothing of what a run
    does: two runs from the same world whose options differ in the
    frequency only end in the same way (the same return or the same
    exception) and leave the same lines, the same store, ledger, catalog
    and requests -- worlds that differ at most in the attribute
    [frequency]. *)
Theorem frequency_changes_nothing options f (w : World L) :
  let other := {| opt_api := opt_api options;
                  opt_state := opt_state options;
                  opt_frequency := f |} in
  fst (handle json_loads load_default_locations FOB_METHOD other w)
  = fst (handle json_loads load_default_locations FOB_METHOD options w)
  /\ forget_frequency
       (snd (handle json_loads load_default_locations FOB_METHOD other w))
     = forget_frequency
         (snd (handle json_loads load_default_locations FOB_METHOD options w)).
Proof.
  cbv zeta. unfold handle.
  destruct (take_options_frequency options f w) as [F W].
  pose proof (take_options_returns options w) as R.
  rewrite R in F.
  destruct (take_options _ w) as [r1 w1] eqn:E1.
  destruct (take_options options w) as [r2 w2] eqn:E2.
  simpl in F, W, R. subst r1 r2.
  rewrite (bind_inr _ _ w tt w1 E1). rewrite (bind_inr _ _ w tt w2 E2).
  apply (after_options_blind options w1 w2 W).
Qed.

End Frequency.


(* ================================================================= *)
(** ** The option [--state] *)

Section StateOption.

Context {L : Type} `{LegiscanAPI L}.
Variable json_loads : string -> option pyval.
Variable load_default_locations : list Location.t -> list Location.t.
Variable FOB_METHOD : string.

Lemma upper_ascii_twice c : upper_ascii (upper_ascii c) = upper_ascii c.
Proof.
  destruct c as [[] [] [] [] [] [] [] []]; reflexivity.
Qed.

Lemma upper_twice s : upper (upper s) = upper s.
Proof.
  induction s as [| c s IH]; simpl.
  - reflexivity.
  - rewrite upper_ascii_twice, IH. reflexivity.
Qed.

(** A code that is not in upper case is the code of no state. *)
Lemma not_upper_matches_nothing s shortname :
  upper s <> s ->
  truthy_name (Some s) = true ->
  truthy_name (Some s) && negb (String.eqb (upper shortname) (str_name (Some s)))
  = true.
Proof.
  intros Hs Ht. rewrite Ht. simpl.
  destruct (String.eqb_spec (upper shortname) s) as [E | _]; [| reflexivity].
  exfalso. apply Hs. rewrite <- E. apply upper_twice.
Qed.

Ltac cases_step :=
  match goal with
  | |- moves _ (if ?b then _ else _) => destruct b eqn:?
  end.

(** Property X7. The code given with [--state] is compared as it is with
    the upper-case codes of the catalog: when it is not in upper case it
    is the code of no state, and the run requests no dataset at all. *)
Theorem state_not_in_upper_case_fetches_nothing options s (w : World L) :
  opt_state options = Some s ->
  s <> "" ->
  upper s <> s ->
  dataset_requests
    (snd (handle json_loads load_default_locations FOB_METHOD options w))
  = dataset_requests w.
Proof.
  intros Hopt Hs Hup.
  assert (Ht : truthy_name (Some s) = true).
  { simpl. destruct (String.eqb_spec s ""); [contradiction | reflexivity]. }
  assert (M : moves (keeps (@dataset_requests L))
                (handle json_loads load_default_locations FOB_METHOD options)).
  { unfold handle, take_options, recent_enough, refresh_from_api,
      load_from_storage, verify_contents, validate, require_contents,
      json_loads_py, datetime_today, datasets_found, found_entry,
      show_results, run_load_default_locations, fob_upload_text.
    rewrite Hopt.
    repeat first [ apply moves_try_except; [exact _ | | intros ? ? ?]
                 | cases_step
                 | moves_step ].
    all: try solve [prim].
    all: try match goal with
             | X : truthy_name (Some ?v) && negb (String.eqb (upper ?n) _)
                   = false |- _ =>
                 rewrite (not_upper_matches_nothing v n Hup Ht) in X;
                 discriminate X
             end.
    destruct e; try discriminate.
    match goal with X : Some _ = Some _ |- _ => injection X as <- end.
    moves_auto. }
  apply (M w).
Qed.

End StateOption.


(* ================================================================= *)
(** ** What a fetch and a report can change *)

Section FetchFrame.

Context {L : Type} `{LegiscanAPI L}.
Variable FOB_METHOD : string.

Lemma fetch_loop_bound state state_id from entries : forall w : World L,
  fromyear (self w) = from ->
  exists w' fetched,
    for_each entries (fetch_entry state state_id) w = (inr tt, w')
    /\ dataset_requests w' = dataset_requests w ++ map request_of fetched
    /\ (forall e, In e fetched ->
          In e entries /\ selected state_id from e = true)
    /\ (List.length fetched
        <= List.length (filter (selected state_id from) entries))%nat
    /\ (forall key, key <> FOB.Dataset_name state state_id ->
          FOB.download_text key (fob (self w'))
          = FOB.download_text key (fob (self w)))
    /\ Hash_objects w' = Hash_objects w
    /\ manifest_requests w' = manifest_requests w
    /\ stdout w' = stdout w
               ++ map (fun e => "Fetching " +++ state +++ ": "
                                +++ str_int (Entry.session_id e)) fetched.
Proof.
  induction entries as [| entry rest IH]; intros w F.
  - exists w, []. simpl. rewrite !app_nil_r.
    split; [reflexivity |]. split; [reflexivity |].
    split; [intros e [] |]. split; [apply Nat.le_refl |].
    repeat split; reflexivity.
  - simpl for_each. unfold bind.
    destruct (selected state_id from entry) eqn:S.
    + destruct (use_api (self w) && api_ok (leg (self w))) eqn:A.
      * rewrite fetch_entry_fetches by (rewrite ?F; assumption).
        match goal with
        | |- context [for_each rest _ ?v] => set (w1 := v)
        end.
        assert (F1 : fromyear (self w1) = from).
        { subst w1. simpl. unfold leg_getDataset.
          destruct (getDataset _ _ _). exact F. }
        assert (R1 : dataset_requests w1
                     = dataset_requests w ++ [request_of entry]).
        { subst w1. simpl. unfold leg_getDataset.
          destruct (getDataset _ _ _). reflexivity. }
        assert (S1 : fob (self w1)
                     = FOB.upload_text
                         (fst (getDataset (Entry.session_id entry)
                                 (Entry.access_key entry) (leg (self w))))
                         (FOB.Dataset_name state state_id) (fob (self w))).
        { subst w1. simpl. unfold leg_getDataset. simpl.
          destruct (getDataset _ _ _). reflexivity. }
        assert (H1 : Hash_objects w1 = Hash_objects w
                     /\ manifest_requests w1 = manifest_requests w
                     /\ stdout w1
                        = stdout w ++ ["Fetching " +++ state +++ ": "
                                       +++ str_int (Entry.session_id entry)]).
        { subst w1. simpl. unfold leg_getDataset.
          destruct (getDataset _ _ _). repeat split; reflexivity. }
        clearbody w1.
        destruct (IH w1 F1) as (w' & fetched & E & R & I & Len & St & Hh & Hm & Ho).
        exists w', (entry :: fetched). split; [exact E |].
        destruct H1 as (Hh1 & Hm1 & Ho1).
        split; [rewrite R, R1; simpl; rewrite <- app_assoc; reflexivity |].
        split.
        { intros e [<- | Hin]; [split; [left; reflexivity | exact S] |].
          destruct (I e Hin). split; [right |]; assumption. }
        split; [simpl; rewrite S; simpl; lia |].
        split.
        { intros key Hkey. rewrite (St key Hkey). rewrite S1.
          apply download_upload_other. exact Hkey. }
        split; [congruence |]. split; [congruence |].
        rewrite Ho, Ho1. simpl. rewrite <- app_assoc. reflexivity.
      * rewrite fetch_entry_skipped by exact A.
        destruct (IH w F) as (w' & fetched & E & R & I & Len & St & Hh & Hm & Ho).
        exists w', fetched. split; [exact E |]. split; [exact R |].
        split.
        { intros e Hin. destruct (I e Hin). split; [right |]; assumption. }
        split; [simpl; rewrite S; simpl; lia |].
        repeat split; assumption.
    + rewrite fetch_entry_unselected by (rewrite F; exact S).
      destruct (IH w F) as (w' & fetched & E & R & I & Len & St & Hh & Hm & Ho).
      exists w', fetched. split; [exact E |]. split; [exact R |].
      split.
      { intros e Hin. destruct (I e Hin). split; [right |]; assumption. }
      split; [simpl; rewrite S; exact Len |].
      repeat split; assumption.
Qed.

(** A dataset name starts with the code of its state and a dash. *)
Lemma Dataset_name_prefix state number :
  String.prefix (state +++ "-") (FOB.Dataset_name state number) = true.
Proof.
  unfold FOB.Dataset_name. rewrite <- append_assoc. apply prefix_append.
Qed.

(** Property X8. On a list of entries [fetch_dataset] never fails. It
    requests each dataset it fetches once, only datasets of selected
    entries and no more of them than there are selected entries; it
    prints one line for each; it leaves every key of the store that does
    not start with the code of the state and a dash -- the manifests,
    the datasets of the other states -- with its content; and it makes
    no manifest request and leaves the ledger as it was. *)
Theorem fetch_dataset_stays_within_its_state
    state state_id entries (w : World L) :
  datasetlist (self w) = PyList entries ->
  exists w' fetched,
    fetch_dataset state state_id w = (inr tt, w')
    /\ dataset_requests w' = dataset_requests w ++ map request_of fetched
    /\ (forall e, In e fetched ->
          In e entries /\ selected state_id (fromyear (self w)) e = true)
    /\ (List.length fetched
        <= List.length (filter (selected state_id (fromyear (self w)))
                          entries))%nat
    /\ (forall key, String.prefix (state +++ "-") key = false ->
          FOB.download_text key (fob (self w'))
          = FOB.download_text key (fob (self w)))
    /\ Hash_objects w' = Hash_objects w
    /\ manifest_requests w' = manifest_requests w
    /\ stdout w' = stdout w
               ++ map (fun e => "Fetching " +++ state +++ ": "
                                +++ str_int (Entry.session_id e)) fetched.
Proof.
  intros D. unfold fetch_dataset.
  rewrite (bind_inr _ _ w (PyList entries) w)
    by (unfold attr, gets; rewrite D; reflexivity).
  cbv beta.
  rewrite (bind_inr _ _ w entries w eq_refl). cbv beta.
  destruct (fetch_loop_bound state state_id (fromyear (self w)) entries w
              eq_refl)
    as (w' & fetched & E & R & I & Len & St & Hh & Hm & Ho).
  exists w', fetched. repeat (split; [assumption |]).
  split; [| repeat split; assumption].
  intros key Hkey. apply St. intros ->.
  rewrite Dataset_name_prefix in Hkey. discriminate Hkey.
Qed.

End FetchFrame.

Section ReportTruth.

Context {L : Type} `{LegiscanAPI L}.
Variable FOB_METHOD : string.

Lemma in_list_In name names : in_list name names = true <-> In name names.
Proof.
  unfold in_list. rewrite existsb_exists. split.
  - intros (x & Hin & E). apply String.eqb_eq in E. subst. exact Hin.
  - intros Hin. exists name. split; [exact Hin | apply String.eqb_refl].
Qed.

Lemma download_iff_key name (store : FOB.store) :
  (exists content, FOB.download_text name store = inr content)
  <-> In name (map fst store).
Proof.
  induction store as [| [k v] store IH]; simpl.
  - split; [intros [c E]; discriminate E | intros []].
  - destruct (String.eqb_spec k name) as [-> | N].
    + split; [intros _; left; reflexivity | intros _; exists v; reflexivity].
    + rewrite IH. split; [intros I; right; exact I |].
      intros [E | I]; [contradiction | exact I].
Qed.

(** The listing of a state holds a dataset name of this state exactly
    when the store holds it. *)
Lemma listed_iff_stored state number (store : FOB.store) :
  in_list (FOB.Dataset_name state number) (FOB.Dataset_items state store)
    = true
  <-> exists content,
        FOB.download_text (FOB.Dataset_name state number) store = inr content.
Proof.
  rewrite in_list_In. rewrite download_iff_key.
  unfold FOB.Dataset_items, FOB.list_items. rewrite filter_In.
  split; [intros [I _]; exact I |].
  intros I. split; [exact I | apply Dataset_name_prefix].
Qed.

Lemma append_same_prefix a b c : a +++ b = a +++ c -> b = c.
Proof.
  induction a as [| x a IH]; intros E.
  - exact E.
  - rewrite !append_cons in E. injection E as E. apply IH. exact E.
Qed.

(** Property X9. The report tells what the store holds, and only looks.
    It changes nothing in the store and requests nothing. For a selected
    entry of a reported state it prints "Found session dataset" when the
    store holds the name made of the state and the session, and "Item
    not found" when it does not; and it prints "Found session dataset"
    for no name that the store does not hold. *)
Theorem report_tells_what_the_store_holds
    entries states (w : World L) :
  datasetlist (self w) = PyList entries ->
  let w' := snd (datasets_found FOB_METHOD states w) in
  let lines := flat_map (report_lines (fob (self w)) (fromyear (self w))
                           entries) states in
  stdout w' = stdout w ++ lines
  /\ fob (self w') = fob (self w)
  /\ dataset_requests w' = dataset_requests w
  /\ (forall state state_id entry,
        In (state, state_id) states -> In entry entries ->
        selected state_id (fromyear (self w)) entry = true ->
        let name := FOB.Dataset_name state (Entry.session_id entry) in
        ((exists content, FOB.download_text name (fob (self w)) = inr content)
         -> In ("Found session dataset:  " +++ name) lines)
        /\ (FOB.download_text name (fob (self w)) = inl (NotFound name)
            -> In ("Item not found:  " +++ name) lines))
  /\ (forall name,
        In ("Found session dataset:  " +++ name) lines ->
        exists content, FOB.download_text name (fob (self w)) = inr content).
Proof.
  intros D. cbv zeta.
  rewrite (datasets_found_reported FOB_METHOD entries states w D). simpl.
  split; [reflexivity |]. split; [reflexivity |]. split; [reflexivity |].
  split.
  - intros state state_id entry Hs He Hsel.
    assert (Hrep : forall line,
               In line (report_of (FOB.Dataset_items state (fob (self w)))
                          state entry) ->
               In line (flat_map (report_lines (fob (self w))
                                    (fromyear (self w)) entries) states)).
    { intros line Hl. apply in_flat_map. exists (state, state_id).
      split; [exact Hs |]. unfold report_lines. simpl. right.
      apply in_flat_map. exists entry. split; [| exact Hl].
      apply filter_In. split; assumption. }
    split.
    + intros Hstored. apply Hrep. unfold report_of.
      apply listed_iff_stored in Hstored. rewrite Hstored.
      right. left. reflexivity.
    + intros Hmissing. apply Hrep. unfold report_of.
      destruct (in_list _ _) eqn:Hl.
      * apply listed_iff_stored in Hl as [content Hc].
        rewrite Hc in Hmissing. discriminate Hmissing.
      * left. reflexivity.
  - intros name Hin.
    apply in_flat_map in Hin as ([state state_id] & _ & Hin).
    unfold report_lines in Hin. simpl in Hin.
    destruct Hin as [Hsp | Hin]; [discriminate Hsp |].
    apply in_flat_map in Hin as (entry & _ & Hin).
    unfold report_of in Hin.
    destruct (in_list _ _) eqn:Hl.
    + destruct Hin as [Hform | [Hfound | []]].
      * unfold StateForm in Hform. discriminate Hform.
      * apply append_same_prefix in Hfound. subst name.
        apply listed_iff_stored. exact Hl.
    + destruct Hin as [Hnot | []]. discriminate Hnot.
Qed.

End ReportTruth.


(* ================================================================= *)
(** ** The run as a whole *)

Section Run.

Context {L : Type} `{LegiscanAPI L}.
Variable json_loads : string -> option pyval.
Variable load_default_locations : list Location.t -> list Location.t.
Variable FOB_METHOD : string.

Lemma for_each_returns {X} (xs : list X) (body : X -> M L unit) :
  (forall x w, fst (body x w) = inr tt) ->
  forall w, fst (for_each xs body w) = inr tt.
Proof.
  intros Hb. induction xs as [| x xs IH]; intros w; simpl.
  - reflexivity.
  - unfold bind. specialize (Hb x w).
    destruct (body x w) as [[e | []] w1]; simpl in Hb.
    + discriminate Hb.
    + apply IH.
Qed.

Lemma fetch_dataset_returns state state_id entries (w : World L) :
  datasetlist (self w) = PyList entries ->
  fst (fetch_dataset state state_id w) = inr tt.
Proof.
  intros D. unfold fetch_dataset. unfold bind at 1. simpl.
  unfold bind at 1. simpl. rewrite D. simpl.
  apply for_each_returns. intros e w0. apply fetch_entry_returns.
Qed.

Lemma fetch_dataset_keeps_report_inputs state state_id :
  moves (keeps report_inputs) (fetch_dataset (L := L) state state_id).
Proof.
  unfold fetch_dataset, fetch_entry, fob_upload_text. moves_auto.
Qed.

Lemma recent_enough_keeps_ledger_and_catalog :
  moves (keeps (fun w : World L =>
                  (fromyear (self w), Hash_objects w, Location_objects w,
                   dataset_requests w)))
        (recent_enough json_loads).
Proof.
  unfold recent_enough, refresh_from_api, load_from_storage,
    verify_contents, validate, require_contents, json_loads_py,
    datetime_today, fob_upload_text.
  moves_auto.
Qed.

Lemma take_options_keeps_ledger_and_catalog options :
  moves (keeps (fun w : World L =>
                  (fromyear (self w), Hash_objects w, Location_objects w,
                   dataset_requests w)))
        (take_options options).
Proof. unfold take_options. moves_auto. Qed.

Lemma fetch_dataset_on_list state state_id entries (w : World L) :
  datasetlist (self w) = PyList entries ->
  fetch_dataset state state_id w
  = for_each entries (fetch_entry state state_id) w.
Proof.
  intros D. unfold fetch_dataset.
  rewrite (bind_inr _ _ w (PyList entries) w)
    by (unfold attr, gets; rewrite D; reflexivity).
  cbv beta.
  rewrite (bind_inr _ _ w entries w eq_refl). reflexivity.
Qed.

(** A state that the loop of [handle] does not pass over is the state
    of the option, when the option names one. *)
Lemma processed_state options state :
  truthy_name (opt_state options)
  && negb (String.eqb state (str_name (opt_state options))) = false ->
  forall code, opt_state options = Some code -> code <> "" -> state = code.
Proof.
  intros C code Hopt Hcode. rewrite Hopt in C. simpl in C.
  destruct (String.eqb_spec code "") as [E | _]; [contradiction |].
  simpl in C. apply negb_false_iff in C. apply String.eqb_eq in C. exact C.
Qed.

(** The loop of [handle] over the states: the requests it makes. *)
Lemma states_loop_requests options entries from locations :
  forall acc (w : World L),
  datasetlist (self w) = PyList entries ->
  fromyear (self w) = from ->
  exists w' fetched,
    for_each_acc locations acc (fun loc states =>
      let state := upper (Location.shortname loc) in
      let state_id := Location.legiscan_id loc in
      let states := states ++ [(state, state_id)] in
      (if truthy_name (opt_state options)
          && negb (String.eqb state (str_name (opt_state options)))
       then ret tt
       else
         print ("Processing: " +++ Location.desc loc
                +++ " (" +++ state +++ ")") ;;
         fetch_dataset state state_id) ;;
      ret states) w
    = (inr (acc ++ map state_data_of locations), w')
    /\ report_inputs w' = report_inputs w
    /\ dataset_requests w' = dataset_requests w ++ map request_of fetched
    /\ (forall e, In e fetched ->
          In e entries
          /\ exists loc,
               In loc locations
               /\ (forall code, opt_state options = Some code ->
                                code <> "" ->
                                upper (Location.shortname loc) = code)
               /\ selected (Location.legiscan_id loc) from e = true).
Proof.
  induction locations as [| loc rest IH]; intros acc w D F; simpl.
  - exists w, []. rewrite !app_nil_r.
    split; [reflexivity |]. split; [reflexivity |].
    split; [reflexivity |]. intros e [].
  - set (step := if truthy_name (opt_state options)
                    && negb (String.eqb (upper (Location.shortname loc))
                               (str_name (opt_state options)))
                 then ret tt
                 else
                   print ("Processing: " +++ Location.desc loc
                          +++ " (" +++ upper (Location.shortname loc)
                          +++ ")") ;;
                   fetch_dataset (upper (Location.shortname loc))
                                 (Location.legiscan_id loc)).
    assert (Hstep :
      exists w1 fetched,
        step w = (inr tt, w1)
        /\ report_inputs w1 = report_inputs w
        /\ dataset_requests w1 = dataset_requests w ++ map request_of fetched
        /\ (forall e, In e fetched ->
              In e entries
              /\ (forall code, opt_state options = Some code ->
                               code <> "" ->
                               upper (Location.shortname loc) = code)
              /\ selected (Location.legiscan_id loc) from e = true)).
    { subst step.
      destruct (truthy_name (opt_state options)
                && negb (String.eqb (upper (Location.shortname loc))
                           (str_name (opt_state options)))) eqn:C.
      - exists w, []. simpl. rewrite app_nil_r.
        split; [reflexivity |]. split; [reflexivity |].
        split; [reflexivity |]. intros e [].
      - unfold bind at 1. simpl.
        match goal with
        | |- context [fetch_dataset ?s ?i ?v] => set (w0 := v)
        end.
        pose proof (fetch_dataset_keeps_report_inputs
                      (upper (Location.shortname loc))
                      (Location.legiscan_id loc) w0) as K.
        rewrite (fetch_dataset_on_list _ _ entries w0 D) in K |- *.
        destruct (fetch_loop_bound (upper (Location.shortname loc))
                    (Location.legiscan_id loc) from entries w0 F)
          as (w1 & fetched & E & R & I & _).
        rewrite E in K. exists w1, fetched.
        split; [exact E |]. split; [exact K |]. split; [exact R |].
        intros e Hin. destruct (I e Hin) as [Hin' Hsel].
        split; [exact Hin' |]. split; [| exact Hsel].
        apply processed_state. exact C. }
    destruct Hstep as (w1 & fetched1 & E1 & K1 & R1 & I1).
    unfold bind at 1. unfold bind at 1. rewrite E1. simpl.
    assert (D1 : datasetlist (self w1) = PyList entries).
    { unfold report_inputs in K1. congruence. }
    assert (F1 : fromyear (self w1) = from).
    { unfold report_inputs in K1. congruence. }
    destruct (IH (acc ++ [state_data_of loc]) w1 D1 F1)
      as (w' & fetched & E & K & R & I).
    exists w', (fetched1 ++ fetched). split.
    { unfold state_data_of in E at 1. rewrite E.
      rewrite <- app_assoc. reflexivity. }
    split; [congruence |]. split.
    { rewrite R, R1, map_app, app_assoc. reflexivity. }
    intros e Hin. apply in_app_or in Hin as [Hin | Hin].
    + destruct (I1 e Hin) as (He & Hcode & Hsel).
      split; [exact He |]. exists loc.
      split; [left; reflexivity |]. split; assumption.
    + destruct (I e Hin) as (He & loc' & Hloc & Hcode & Hsel).
      split; [exact He |]. exists loc'.
      split; [right; exact Hloc |]. split; assumption.
Qed.

(** Once the resolver has returned, the run continues with the catalog
    in the world the resolver left, its value stored in [list_data]. *)
Lemma handle_after_resolver options (w : World L) r w1 :
  recent_enough json_loads (snd (take_options options w)) = (inr r, w1) ->
  handle json_loads load_default_locations FOB_METHOD options w
  = catalog_and_report load_default_locations FOB_METHOD options
      (with_self (set_list_data r) w1).
Proof.
  intros E. unfold handle.
  pose proof (take_options_returns options w) as T.
  destruct (take_options options w) as [t w0] eqn:E0. simpl in T, E. subst t.
  rewrite (bind_inr _ _ w tt w0 E0).
  rewrite (bind_inr _ _ w0 r w1 E).
  reflexivity.
Qed.

Lemma Location_get_one name loc (w : World L) :
  filter (fun l => String.eqb (Location.shortname l) name)
         (Location_objects w) = [loc] ->
  Location_get name w = (inr loc, w).
Proof.
  intros E. unfold Location_get. unfold bind at 1. simpl. rewrite E.
  reflexivity.
Qed.

Lemma Location_get_none name (w : World L) :
  filter (fun l => String.eqb (Location.shortname l) name)
         (Location_objects w) = [] ->
  Location_get name w = (inl DoesNotExist, w).
Proof.
  intros E. unfold Location_get. unfold bind at 1. simpl. rewrite E.
  reflexivity.
Qed.

Lemma Location_get_many name a b rest (w : World L) :
  filter (fun l => String.eqb (Location.shortname l) name)
         (Location_objects w) = a :: b :: rest ->
  Location_get name w = (inl MultipleObjectsReturned, w).
Proof.
  intros E. unfold Location_get. unfold bind at 1. simpl. rewrite E.
  reflexivity.
Qed.

(** The world in which the catalog is read has the ledger, the catalog,
    the year filter and the dataset requests of the start of the run. *)
Lemma resolver_world options (w : World L) r w1 :
  recent_enough json_loads (snd (take_options options w)) = (inr r, w1) ->
  fromyear (self w1) = fromyear (self w)
  /\ Hash_objects w1 = Hash_objects w
  /\ Location_objects w1 = Location_objects w
  /\ dataset_requests w1 = dataset_requests w.
Proof.
  intros E.
  pose proof (take_options_keeps_ledger_and_catalog options w) as K0.
  pose proof (recent_enough_keeps_ledger_and_catalog
                (snd (take_options options w))) as K1.
  rewrite E in K1. unfold keeps in K0, K1. simpl in K1.
  rewrite K0 in K1. injection K1 as -> -> -> ->.
  repeat split; reflexivity.
Qed.


(** What [handle] does with the rows below [usa], when the manifest
    list is in place: the loop over the states and the report never
    fail; the ledger gets the rows of every state, the catalog is left
    as it was, and the datasets requested are those of selected entries
    of states that are not passed over. *)
Lemma loop_and_report options entries below (w : World L) :
  datasetlist (self w) = PyList entries ->
  exists w' fetched,
    (states <- for_each_acc below [] (fun loc states =>
       let state := upper (Location.shortname loc) in
       let state_id := Location.legiscan_id loc in
       let states := states ++ [(state, state_id)] in
       (if truthy_name (opt_state options)
           && negb (String.eqb state (str_name (opt_state options)))
        then ret tt
        else
          print ("Processing: " +++ Location.desc loc
                 +++ " (" +++ state +++ ")") ;;
          fetch_dataset state state_id) ;;
       ret states) ;;
     datasets_found FOB_METHOD states) w
    = (inr tt, w')
    /\ Hash_objects w'
       = Hash_objects w
         ++ flat_map (ledger_rows FOB_METHOD (fromyear (self w)) entries)
              (map state_data_of below)
    /\ Location_objects w' = Location_objects w
    /\ dataset_requests w' = dataset_requests w ++ map request_of fetched
    /\ (forall e, In e fetched ->
          In e entries
          /\ exists loc,
               In loc below
               /\ (forall code, opt_state options = Some code ->
                                code <> "" ->
                                upper (Location.shortname loc) = code)
               /\ selected (Location.legiscan_id loc) (fromyear (self w)) e
                  = true).
Proof.
  intros D.
  destruct (states_loop_requests options entries (fromyear (self w))
              below [] w D eq_refl)
    as (w3 & fetched & E3 & K3 & R3 & I3).
  rewrite (bind_inr _ _ w _ w3 E3). cbv beta.
  unfold report_inputs in K3. injection K3 as D3 F3 H3 L3.
  rewrite (datasets_found_reported FOB_METHOD entries _ w3)
    by (rewrite D3; exact D).
  eexists. exists fetched. split; [reflexivity |]. simpl.
  rewrite H3, F3. split; [reflexivity |]. split; [exact L3 |].
  split; [exact R3 | exact I3].
Qed.

(** The first row named [usa], when there is one row of this name. *)
Lemma usa_found (w : World L) usa B (rest : Location.t -> M L B) :
  named_usa (Location_objects w) = [usa] ->
  (usa <- try_except (Location_get "usa") (fun e =>
            match e with
            | DoesNotExist =>
                Some (run_load_default_locations load_default_locations ;;
                      Location_get "usa")
            | _ => None
            end) ;;
   rest usa) w
  = rest usa w.
Proof.
  intros Husa.
  assert (G : try_except (Location_get "usa")
                (fun e => match e with
                          | DoesNotExist =>
                              Some (run_load_default_locations
                                      load_default_locations ;;
                                    Location_get "usa")
                          | _ => None
                          end) w = (inr usa, w)).
  { unfold try_except. rewrite (Location_get_one "usa" usa w Husa).
    reflexivity. }
  rewrite (bind_inr _ _ w usa w G). reflexivity.
Qed.

Lemma Location_filter_parent_children usa (w : World L) :
  Location_filter_parent usa w
  = (inr (children_of usa (Location_objects w)), w).
Proof. reflexivity. Qed.

(** Property X10. When the resolver has left a list of entries and the
    catalog has one row named [usa] with rows below it, the run does not
    fail and its report covers every state of the catalog, in the order
    of the catalog and whatever [--state] is: the ledger gets, after the
    rows it had, the rows of the selected entries of each state; the
    catalog is left as it was. *)
Theorem run_reports_every_state options (w : World L) r w1 entries usa :
  recent_enough json_loads (snd (take_options options w)) = (inr r, w1) ->
  datasetlist (self w1) = PyList entries ->
  named_usa (Location_objects w) = [usa] ->
  children_of usa (Location_objects w) <> [] ->
  exists w',
    handle json_loads load_default_locations FOB_METHOD options w
    = (inr tt, w')
    /\ Hash_objects w'
       = Hash_objects w
         ++ flat_map (ledger_rows FOB_METHOD (fromyear (self w)) entries)
              (map state_data_of (children_of usa (Location_objects w)))
    /\ Location_objects w' = Location_objects w.
Proof.
  intros E D Husa Hchildren.
  rewrite (handle_after_resolver options w r w1 E).
  destruct (resolver_world options w r w1 E) as (Hfrom & Hledger & Hrows & _).
  set (w2 := with_self (set_list_data r) w1).
  assert (Hrows2 : Location_objects w2 = Location_objects w) by exact Hrows.
  assert (D2 : datasetlist (self w2) = PyList entries) by exact D.
  assert (Hledger2 : Hash_objects w2 = Hash_objects w) by exact Hledger.
  assert (Hfrom2 : fromyear (self w2) = fromyear (self w)) by exact Hfrom.
  clearbody w2.
  unfold catalog_and_report.
  rewrite (usa_found w2 usa) by (rewrite Hrows2; exact Husa).
  rewrite (bind_inr _ _ w2 _ w2 (Location_filter_parent_children usa w2)).
  cbv beta. rewrite Hrows2.
  destruct (children_of usa (Location_objects w)) as [| c cs] eqn:Hc;
    [contradiction |].
  rewrite (bind_inr _ _ w2 (c :: cs) w2 eq_refl). cbv beta.
  destruct (loop_and_report options entries (c :: cs) w2 D2)
    as (w' & fetched & Run & Hh & Hl & _).
  exists w'. split; [exact Run |].
  rewrite Hh, Hl, Hledger2, Hfrom2, Hrows2. split; reflexivity.
Qed.

(** Property X11. How the catalog can stop a run whose resolver has
    returned. With two rows named [usa] the run fails with
    [MultipleObjectsReturned] and the default locations are not loaded;
    with none, the default locations are loaded and the row is looked
    for again, and the run fails with [DoesNotExist] when it is still
    missing. In both cases no dataset is requested and the ledger is
    left as it was. *)
Theorem catalog_stops_the_run options (w : World L) r w1 :
  recent_enough json_loads (snd (take_options options w)) = (inr r, w1) ->
  let out := handle json_loads load_default_locations FOB_METHOD options w in
  (forall a b rest,
      named_usa (Location_objects w) = a :: b :: rest ->
      fst out = inl MultipleObjectsReturned
      /\ Location_objects (snd out) = Location_objects w
      /\ dataset_requests (snd out) = dataset_requests w
      /\ Hash_objects (snd out) = Hash_objects w)
  /\ (named_usa (Location_objects w) = [] ->
      named_usa (load_default_locations (Location_objects w)) = [] ->
      fst out = inl DoesNotExist
      /\ Location_objects (snd out)
         = load_default_locations (Location_objects w)
      /\ dataset_requests (snd out) = dataset_requests w
      /\ Hash_objects (snd out) = Hash_objects w).
Proof.
  intros E. cbv zeta.
  rewrite (handle_after_resolver options w r w1 E).
  destruct (resolver_world options w r w1 E) as (_ & Hledger & Hrows & Hreq).
  set (w2 := with_self (set_list_data r) w1).
  assert (Hrows2 : Location_objects w2 = Location_objects w) by exact Hrows.
  assert (Hledger2 : Hash_objects w2 = Hash_objects w) by exact Hledger.
  assert (Hreq2 : dataset_requests w2 = dataset_requests w) by exact Hreq.
  clearbody w2. unfold catalog_and_report. split.
  - intros a b rest Hmany.
    assert (G : try_except (Location_get "usa")
                  (fun e => match e with
                            | DoesNotExist =>
                                Some (run_load_default_locations
                                        load_default_locations ;;
                                      Location_get "usa")
                            | _ => None
                            end) w2 = (inl MultipleObjectsReturned, w2)).
    { unfold try_except. rewrite (Location_get_many "usa" a b rest w2).
      - reflexivity.
      - rewrite Hrows2. exact Hmany. }
    rewrite (bind_inl _ _ w2 _ w2 G). simpl.
    repeat split; assumption.
  - intros Hnone Hstill.
    set (w3 := snd (run_load_default_locations load_default_locations w2)).
    assert (G : try_except (Location_get "usa")
                  (fun e => match e with
                            | DoesNotExist =>
                                Some (run_load_default_locations
                                        load_default_locations ;;
                                      Location_get "usa")
                            | _ => None
                            end) w2 = (inl DoesNotExist, w3)).
    { unfold try_except. rewrite (Location_get_none "usa" w2).
      - unfold bind at 1. fold w3.
        assert (R : run_load_default_locations load_default_locations w2
                    = (inr tt, w3)) by reflexivity.
        rewrite R. apply Location_get_none.
        subst w3. simpl. rewrite Hrows2. exact Hstill.
      - rewrite Hrows2. exact Hnone. }
    rewrite (bind_inl _ _ w2 _ w3 G). subst w3. simpl.
    rewrite Hrows2. repeat split; assumption.
Qed.

(** Property X12. What [--state] limits. When the resolver has left a
    list of entries and the catalog has one row named [usa] with rows
    below it, every dataset the run requests is the dataset of an entry
    of the list that is selected for a row of the catalog below [usa],
    and, when [--state] names a state, for a row whose code in upper
    case is that name. *)
Theorem state_option_limits_the_requests
    options (w : World L) r w1 entries usa :
  recent_enough json_loads (snd (take_options options w)) = (inr r, w1) ->
  datasetlist (self w1) = PyList entries ->
  named_usa (Location_objects w) = [usa] ->
  children_of usa (Location_objects w) <> [] ->
  exists fetched,
    dataset_requests
      (snd (handle json_loads load_default_locations FOB_METHOD options w))
    = dataset_requests w ++ map request_of fetched
    /\ (forall e, In e fetched ->
          In e entries
          /\ exists loc,
               In loc (children_of usa (Location_objects w))
               /\ (forall code, opt_state options = Some code ->
                                code <> "" ->
                                upper (Location.shortname loc) = code)
               /\ selected (Location.legiscan_id loc) (fromyear (self w)) e
                  = true).
Proof.
  intros E D Husa Hchildren.
  rewrite (handle_after_resolver options w r w1 E).
  destruct (resolver_world options w r w1 E) as (Hfrom & _ & Hrows & Hreq).
  set (w2 := with_self (set_list_data r) w1).
  assert (Hrows2 : Location_objects w2 = Location_objects w) by exact Hrows.
  assert (D2 : datasetlist (self w2) = PyList entries) by exact D.
  assert (Hreq2 : dataset_requests w2 = dataset_requests w) by exact Hreq.
  assert (Hfrom2 : fromyear (self w2) = fromyear (self w)) by exact Hfrom.
  clearbody w2.
  unfold catalog_and_report.
  rewrite (usa_found w2 usa) by (rewrite Hrows2; exact Husa).
  rewrite (bind_inr _ _ w2 _ w2 (Location_filter_parent_children usa w2)).
  cbv beta. rewrite Hrows2.
  destruct (children_of usa (Location_objects w)) as [| c cs] eqn:Hc;
    [contradiction |].
  rewrite (bind_inr _ _ w2 (c :: cs) w2 eq_refl). cbv beta.
  destruct (loop_and_report options entries (c :: cs) w2 D2)
    as (w' & fetched & Run & _ & _ & R & I).
  match goal with
  | |- context [snd ?t] =>
      replace t with (@inr exn unit tt, w') by (symmetry; exact Run)
  end.
  exists fetched. simpl.
  split; [rewrite R, Hreq2; reflexivity |].
  rewrite <- Hfrom2. exact I.
Qed.

(** Property X13. When the default locations are loaded. With one row
    named [usa] and no row below it, the default locations are loaded
    and the report covers the rows they put below [usa]. With no row
    named [usa], the default locations are loaded and the row is looked
    for again; when it is there with rows below it, the report covers
    these rows. In both cases the run does not fail when the resolver
    has left a list of entries. *)
Theorem default_locations_are_loaded
    options (w : World L) r w1 entries usa :
  recent_enough json_loads (snd (take_options options w)) = (inr r, w1) ->
  datasetlist (self w1) = PyList entries ->
  let rows := Location_objects w in
  let defaults := load_default_locations rows in
  (named_usa rows = [usa] /\ children_of usa rows = []
   \/ named_usa rows = [] /\ named_usa defaults = [usa]
      /\ children_of usa defaults <> []) ->
  exists w',
    handle json_loads load_default_locations FOB_METHOD options w
    = (inr tt, w')
    /\ Location_objects w' = defaults
    /\ Hash_objects w'
       = Hash_objects w
         ++ flat_map (ledger_rows FOB_METHOD (fromyear (self w)) entries)
              (map state_data_of (children_of usa defaults)).
Proof.
  intros E D rows defaults Hcases.
  rewrite (handle_after_resolver options w r w1 E).
  destruct (resolver_world options w r w1 E) as (Hfrom & Hledger & Hrows & _).
  set (w2 := with_self (set_list_data r) w1).
  assert (Hrows2 : Location_objects w2 = rows) by exact Hrows.
  assert (D2 : datasetlist (self w2) = PyList entries) by exact D.
  assert (Hledger2 : Hash_objects w2 = Hash_objects w) by exact Hledger.
  assert (Hfrom2 : fromyear (self w2) = fromyear (self w)) by exact Hfrom.
  clearbody w2.
  set (w3 := snd (run_load_default_locations load_default_locations w2)).
  assert (Load : run_load_default_locations load_default_locations w2
                 = (inr tt, w3)) by reflexivity.
  assert (Hrows3 : Location_objects w3 = defaults)
    by (subst w3; simpl; rewrite Hrows2; reflexivity).
  assert (D3 : datasetlist (self w3) = PyList entries) by exact D2.
  assert (Hledger3 : Hash_objects w3 = Hash_objects w) by exact Hledger2.
  assert (Hfrom3 : fromyear (self w3) = fromyear (self w)) by exact Hfrom2.
  clearbody w3.
  unfold catalog_and_report.
  destruct (loop_and_report options entries (children_of usa defaults) w3 D3)
    as (w' & fetched & Run & Hh & Hl & _).
  exists w'.
  destruct Hcases as [[Husa Hnone] | (Hnone & Husa & Hbelow)].
  - rewrite (usa_found w2 usa) by (rewrite Hrows2; exact Husa).
    rewrite (bind_inr _ _ w2 _ w2 (Location_filter_parent_children usa w2)).
    cbv beta. rewrite Hrows2, Hnone.
    assert (Again : (run_load_default_locations load_default_locations ;;
                     Location_filter_parent usa) w2
                    = (inr (children_of usa defaults), w3)).
    { rewrite (bind_inr _ _ w2 tt w3 Load).
      rewrite Location_filter_parent_children, Hrows3. reflexivity. }
    rewrite (bind_inr _ _ w2 _ w3 Again). cbv beta.
    split; [exact Run |].
    rewrite Hh, Hl, Hledger3, Hfrom3, Hrows3. split; reflexivity.
  - assert (G : try_except (Location_get "usa")
                  (fun e => match e with
                            | DoesNotExist =>
                                Some (run_load_default_locations
                                        load_default_locations ;;
                                      Location_get "usa")
                            | _ => None
                            end) w2 = (inr usa, w3)).
    { unfold try_except. rewrite (Location_get_none "usa" w2)
        by (rewrite Hrows2; exact Hnone).
      rewrite (bind_inr _ _ w2 tt w3 Load).
      apply Location_get_one. rewrite Hrows3. exact Husa. }
    rewrite (bind_inr _ _ w2 usa w3 G). cbv beta.
    rewrite (bind_inr _ _ w3 _ w3 (Location_filter_parent_children usa w3)).
    cbv beta. rewrite Hrows3.
    destruct (children_of usa defaults) as [| c cs] eqn:Hc;
      [contradiction |].
    rewrite (bind_inr _ _ w3 (c :: cs) w3 eq_refl). cbv beta.
    split; [exact Run |].
    rewrite Hh, Hl, Hledger3, Hfrom3, Hrows3. split; reflexivity.
Qed.

(** A cached name that matches the pattern and carries no day of the
    calendar ends the scan with the [ValueError] of [strptime]. *)
Lemma latest_scan_raises keys key group1 : forall d0 n0,
  In key keys ->
  FOB.DatasetList_search key = Some group1 ->
  DT.strptime_ymd group1 = None ->
  latest_scan keys d0 n0 = inl ValueError.
Proof.
  induction keys as [| name rest IH]; intros d0 n0 Hin Hs Hp.
  - destruct Hin.
  - simpl.
    destruct (FOB.DatasetList_search name) as [g |] eqn:S.
    + destruct (DT.strptime_ymd g) as [fd |] eqn:P; [| reflexivity].
      destruct Hin as [-> | Hin]; [congruence |].
      destruct (d0 <? fd); apply IH; assumption.
    + destruct Hin as [-> | Hin]; [congruence |].
      apply IH; assumption.
Qed.

Lemma take_options_keeps_the_rest options :
  moves (keeps (fun w : World L =>
                  (fob (self w), stdout w, manifest_requests w,
                   dataset_requests w, Hash_objects w, Location_objects w)))
        (take_options options).
Proof. unfold take_options. moves_auto. Qed.

(** Property X14. One cached name with an impossible date stops every
    run. When a key of the store matches the pattern of the cached
    manifests and its date is no day of the calendar, the run fails with
    the [ValueError] of [strptime] before it does anything: nothing is
    printed, nothing requested, with or without [--api], and the store,
    the ledger and the catalog are left as they were. *)
Theorem impossible_date_stops_every_run options (w : World L) key group1 :
  In key (FOB.DatasetList_items (fob (self w))) ->
  FOB.DatasetList_search key = Some group1 ->
  DT.strptime_ymd group1 = None ->
  let out := handle json_loads load_default_locations FOB_METHOD options w in
  fst out = inl ValueError
  /\ stdout (snd out) = stdout w
  /\ manifest_requests (snd out) = manifest_requests w
  /\ dataset_requests (snd out) = dataset_requests w
  /\ fob (self (snd out)) = fob (self w)
  /\ Hash_objects (snd out) = Hash_objects w
  /\ Location_objects (snd out) = Location_objects w.
Proof.
  intros Hin Hs Hp. cbv zeta.
  pose proof (take_options_keeps_the_rest options w) as K.
  unfold keeps in K.
  set (w0 := snd (take_options options w)) in *.
  injection K as Kf Ko Km Kd Kh Kl.
  assert (S : latest_scan (FOB.DatasetList_items (fob (self w0)))
                long_ago None = inl ValueError).
  { apply (latest_scan_raises _ key group1); [| assumption ..].
    rewrite Kf. exact Hin. }
  pose proof (recent_enough_scan_raises json_loads w0 ValueError S) as R.
  rewrite (handle_aborts json_loads load_default_locations FOB_METHOD
             options w ValueError)
    by (fold w0; rewrite R; reflexivity).
  fold w0. rewrite R. simpl.
  repeat split; assumption.
Qed.

(** Without a list of entries the fetch of a state and the report of a
    state fail with the [TypeError] of the loop over [None], and change
    nothing but the lines printed. *)
Lemma fetch_dataset_without_list state state_id (w : World L) :
  datasetlist (self w) = PyNone ->
  fetch_dataset state state_id w = (inl TypeError, w).
Proof.
  intros D. unfold fetch_dataset.
  rewrite (bind_inr _ _ w PyNone w)
    by (unfold attr, gets; rewrite D; reflexivity).
  reflexivity.
Qed.

Lemma datasets_found_without_list state_data states (w : World L) :
  datasetlist (self w) = PyNone ->
  datasets_found FOB_METHOD (state_data :: states) w
  = (inl TypeError, snd (print " " w)).
Proof.
  intros D. unfold datasets_found. destruct state_data as [state state_id].
  simpl for_each.
  unfold bind at 1. unfold bind at 1. simpl.
  unfold bind at 1. simpl. unfold bind at 1. simpl. rewrite D. reflexivity.
Qed.

(** The loop of [handle] over the states when there is no list of
    entries: it fails at the first state that is not passed over, and
    passes over the others without a change. *)
Lemma states_loop_without_list options locations : forall acc (w : World L),
  datasetlist (self w) = PyNone ->
  let loop :=
    for_each_acc locations acc (fun loc states =>
      let state := upper (Location.shortname loc) in
      let state_id := Location.legiscan_id loc in
      let states := states ++ [(state, state_id)] in
      (if truthy_name (opt_state options)
          && negb (String.eqb state (str_name (opt_state options)))
       then ret tt
       else
         print ("Processing: " +++ Location.desc loc
                +++ " (" +++ state +++ ")") ;;
         fetch_dataset state state_id) ;;
      ret states) in
  (exists line, loop w = (inl TypeError, snd (print line w)))
  \/ loop w = (inr (acc ++ map state_data_of locations), w).
Proof.
  induction locations as [| loc rest IH]; intros acc w D; cbv zeta.
  - right. simpl. rewrite app_nil_r. reflexivity.
  - cbn [for_each_acc].
    destruct (truthy_name (opt_state options)
              && negb (String.eqb (upper (Location.shortname loc))
                         (str_name (opt_state options)))) eqn:C.
    + destruct (IH (acc ++ [state_data_of loc]) w D) as [[line E] | E].
      * left. exists line. exact E.
      * right. rewrite <- app_assoc in E. exact E.
    + left.
      exists ("Processing: " +++ Location.desc loc
              +++ " (" +++ upper (Location.shortname loc) +++ ")").
      assert (F : (print ("Processing: " +++ Location.desc loc
                          +++ " (" +++ upper (Location.shortname loc)
                          +++ ")") ;;
                   fetch_dataset (upper (Location.shortname loc))
                                 (Location.legiscan_id loc)) w
                  = (inl TypeError,
                     snd (print ("Processing: " +++ Location.desc loc
                                 +++ " (" +++ upper (Location.shortname loc)
                                 +++ ")") w))).
      { unfold bind at 1. simpl.
        apply fetch_dataset_without_list. exact D. }
      rewrite (bind_inl _ _ w _ _
                 (bind_inl _ _ w _ _ F)).
      reflexivity.
Qed.

(** Property X15. A run without a list of entries. When the resolver has
    returned and [datasetlist] is still [None] -- the manifest had no
    status -- a run over a catalog with one row named [usa] and rows
    below it fails with the [TypeError] of a loop over [None]: at the
    first state that [--state] does not pass over, or else at the
    report. No dataset is requested, the store and the ledger are left
    as the resolver left them. *)
Theorem run_without_a_list_fails options (w : World L) r w1 usa :
  recent_enough json_loads (snd (take_options options w)) = (inr r, w1) ->
  datasetlist (self w1) = PyNone ->
  named_usa (Location_objects w) = [usa] ->
  children_of usa (Location_objects w) <> [] ->
  let out := handle json_loads load_default_locations FOB_METHOD options w in
  fst out = inl TypeError
  /\ dataset_requests (snd out) = dataset_requests w
  /\ fob (self (snd out)) = fob (self w1)
  /\ Hash_objects (snd out) = Hash_objects w
  /\ Location_objects (snd out) = Location_objects w.
Proof.
  intros E D Husa Hchildren. cbv zeta.
  rewrite (handle_after_resolver options w r w1 E).
  destruct (resolver_world options w r w1 E) as (_ & Hledger & Hrows & Hreq).
  set (w2 := with_self (set_list_data r) w1).
  assert (Hrows2 : Location_objects w2 = Location_objects w) by exact Hrows.
  assert (D2 : datasetlist (self w2) = PyNone) by exact D.
  assert (Hledger2 : Hash_objects w2 = Hash_objects w) by exact Hledger.
  assert (Hreq2 : dataset_requests w2 = dataset_requests w) by exact Hreq.
  assert (Hfob2 : fob (self w2) = fob (self w1)) by reflexivity.
  clearbody w2.
  unfold catalog_and_report.
  rewrite (usa_found w2 usa) by (rewrite Hrows2; exact Husa).
  rewrite (bind_inr _ _ w2 _ w2 (Location_filter_parent_children usa w2)).
  cbv beta. rewrite Hrows2.
  destruct (children_of usa (Location_objects w)) as [| c cs] eqn:Hc;
    [contradiction |].
  rewrite (bind_inr _ _ w2 (c :: cs) w2 eq_refl). cbv beta.
  destruct (states_loop_without_list options (c :: cs) [] w2 D2)
    as [[line Fail] | Pass]; cbv zeta in *.
  - rewrite (bind_inl _ _ w2 _ _ Fail). simpl.
    repeat split; assumption.
  - rewrite (bind_inr _ _ w2 _ w2 Pass). cbv beta.
    change ([] ++ map state_data_of (c :: cs))
      with (state_data_of c :: map state_data_of cs).
    rewrite (datasets_found_without_list _ _ w2 D2). simpl.
    repeat split; assumption.
Qed.

End Run.

(* ================================================================= *)
(** ** A run on a cached manifest *)

Section Cached.

Context {L : Type} `{LegiscanAPI L}.
Variable json_loads : string -> option pyval.

(** Without a refresh, the resolver downloads the name it selected and
    continues with the decoding. *)
Lemma cached_manifest_downloaded (w : World L) d name text :
  latest_scan (FOB.DatasetList_items (fob (self w))) long_ago None
    = inr (d, Some name) ->
  use_api (self w) && (d <? clock w - DT.timedelta_days 7) = false ->
  truthy (list_data (self w)) = false ->
  FOB.download_text name (fob (self w)) = inr text ->
  recent_enough json_loads w
  = (verify_contents json_loads ;; require_contents ;; ret PyNone)
      (with_self (set_list_data (PyStr text))
         (snd (print ("Downloading:  " +++ name)
                 (with_self (set_list_name (Some name)) w)))).
Proof.
  intros S C T Hget.
  destruct (selected_name_is_stored _ d name S) as [Hn _].
  rewrite (recent_enough_scanned json_loads w d (Some name) S).
  set (w0 := with_self (set_list_name (Some name)) w).
  unfold bind at 1. rewrite (refresh_skipped (clock w) d w0 C).
  unfold bind at 1.
  rewrite (load_downloaded (Some name) name text w0 Hn T eq_refl Hget).
  reflexivity.
Qed.

(** Property X16. What the resolver makes of a cached manifest. When no
    refresh is due, the scan has selected a name and the store gives a
    text for it, the resolver decodes this text and no other: a text
    that is no JSON ends the run with the decoder's error; a status
    other than "OK" with the error "Status not OK" that carries the name
    of the file; a status "OK" without a list with "datsetlist missing";
    and a status "OK" with a list makes the resolver return, with the
    list in [datasetlist], the package in [list_pkg] and the name of the
    file in [list_name]. In every case no manifest is requested and the
    store is left as it was. *)
Theorem cached_manifest_is_validated (w : World L) d name text :
  latest_scan (FOB.DatasetList_items (fob (self w))) long_ago None
    = inr (d, Some name) ->
  use_api (self w) && (d <? clock w - DT.timedelta_days 7) = false ->
  truthy (list_data (self w)) = false ->
  FOB.download_text name (fob (self w)) = inr text ->
  text <> "" ->
  let out := recent_enough json_loads w in
  (json_loads text = None -> fst out = inl JSONDecodeError)
  /\ (forall fields status,
        json_loads text = Some (PyDict fields) ->
        dict_get fields "status" = Some status ->
        py_ne_str status "OK" = true ->
        fst out = inl (CommandError ("Status not OK: " +++ name)))
  /\ (forall fields,
        json_loads text = Some (PyDict fields) ->
        dict_get fields "status" = Some (PyStr "OK") ->
        dict_get fields "datasetlist" = None ->
        fst out = inl (CommandError "datsetlist missing"))
  /\ (forall fields entries,
        json_loads text = Some (PyDict fields) ->
        dict_get fields "status" = Some (PyStr "OK") ->
        dict_get fields "datasetlist" = Some entries ->
        fst out = inr PyNone
        /\ datasetlist (self (snd out)) = entries
        /\ list_pkg (self (snd out)) = PyDict fields
        /\ list_data (self (snd out)) = PyStr text
        /\ list_name (self (snd out)) = Some name)
  /\ manifest_requests (snd out) = manifest_requests w
  /\ fob (self (snd out)) = fob (self w).
Proof.
  intros S C T Hget Hne. cbv zeta.
  rewrite (cached_manifest_downloaded w d name text S C T Hget).
  set (w3 := with_self (set_list_data (PyStr text))
               (snd (print ("Downloading:  " +++ name)
                       (with_self (set_list_name (Some name)) w)))).
  assert (D3 : list_data (self w3) = PyStr text) by reflexivity.
  assert (T3 : truthy (list_data (self w3)) = true).
  { rewrite D3. simpl. destruct (String.eqb_spec text ""); [contradiction |].
    reflexivity. }
  split; [| split; [| split; [| split]]].
  - intros J.
    assert (F : fst (verify_contents json_loads w3) = inl JSONDecodeError).
    { apply verify_raises_on; [exact T3 |]. rewrite D3. simpl.
      rewrite J. reflexivity. }
    unfold bind at 1.
    destruct (verify_contents json_loads w3) as [[e | []] w4]; simpl in F.
    + injection F as ->. reflexivity.
    + discriminate F.
  - intros fields status J Hs Hbad.
    unfold bind at 1.
    rewrite (verify_decoded json_loads text (PyDict fields) w3 D3 Hne J).
    rewrite (validate_status_not_ok fields status name
               (verifying (PyDict fields) w3) Hs Hbad eq_refl).
    reflexivity.
  - intros fields J Hs Hl.
    unfold bind at 1.
    rewrite (verify_decoded json_loads text (PyDict fields) w3 D3 Hne J).
    rewrite (validate_list_missing fields _ Hs Hl).
    reflexivity.
  - intros fields entries J Hs Hl.
    assert (Run : (verify_contents json_loads ;; require_contents ;;
                   ret PyNone) w3
                  = (inr PyNone,
                     with_self (set_datasetlist entries)
                       (verifying (PyDict fields) w3))).
    { unfold bind at 1.
      rewrite (verify_decoded json_loads text (PyDict fields) w3 D3 Hne J).
      rewrite (validate_ok fields entries _ Hs Hl).
      unfold bind at 1. rewrite require_passes by exact T3.
      reflexivity. }
    rewrite Run. repeat split; reflexivity.
  - assert (K1 : moves (keeps (@manifest_requests L))
                   (verify_contents json_loads ;; require_contents ;;
                    ret PyNone))
      by (apply tail_keeps; intros; reflexivity).
    assert (K2 : moves (keeps (fun w : World L => fob (self w)))
                   (verify_contents json_loads ;; require_contents ;;
                    ret PyNone))
      by (apply tail_keeps; intros; reflexivity).
    specialize (K1 w3). specialize (K2 w3).
    cbv beta delta [keeps] in K1, K2. rewrite K1, K2.
    split; reflexivity.
Qed.

(** Property X17. A manifest is stored before it is validated. When a
    run asks the API and gets a text whose status is not "OK", the run
    fails with "Status not OK" -- and the text is in the store under
    today's name. A command that starts on this store in the seven days
    that follow the midnight of that day requests no manifest: it reads
    the stored text and fails in the same way. *)
Theorem rejected_manifest_is_cached (w : World L) d n text fields status :
  latest_scan (FOB.DatasetList_items (fob (self w))) long_ago None
    = inr (d, n) ->
  use_api (self w) && (d <? clock w - DT.timedelta_days 7) = true ->
  fresh_manifest w = Some text ->
  json_loads text = Some (PyDict fields) ->
  dict_get fields "status" = Some status ->
  py_ne_str status "OK" = true ->
  DT.us_per_day <= clock w < 3652060 * DT.us_per_day ->
  let out := recent_enough json_loads w in
  fst out = inl (CommandError ("Status not OK: " +++ todays_name w))
  /\ FOB.download_text (todays_name w) (fob (self (snd out))) = inr text
  /\ (forall w2 : World L,
        fob (self w2) = fob (self (snd out)) ->
        truthy (list_data (self w2)) = false ->
        clock w2 - DT.timedelta_days 7 <= midnight (clock w) ->
        fst (recent_enough json_loads w2)
        = inl (CommandError ("Status not OK: " +++ todays_name w))
        /\ manifest_requests (snd (recent_enough json_loads w2))
           = manifest_requests w2).
Proof.
  intros S C Htext J Hs Hbad Hclock. cbv zeta.
  assert (Hgot : fst (getDatasetList "Good" (leg (self w))) = Some text
                 /\ text <> "").
  { unfold fresh_manifest in Htext.
    destruct (fst (getDatasetList "Good" (leg (self w)))) as [t |];
      [| discriminate Htext].
    destruct (String.eqb_spec t "") as [| N]; [discriminate Htext |].
    injection Htext as ->. split; [reflexivity | exact N]. }
  destruct Hgot as [Hgot Hne].
  split; [| split].
  - rewrite (recent_enough_scanned json_loads w d n S).
    set (w0 := with_self (set_list_name n) w).
    unfold bind at 1.
    rewrite (refresh_succeeded (clock w) d w0 text C Hgot Hne).
    match goal with
    | |- context [bind (load_from_storage n) _ ?v] => set (w1 := v)
    end.
    assert (D1 : list_data (self w1) = PyStr text) by reflexivity.
    assert (T1 : truthy (list_data (self w1)) = true).
    { rewrite D1. simpl.
      destruct (String.eqb_spec text ""); [contradiction | reflexivity]. }
    assert (N1 : list_name (self w1) = Some (todays_name w)) by reflexivity.
    clearbody w1.
    unfold bind at 1.
    rewrite (load_skipped n w1)
      by (rewrite T1; apply andb_false_r).
    unfold bind at 1.
    rewrite (verify_decoded json_loads text (PyDict fields) w1 D1 Hne J).
    rewrite (validate_status_not_ok fields status (todays_name w)
               (verifying (PyDict fields) w1) Hs Hbad N1).
    reflexivity.
  - rewrite recent_enough_store. rewrite S, C, Htext.
    apply download_upload_same.
  - intros w2 Hstore Hnone Hsoon.
    destruct (scan_after_a_fetch json_loads w w2 d n text S C Htext Hclock
                Hstore) as [S2 Hget].
    assert (Skip : use_api (self w2)
                   && (midnight (clock w) <? clock w2 - DT.timedelta_days 7)
                   = false).
    { apply andb_false_iff. right. apply Z.ltb_ge. exact Hsoon. }
    rewrite (cached_manifest_downloaded w2 _ _ text S2 Skip Hnone Hget).
    set (w3 := with_self (set_list_data (PyStr text))
                 (snd (print ("Downloading:  " +++ todays_name w)
                         (with_self (set_list_name (Some (todays_name w)))
                            w2)))).
    split.
    + unfold bind at 1.
      rewrite (verify_decoded json_loads text (PyDict fields) w3 eq_refl
                 Hne J).
      rewrite (validate_status_not_ok fields status (todays_name w)
                 (verifying (PyDict fields) w3) Hs Hbad eq_refl).
      reflexivity.
    + assert (K : moves (keeps (@manifest_requests L))
                    (verify_contents json_loads ;; require_contents ;;
                     ret PyNone))
        by (apply tail_keeps; intros; reflexivity).
      apply (K w3).
Qed.

End Cached.

(* ================================================================= *)
(** ** The further properties on the scenarios *)

Module Further.

Import Budget Sample Cases.


(** Property X4: the manifest fetched on 3 January 2024 is used on 5
    January. *)
Lemma fetched_manifest_witness :
  manifest_requests (snd (recent_enough json_loads two_days_later))
    = manifest_requests two_days_later
      ++ (if use_api (self two_days_later)
             && (midnight (clock first_run)
                 <? clock two_days_later - DT.timedelta_days 7)
          then ["Good"] else [])
  /\ (clock two_days_later - DT.timedelta_days 7
      <= midnight (clock first_run) ->
      list_name (self (snd (recent_enough json_loads two_days_later)))
        = Some (todays_name first_run)
      /\ list_data (self (snd (recent_enough json_loads two_days_later)))
         = PyStr ok_text).
Proof.
  assert (S : latest_scan (FOB.DatasetList_items (fob (self first_run)))
                long_ago None = inr (long_ago, None)) by reflexivity.
  assert (C : use_api (self first_run)
              && (long_ago <? clock first_run - DT.timedelta_days 7) = true)
    by (vm_compute; reflexivity).
  assert (F : fresh_manifest first_run = Some ok_text)
    by (vm_compute; reflexivity).
  assert (B : DT.us_per_day <= clock first_run < 3652060 * DT.us_per_day)
    by (vm_compute; split; [discriminate | reflexivity]).
  assert (T : truthy (list_data (self two_days_later)) = false)
    by reflexivity.
  exact (fetched_manifest_is_reused json_loads first_run two_days_later
           long_ago None ok_text S C F B eq_refl T).
Defined.

(** Property X5: a stale cache without [--api]. *)
Lemma without_api_witness :
  manifest_requests (snd (run options_no_api stale_cache))
    = manifest_requests stale_cache
  /\ dataset_requests (snd (run options_no_api stale_cache))
     = dataset_requests stale_cache
  /\ fob (self (snd (run options_no_api stale_cache)))
     = fob (self stale_cache)
  /\ leg (self (snd (run options_no_api stale_cache)))
     = leg (self stale_cache).
Proof.
  exact (without_api_nothing_is_fetched json_loads load_default_locations
           "FILE" options_no_api stale_cache eq_refl eq_refl).
Defined.

(** Property X7: [--state xx] in Scenario C. *)
Lemma state_in_lower_case_witness :
  dataset_requests (snd (run options_lower scenario_C))
  = dataset_requests scenario_C.
Proof.
  apply (state_not_in_upper_case_fetches_nothing json_loads
           load_default_locations "FILE" options_lower "xx" scenario_C).
  - reflexivity.
  - discriminate.
  - vm_compute. discriminate.
Defined.

(** Property X10 in Scenario C. *)
Lemma run_reports_witness :
  exists w',
    run options_api scenario_C = (inr tt, w')
    /\ Hash_objects w'
       = Hash_objects scenario_C
         ++ flat_map (ledger_rows "FILE" (fromyear (self scenario_C))
                        [session_1400; session_9001])
              (map state_data_of
                 (children_of usa (Location_objects scenario_C)))
    /\ Location_objects w' = Location_objects scenario_C.
Proof.
  assert (E : recent_enough json_loads (snd (take_options options_api scenario_C))
              = (inr PyNone,
                 snd (recent_enough json_loads
                        (snd (take_options options_api scenario_C)))))
    by (vm_compute; reflexivity).
  assert (D : datasetlist
                (self (snd (recent_enough json_loads
                              (snd (take_options options_api scenario_C)))))
              = PyList [session_1400; session_9001])
    by (vm_compute; reflexivity).
  assert (C : children_of usa (Location_objects scenario_C) <> [])
    by (vm_compute; discriminate).
  exact (run_reports_every_state json_loads load_default_locations "FILE"
           options_api scenario_C _ _ _ usa E D eq_refl C).
Defined.

(** Property X11: Scenario B with two rows named [usa], and with an
    empty catalog and default locations that add nothing. *)
Lemma catalog_stops_witness :
  (fst (run options_api (with_catalog [usa; usa; xx] scenario_B))
     = inl MultipleObjectsReturned
   /\ Location_objects
        (snd (run options_api (with_catalog [usa; usa; xx] scenario_B)))
      = [usa; usa; xx])
  /\ fst (handle json_loads no_defaults "FILE" options_api
            (with_catalog [] scenario_B))
     = inl DoesNotExist.
Proof.
  assert (E : forall rows,
             recent_enough json_loads
               (snd (take_options options_api (with_catalog rows scenario_B)))
             = (inr PyNone,
                snd (recent_enough json_loads
                       (snd (take_options options_api
                               (with_catalog rows scenario_B))))))
    by (intros rows; vm_compute; reflexivity).
  split.
  - destruct (proj1 (catalog_stops_the_run json_loads
                       load_default_locations "FILE" options_api
                       (with_catalog [usa; usa; xx] scenario_B) _ _
                       (E [usa; usa; xx]))
                usa usa [] eq_refl) as (Hfail & Hrows & _).
    split; [exact Hfail | exact Hrows].
  - exact (proj1 (proj2 (catalog_stops_the_run json_loads no_defaults
                           "FILE" options_api (with_catalog [] scenario_B)
                           _ _ (E []))
                   eq_refl eq_refl)).
Defined.

(** Property X8 on the two sample sessions. *)
Lemma fetch_dataset_witness :
  exists w' fetched,
    fetch_dataset "XX" 5 fetching = (inr tt, w')
    /\ dataset_requests w' = dataset_requests fetching ++ map request_of fetched
    /\ (forall e, In e fetched ->
          In e [session_1400; session_9001]
          /\ selected 5 (fromyear (self fetching)) e = true)
    /\ (List.length fetched
        <= List.length (filter (selected 5 (fromyear (self fetching)))
                          [session_1400; session_9001]))%nat
    /\ (forall key, String.prefix ("XX" +++ "-") key = false ->
          FOB.download_text key (fob (self w'))
          = FOB.download_text key (fob (self fetching)))
    /\ Hash_objects w' = Hash_objects fetching
    /\ manifest_requests w' = manifest_requests fetching
    /\ stdout w' = stdout fetching
               ++ map (fun e => "Fetching " +++ "XX" +++ ": "
                                +++ str_int (Entry.session_id e)) fetched.
Proof.
  exact (fetch_dataset_stays_within_its_state "XX" 5
           [session_1400; session_9001] fetching eq_refl).
Defined.

(** Property X9 on a store that holds the dataset of session 9001, and
    on an empty store. *)
Lemma report_witness :
  In "Found session dataset:  XX-9001.json"
     (flat_map (report_lines (fob (self holding)) (fromyear (self holding))
                  [session_1400; session_9001]) [("XX", 5)])
  /\ In "Item not found:  XX-9001.json"
        (flat_map (report_lines (fob (self with_manifest))
                     (fromyear (self with_manifest))
                     [session_1400; session_9001]) [("XX", 5)]).
Proof.
  pose proof (report_tells_what_the_store_holds "FILE"
                [session_1400; session_9001] [("XX", 5)] holding eq_refl)
    as Held.
  pose proof (report_tells_what_the_store_holds "FILE"
                [session_1400; session_9001] [("XX", 5)] with_manifest
                eq_refl)
    as Empty.
  cbv zeta in Held, Empty.
  destruct Held as (_ & _ & _ & Held & _).
  destruct Empty as (_ & _ & _ & Empty & _).
  split.
  - apply (proj1 (Held "XX" 5 session_9001
                    (or_introl eq_refl) (or_intror (or_introl eq_refl))
                    eq_refl)).
    exists "dataset 9001". reflexivity.
  - apply (proj2 (Empty "XX" 5 session_9001
                    (or_introl eq_refl) (or_intror (or_introl eq_refl))
                    eq_refl)).
    reflexivity.
Defined.

(** Property X12: [--state XX] in Scenario C. *)
Lemma state_option_witness :
  exists fetched,
    dataset_requests (snd (run options_upper scenario_C))
    = dataset_requests scenario_C ++ map request_of fetched
    /\ (forall e, In e fetched ->
          In e [session_1400; session_9001]
          /\ exists loc,
               In loc (children_of usa (Location_objects scenario_C))
               /\ (forall code, opt_state options_upper = Some code ->
                                code <> "" ->
                                upper (Location.shortname loc) = code)
               /\ selected (Location.legiscan_id loc)
                    (fromyear (self scenario_C)) e = true).
Proof.
  assert (E : recent_enough json_loads
                (snd (take_options options_upper scenario_C))
              = (inr PyNone,
                 snd (recent_enough json_loads
                        (snd (take_options options_upper scenario_C)))))
    by (vm_compute; reflexivity).
  assert (D : datasetlist
                (self (snd (recent_enough json_loads
                              (snd (take_options options_upper scenario_C)))))
              = PyList [session_1400; session_9001])
    by (vm_compute; reflexivity).
  assert (C : children_of usa (Location_objects scenario_C) <> [])
    by (vm_compute; discriminate).
  exact (state_option_limits_the_requests json_loads load_default_locations
           "FILE" options_upper scenario_C _ _ _ usa E D eq_refl C).
Defined.

(** Property X16 in Scenario B, and on a cached manifest that reports an
    error. *)
Lemma cached_manifest_witness :
  (fst (recent_enough json_loads scenario_B) = inr PyNone
   /\ datasetlist (self (snd (recent_enough json_loads scenario_B)))
      = PyList [session_1400; session_9001])
  /\ fst (recent_enough json_loads cached_error)
     = inl (CommandError ("Status not OK: " +++ "DatasetList-2024-01-01.json")).
Proof.
  assert (N1 : ok_text <> "") by (vm_compute; discriminate).
  assert (N2 : error_text <> "") by (vm_compute; discriminate).
  assert (S1 : latest_scan (FOB.DatasetList_items (fob (self scenario_B)))
                 long_ago None
               = inr (DT.mk 2024 1 1 0 0, Some "DatasetList-2024-01-01.json"))
    by (vm_compute; reflexivity).
  assert (S2 : latest_scan (FOB.DatasetList_items (fob (self cached_error)))
                 long_ago None
               = inr (DT.mk 2024 1 1 0 0, Some "DatasetList-2024-01-01.json"))
    by (vm_compute; reflexivity).
  assert (C1 : use_api (self scenario_B)
               && (DT.mk 2024 1 1 0 0
                   <? clock scenario_B - DT.timedelta_days 7) = false)
    by (vm_compute; reflexivity).
  assert (C2 : use_api (self cached_error)
               && (DT.mk 2024 1 1 0 0
                   <? clock cached_error - DT.timedelta_days 7) = false)
    by (vm_compute; reflexivity).
  split.
  - destruct (cached_manifest_is_validated json_loads scenario_B _ _ ok_text
                S1 C1 eq_refl eq_refl N1) as (_ & _ & _ & Hok & _).
    destruct (Hok [("status", PyStr "OK");
                   ("datasetlist", PyList [session_1400; session_9001])]
                  (PyList [session_1400; session_9001]))
      as (Hret & Hlist & _); try reflexivity.
    split; [exact Hret | exact Hlist].
  - destruct (cached_manifest_is_validated json_loads cached_error _ _
                error_text S2 C2 eq_refl eq_refl N2) as (_ & Hbad & _).
    apply (Hbad [("status", PyStr "ERROR")] (PyStr "ERROR")); reflexivity.
Defined.

(** Property X13: Scenario B on an empty catalog. *)
Lemma default_locations_witness :
  exists w',
    run options_api (with_catalog [] scenario_B) = (inr tt, w')
    /\ Location_objects w' = [usa; xx]
    /\ Hash_objects w'
       = Hash_objects (with_catalog [] scenario_B)
         ++ flat_map (ledger_rows "FILE"
                        (fromyear (self (with_catalog [] scenario_B)))
                        [session_1400; session_9001])
              (map state_data_of (children_of usa [usa; xx])).
Proof.
  assert (E : recent_enough json_loads
                (snd (take_options options_api (with_catalog [] scenario_B)))
              = (inr PyNone,
                 snd (recent_enough json_loads
                        (snd (take_options options_api
                                (with_catalog [] scenario_B))))))
    by (vm_compute; reflexivity).
  assert (D : datasetlist
                (self (snd (recent_enough json_loads
                              (snd (take_options options_api
                                      (with_catalog [] scenario_B))))))
              = PyList [session_1400; session_9001])
    by (vm_compute; reflexivity).
  assert (C : children_of usa [usa; xx] <> [])
    by (vm_compute; discriminate).
  exact (default_locations_are_loaded json_loads load_default_locations
           "FILE" options_api (with_catalog [] scenario_B) _ _ _ usa E D
           (or_intror (conj eq_refl (conj eq_refl C)))).
Defined.

(** Property X14: a store that holds [DatasetList-2024-02-30.json]. *)
Lemma impossible_date_witness :
  fst (run options_api impossible_date) = inl ValueError
  /\ stdout (snd (run options_api impossible_date)) = stdout impossible_date
  /\ manifest_requests (snd (run options_api impossible_date))
     = manifest_requests impossible_date
  /\ dataset_requests (snd (run options_api impossible_date))
     = dataset_requests impossible_date
  /\ fob (self (snd (run options_api impossible_date)))
     = fob (self impossible_date)
  /\ Hash_objects (snd (run options_api impossible_date))
     = Hash_objects impossible_date
  /\ Location_objects (snd (run options_api impossible_date))
     = Location_objects impossible_date.
Proof.
  apply (impossible_date_stops_every_run json_loads load_default_locations
           "FILE" options_api impossible_date
           "DatasetList-2024-02-30.json" "2024-02-30").
  - vm_compute. left. reflexivity.
  - vm_compute. reflexivity.
  - vm_compute. reflexivity.
Defined.

(** Property X17: the API gives a manifest that reports an error on 3
    January 2024; a run on 5 January. *)
Lemma rejected_manifest_witness :
  fst (recent_enough json_loads bad_fetch)
    = inl (CommandError ("Status not OK: " +++ todays_name bad_fetch))
  /\ fst (recent_enough json_loads after_bad_fetch)
     = inl (CommandError ("Status not OK: " +++ todays_name bad_fetch))
  /\ manifest_requests (snd (recent_enough json_loads after_bad_fetch))
     = manifest_requests after_bad_fetch.
Proof.
  assert (S : latest_scan (FOB.DatasetList_items (fob (self bad_fetch)))
                long_ago None = inr (long_ago, None)) by reflexivity.
  assert (C : use_api (self bad_fetch)
              && (long_ago <? clock bad_fetch - DT.timedelta_days 7) = true)
    by (vm_compute; reflexivity).
  assert (F : fresh_manifest bad_fetch = Some error_text)
    by (vm_compute; reflexivity).
  assert (J : json_loads error_text = Some (PyDict [("status", PyStr "ERROR")]))
    by (vm_compute; reflexivity).
  assert (B : DT.us_per_day <= clock bad_fetch < 3652060 * DT.us_per_day)
    by (vm_compute; split; [discriminate | reflexivity]).
  assert (N : clock after_bad_fetch - DT.timedelta_days 7
              <= midnight (clock bad_fetch))
    by (vm_compute; discriminate).
  destruct (rejected_manifest_is_cached json_loads bad_fetch long_ago None
              error_text [("status", PyStr "ERROR")] (PyStr "ERROR")
              S C F J eq_refl eq_refl B) as (First & _ & Later).
  split; [exact First |].
  exact (Later after_bad_fetch eq_refl eq_refl N).
Defined.

(** Property X2: three names of the store, listed in two orders. *)
Lemma listing_order_witness :
  latest_scan (rev sample_keys) long_ago None
  = inr (DT.mk 2024 1 1 0 0, Some "DatasetList-2024-01-01.json").
Proof.
  apply (scan_does_not_depend_on_the_listing_order sample_keys
           (rev sample_keys)).
  - intros k. apply in_rev.
  - intros k k' fd Hk Hk' (g & S & P) (g' & S' & P').
    destruct Hk as [<- | [<- | [<- | []]]];
      destruct Hk' as [<- | [<- | [<- | []]]];
      try reflexivity;
      vm_compute in S; vm_compute in S';
      try discriminate S; try discriminate S';
      injection S as <-; injection S' as <-;
      vm_compute in P; vm_compute in P';
      injection P as <-; discriminate P'.
  - vm_compute. reflexivity.
Defined.

(** Property X15: the API gives a manifest without a status. *)
Lemma run_without_a_list_witness :
  fst (run options_api no_status) = inl TypeError
  /\ dataset_requests (snd (run options_api no_status))
     = dataset_requests no_status
  /\ fob (self (snd (run options_api no_status)))
     = fob (self (snd (recent_enough json_loads
                         (snd (take_options options_api no_status)))))
  /\ Hash_objects (snd (run options_api no_status)) = Hash_objects no_status
  /\ Location_objects (snd (run options_api no_status))
     = Location_objects no_status.
Proof.
  assert (E : recent_enough json_loads
                (snd (take_options options_api no_status))
              = (inr PyNone,
                 snd (recent_enough json_loads
                        (snd (take_options options_api no_status)))))
    by (vm_compute; reflexivity).
  assert (D : datasetlist
                (self (snd (recent_enough json_loads
                              (snd (take_options options_api no_status)))))
              = PyNone)
    by (vm_compute; reflexivity).
  assert (C : children_of usa (Location_objects no_status) <> [])
    by (vm_compute; discriminate).
  exact (run_without_a_list_fails json_loads load_default_locations "FILE"
           options_api no_status _ _ usa E D eq_refl C).
Defined.

End Further.
